(** * Facebook login automation: the login session state machine

    A shallow embedding of the server of the repository (its current
    [server.js], the older variant of the same file that is kept next to
    it, and [helpers.js]) together with the properties its specification
    states about account artifacts, second-factor suspension and the
    orchestration of the two site dialects.

    Conventions of the embedding
    - JavaScript strings are [string]; a template literal is a chain of
      [+:+].  Selector literals of the source contain double quotes; they
      are written here with a backtick in place of each double quote and
      passed through [css], which puts the double quotes back.
    - Times are integers of milliseconds ([Z]); [Date.now()] reads the
      clock of the world and [sleep] advances it.
    - An [async] function is a computation in the monad [M]: it threads
      the world and either returns a value or throws a JavaScript error.
      [try]/[catch] is [try_catch]; the world changes made before a throw
      are kept, as in JavaScript.
    - The browser and the external site are capabilities: what a page
      shows is read from a [PageState] of observations, and how the site
      reacts to an action is given by the [Site] of the world.
    - Left out: the console output, the time a single probe may take (a
      probe answers at once), the failure of a write to the disk, and the
      [userAgent] and [viewport] fields of the cookie file, which nothing
      reads.  The launch of a fresh browser, of its context and of its
      page is one step.  A request runs to its end, or to the [await] of
      a promise that is not settled, before the next one starts; while
      the server is idle, the timers that are due fire, and a call that
      awaits a promise goes on, to its end or to its next suspension, as
      soon as the promise is settled. *)

From Stdlib Require Import ZArith Lia Bool Ascii DecimalString.
From Stdlib Require DecimalZ DecimalPos.
From stdpp Require Import base option list strings gmap.

Local Open Scope Z_scope.

(** ** Strings *)

Module Str.

Definition dquote : ascii := Ascii.ascii_of_nat 34.
Definition backtick : ascii := Ascii.ascii_of_nat 96.

Fixpoint map (f : ascii -> ascii) (s : string) : string :=
  match s with
  | EmptyString => EmptyString
  | String c s' => String (f c) (map f s')
  end.

(** [css "input[name=`email`]"] is the source literal
    ['input[name="email"]']. *)
Definition css (s : string) : string :=
  map (fun c => if Ascii.eqb c backtick then dquote else c) s.

(** [String.prototype.startsWith]. *)
Definition startsWith (s p : string) : bool := String.prefix p s.

(** [String.prototype.includes]. *)
Fixpoint includes (s sub : string) : bool :=
  if String.prefix sub s then true
  else match s with
       | EmptyString => false
       | String _ s' => includes s' sub
       end.

(** [String.prototype.split] with a one-character separator. *)
Fixpoint split (sep : ascii) (s : string) : list string :=
  match s with
  | EmptyString => [EmptyString]
  | String c s' =>
      if Ascii.eqb c sep then EmptyString :: split sep s'
      else match split sep s' with
           | [] => [String c EmptyString]
           | w :: ws => String c w :: ws
           end
  end.

(** Decimal rendering of a number inside a template literal. *)
Definition ofZ (z : Z) : string := NilZero.string_of_int (Z.to_int z).

Definition ofNat (n : nat) : string := ofZ (Z.of_nat n).

End Str.

(** ** Account identity and the names derived from it *)

(** The character class of the regular expression [/[@.]/g]. *)
Definition isAtOrDot (c : ascii) : bool :=
  Ascii.eqb c "@"%char || Ascii.eqb c "."%char.

(** [email.replace(/[@.]/g, '_')] *)
Definition sanitize (email : string) : string :=
  Str.map (fun c => if isAtOrDot c then "_"%char else c) email.

(** [path.join(dir, name)] for a directory and a file name. *)
Definition pathJoin (dir name : string) : string := dir +:+ "/" +:+ name.

Definition cookieFileName (email : string) : string :=
  sanitize email +:+ "_cookies.json".

Definition sessionFileName (email : string) : string :=
  sanitize email +:+ "_session.json".

(** The two site dialects. *)
Inductive Version := mobile | desktop.

Global Instance Version_eq_dec : EqDecision Version.
Proof. solve_decision. Defined.

Definition versionName (v : Version) : string :=
  match v with mobile => "mobile" | desktop => "desktop" end.

(** The cache directory name of [createPersistentContext]. *)
Definition cacheDirName (email : string) (v : Version) : string :=
  sanitize email +:+ "_" +:+ versionName v.

(** Two characters that the sanitizing transform cannot tell apart. *)
Definition sameAfterSanitize (c d : ascii) : bool :=
  Ascii.eqb c d
  || ((isAtOrDot c || Ascii.eqb c "_"%char) && (isAtOrDot d || Ascii.eqb d "_"%char)).

(** Two identities of the same length whose characters agree position by
    position up to the confusion of ['@'], ['.'] and ['_']. *)
Fixpoint confusable (a b : string) : bool :=
  match a, b with
  | EmptyString, EmptyString => true
  | String c a', String d b' => sameAfterSanitize c d && confusable a' b'
  | _, _ => false
  end.

(** ** JavaScript errors and results *)

Inductive JsError :=
| Error (msg : string)
| TypeError (msg : string)
| ReferenceError (msg : string).

(** [error.message] *)
Definition errorMessage (e : JsError) : string :=
  match e with Error m | TypeError m | ReferenceError m => m end.

(** What evaluating an expression gives: a value, or a thrown error. *)
Inductive Res (A : Type) :=
| Ok (a : A)
| Throw (e : JsError).

Arguments Ok {A} a.
Arguments Throw {A} e.

Module ResM.

Definition bind {A B} (m : Res A) (k : A -> Res B) : Res B :=
  match m with
  | Ok a => k a
  | Throw e => Throw e
  end.

(** [try { m } catch (error) { h error }] *)
Definition try_catch {A} (m : Res A) (h : JsError -> Res A) : Res A :=
  match m with
  | Ok a => Ok a
  | Throw e => h e
  end.

End ResM.

Notation "'let?' x ':=' m 'in' k" := (ResM.bind m (fun x => k))
  (at level 10, x name, m at level 100, k at level 200).

(** ** The page as the program observes it *)

(** [page.locator(selector)] and [page.locator(selector).nth(j)]. *)
Inductive Locator :=
| Loc (selector : string)
| Nth (selector : string) (j : nat).

Record Cookie := {
  cookie_name : string;
  cookie_value : string;
  cookie_domain : string;
  cookie_path : string;
  cookie_expires : Z
}.

(** The key to value map of one storage scope, as [Object.entries] lists it. *)
Definition Storage := list (string * string).

(** The observations of the browser automation capability on one state of
    a page.  Each of them may reject (the page was closed, the selector is
    not accepted, a navigation destroyed the execution context). *)
Record PageState := {
  url : Res string;                                 (* page.url() *)
  title : Res string;                               (* page.title() *)
  isVisible : Locator -> Res bool;                  (* locator.isVisible() *)
  count : string -> Res nat;                        (* locator.count() *)
  getAttribute : Locator -> string -> Res (option string);
  textContent : Locator -> Res (option string);
  contextCookies : Res (list Cookie);               (* context.cookies() *)
  localStorage : Res Storage;                       (* page.evaluate(...) *)
  sessionStorage : Res Storage
}.

(** What the program does to a page. *)
Inductive Action :=
| Goto (target : string)                (* page.goto(url) *)
| PageClick (selector : string)         (* page.click(selector) *)
| KeyboardType (c : ascii)              (* page.keyboard.type(char) *)
| Click (l : Locator)                   (* locator.click() *)
| ClickForce (l : Locator)              (* locator.click({ force: true }) *)
| Fill (l : Locator) (text : string)    (* locator.fill(text) *)
| TypeInto (l : Locator) (text : string) (* locator.type(text) *)
| SetLocalStorage (entries : Storage)   (* page.evaluate(..., storage) *)
| SetSessionStorage (entries : Storage).

(** The external site and browser: the states of a page are numbered, and
    the site says what each state shows, how it answers an action, how it
    changes while time passes, in which state a new browser starts, and
    what [Math.random] draws. *)
Record Site := {
  pageOf : nat -> PageState;
  react : Action -> nat -> Res nat;
  elapse : Z -> nat -> nat;
  launchState : nat -> Version -> option (list Cookie) -> Res nat;
  (* [context.browser()] of a persistent context: a handle, or [null] *)
  persistentContextHasBrowser : bool;
  (* the value of [randomDelay(min, max)] at the n-th draw *)
  drawDelay : nat -> Z -> Z -> Z
}.

(** ** Artifacts on disk *)

(** The object written by [saveCookies]. *)
Record CookieData := {
  cd_email : string;
  cd_timestamp : option Z;        (* [None]: not a date, [getTime()] is NaN *)
  cd_cookies : list Cookie
}.

(** The object written by [saveSessionState]. *)
Record SessionState := {
  ss_email : string;
  ss_timestamp : option Z;
  ss_url : string;
  ss_title : string;
  ss_localStorage : option Storage;
  ss_sessionStorage : option Storage
}.

Inductive FileContent :=
| Unparsable                      (* [JSON.parse] throws on it *)
| CookieJson (c : CookieData)
| SessionJson (s : SessionState).

(** ** Sessions *)

(** An entry of [activeSessions].  The browser, its context and its page
    are created together; [s_browser] is [None] where the source holds
    [null] for it. *)
Record Session := {
  s_browser : option nat;
  s_context : nat;
  s_page : nat;
  s_email : string;
  s_password : option string;
  s_cacheDir : option string;
  s_version : Version;
  s_createdAt : Z;
  s_quickLogin : bool
}.

(** An entry of [pending2FASessions].  [p_resolve] and [p_reject] are the
    functions of the login promise (the number of the promise), or [None]
    where the source stores [null]. *)
Record Pending := {
  p_page : nat;
  p_email : string;
  p_version : Version;
  p_timestamp : Z;
  p_resolve : option nat;
  p_reject : option nat
}.

(** The result object of a login. *)
Record LoginResult := {
  r_success : bool;
  r_sessionId : option string;
  r_message : string;
  r_error : option string;
  r_version : option string;
  r_usedSavedData : option bool;
  r_quickLogin : option bool;
  r_requires2FA : bool;
  r_completed2FA : bool;
  r_attempts : option (string * string)     (* mobile, desktop *)
}.

Inductive PromiseState :=
| PromisePending
| PromiseResolved (r : LoginResult)
| PromiseRejected (e : JsError).

(** A browser process with its one context and page. *)
Record Browser := {
  b_open : bool;
  b_dom : nat;                      (* the state of its page *)
  b_userDataDir : option string     (* of a persistent context *)
}.

(** What the program did to the outside, in order. *)
Inductive Event :=
| EvLaunch (version : Version)             (* chromium.launch *)
| EvLaunchPersistent (dir : string)        (* chromium.launchPersistentContext *)
| EvClose (h : nat)
| EvSleep (ms : Z)
| EvAction (h : nat) (a : Action)
| EvCheckFor2FA (h : nat) (r : Res bool)
| EvCheckLoginSuccess (h : nat) (r : Res bool)
| EvSnapshot (stage : string).

(** ** The world *)

Record World := {
  now : Z;                                        (* Date.now() *)
  files : gmap string FileContent;                (* regular files, by path *)
  dirs : gset string;                             (* directories, by path *)
  site : Site;
  browsers : list Browser;                        (* by handle *)
  draws : nat;                                    (* random draws so far *)
  activeSessions : gmap string Session;
  pending2FASessions : list (string * Pending);   (* a Map, in insertion order *)
  promises : list PromiseState;                   (* login promises, by number *)
  timers : list (Z * (string * nat));             (* setTimeout: due time, and the
                                                     session id and promise of the callback *)
  trace : list Event
}.

Definition COOKIES_DIR : string := "cookies".
Definition CACHE_DIR : string := "cache".
Definition DEBUG_ENABLED : bool := true.

(** The value of a run that returned. *)
Definition fst_ok {A W : Type} (run : Res A * W) : option A :=
  match fst run with
  | Ok a => Some a
  | Throw _ => None
  end.

(** ** The monad of asynchronous functions *)

Definition M (A : Type) : Type := World -> Res A * World.

Module JsM.

Definition ret {A} (a : A) : M A := fun w => (Ok a, w).

Definition throw {A} (e : JsError) : M A := fun w => (Throw e, w).

Definition bind {A B} (m : M A) (k : A -> M B) : M B :=
  fun w => match m w with
           | (Ok a, w') => k a w'
           | (Throw e, w') => (Throw e, w')
           end.

(** [try { m } catch (error) { h error }]: the handler runs in the world
    the throw left behind. *)
Definition try_catch {A} (m : M A) (h : JsError -> M A) : M A :=
  fun w => match m w with
           | (Ok a, w') => (Ok a, w')
           | (Throw e, w') => h e w'
           end.

(** A value or a rejection computed without touching the world. *)
Definition lift {A} (r : Res A) : M A := fun w => (r, w).

Definition get : M World := fun w => (Ok w, w).

Definition modify (f : World -> World) : M unit := fun w => (Ok tt, f w).

End JsM.

Notation "x <- m ;; k" := (JsM.bind m (fun x => k))
  (at level 100, m at next level, right associativity).
Notation "m ;;; k" := (JsM.bind m (fun _ => k))
  (at level 100, right associativity).

(** ** Primitive operations on the world *)

Definition set_now (v : Z) (w : World) : World :=
  {| now := v; files := files w; dirs := dirs w; site := site w;
     browsers := browsers w; draws := draws w;
     activeSessions := activeSessions w;
     pending2FASessions := pending2FASessions w; promises := promises w;
     timers := timers w; trace := trace w |}.

Definition set_files (v : gmap string FileContent) (w : World) : World :=
  {| now := now w; files := v; dirs := dirs w; site := site w;
     browsers := browsers w; draws := draws w;
     activeSessions := activeSessions w;
     pending2FASessions := pending2FASessions w; promises := promises w;
     timers := timers w; trace := trace w |}.

Definition set_dirs (v : gset string) (w : World) : World :=
  {| now := now w; files := files w; dirs := v; site := site w;
     browsers := browsers w; draws := draws w;
     activeSessions := activeSessions w;
     pending2FASessions := pending2FASessions w; promises := promises w;
     timers := timers w; trace := trace w |}.

Definition set_browsers (v : list Browser) (w : World) : World :=
  {| now := now w; files := files w; dirs := dirs w; site := site w;
     browsers := v; draws := draws w;
     activeSessions := activeSessions w;
     pending2FASessions := pending2FASessions w; promises := promises w;
     timers := timers w; trace := trace w |}.

Definition set_draws (v : nat) (w : World) : World :=
  {| now := now w; files := files w; dirs := dirs w; site := site w;
     browsers := browsers w; draws := v;
     activeSessions := activeSessions w;
     pending2FASessions := pending2FASessions w; promises := promises w;
     timers := timers w; trace := trace w |}.

Definition set_activeSessions (v : gmap string Session) (w : World) : World :=
  {| now := now w; files := files w; dirs := dirs w; site := site w;
     browsers := browsers w; draws := draws w;
     activeSessions := v;
     pending2FASessions := pending2FASessions w; promises := promises w;
     timers := timers w; trace := trace w |}.

Definition set_pending2FASessions (v : list (string * Pending)) (w : World) : World :=
  {| now := now w; files := files w; dirs := dirs w; site := site w;
     browsers := browsers w; draws := draws w;
     activeSessions := activeSessions w;
     pending2FASessions := v; promises := promises w;
     timers := timers w; trace := trace w |}.

Definition set_promises (v : list PromiseState) (w : World) : World :=
  {| now := now w; files := files w; dirs := dirs w; site := site w;
     browsers := browsers w; draws := draws w;
     activeSessions := activeSessions w;
     pending2FASessions := pending2FASessions w; promises := v;
     timers := timers w; trace := trace w |}.

Definition set_timers (v : list (Z * (string * nat))) (w : World) : World :=
  {| now := now w; files := files w; dirs := dirs w; site := site w;
     browsers := browsers w; draws := draws w;
     activeSessions := activeSessions w;
     pending2FASessions := pending2FASessions w; promises := promises w;
     timers := v; trace := trace w |}.

Definition set_trace (v : list Event) (w : World) : World :=
  {| now := now w; files := files w; dirs := dirs w; site := site w;
     browsers := browsers w; draws := draws w;
     activeSessions := activeSessions w;
     pending2FASessions := pending2FASessions w; promises := promises w;
     timers := timers w; trace := v |}.

Definition emit (e : Event) : M unit :=
  JsM.modify (fun w => set_trace (trace w ++ [e]) w).

(** [Date.now()] and [new Date()] *)
Definition dateNow : M Z := w <- JsM.get ;; JsM.ret (now w).

Definition elapseBrowser (s : Site) (ms : Z) (b : Browser) : Browser :=
  if b_open b
  then {| b_open := true; b_dom := elapse s ms (b_dom b);
          b_userDataDir := b_userDataDir b |}
  else b.

(** [await sleep(ms)]: the clock advances and every open page lives on. *)
Definition sleep (ms : Z) : M unit :=
  emit (EvSleep ms) ;;;
  JsM.modify (fun w =>
    set_browsers (elapseBrowser (site w) (Z.max 0 ms) <$> browsers w)
      (set_now (now w + Z.max 0 ms) w)).

(** [randomDelay(min, max)]; the draw is the site's, rounded to a whole
    number of milliseconds. *)
Definition randomDelay (min max : Z) : M Z :=
  w <- JsM.get ;;
  JsM.modify (set_draws (S (draws w))) ;;;
  JsM.ret (drawDelay (site w) (draws w) min max).

Definition closedError : JsError :=
  Error "Target page, context or browser has been closed".

Definition closedPage : PageState :=
  {| url := Throw closedError;
     title := Throw closedError;
     isVisible := fun _ => Throw closedError;
     count := fun _ => Throw closedError;
     getAttribute := fun _ _ => Throw closedError;
     textContent := fun _ => Throw closedError;
     contextCookies := Throw closedError;
     localStorage := Throw closedError;
     sessionStorage := Throw closedError |}.

(** The page behind a handle, as it can be observed now. *)
Definition pageIn (w : World) (h : nat) : PageState :=
  match browsers w !! h with
  | Some b => if b_open b then pageOf (site w) (b_dom b) else closedPage
  | None => closedPage
  end.

Definition observe (h : nat) : M PageState :=
  w <- JsM.get ;; JsM.ret (pageIn w h).

(** One action on the page of a handle. *)
Definition act (h : nat) (a : Action) : M unit :=
  emit (EvAction h a) ;;;
  w <- JsM.get ;;
  match browsers w !! h with
  | Some b =>
      if b_open b then
        match react (site w) a (b_dom b) with
        | Ok d =>
            JsM.modify (set_browsers
              (<[h := {| b_open := true; b_dom := d;
                         b_userDataDir := b_userDataDir b |}]> (browsers w)))
        | Throw e => JsM.throw e
        end
      else JsM.throw closedError
  | None => JsM.throw closedError
  end.

(** A new browser with its context and page, in the state the site
    gives it; the handle is its position in [browsers]. *)
Definition openBrowser (version : Version) (userDataDir : option string)
    (cookies : option (list Cookie)) : M nat :=
  w <- JsM.get ;;
  let h := length (browsers w) in
  match launchState (site w) h version cookies with
  | Ok d =>
      JsM.modify (set_browsers
        (browsers w ++ [{| b_open := true; b_dom := d;
                           b_userDataDir := userDataDir |}])) ;;;
      JsM.ret h
  | Throw e => JsM.throw e
  end.

(** [chromium.launch], [browser.newContext] and [context.newPage] of a
    fresh login, taken as one step. *)
Definition launchFresh (version : Version) : M nat :=
  emit (EvLaunch version) ;;;
  openBrowser version None None.

(** [chromium.launchPersistentContext(cacheDir, options)] *)
Definition launchPersistentContext (cacheDir : string) (version : Version)
    (cookies : option (list Cookie)) : M nat :=
  emit (EvLaunchPersistent cacheDir) ;;;
  openBrowser version (Some cacheDir) cookies.

Definition closeIt (b : Browser) : Browser :=
  {| b_open := false; b_dom := b_dom b; b_userDataDir := b_userDataDir b |}.

(** [browser.close()] *)
Definition browserClose (h : nat) : M unit :=
  emit (EvClose h) ;;;
  JsM.modify (fun w => set_browsers (alter closeIt h (browsers w)) w).

(** *** The file system *)

Definition existsSync (path : string) : M bool :=
  w <- JsM.get ;;
  JsM.ret (bool_decide (is_Some (files w !! path)) || bool_decide (path ∈ dirs w)).

(** [JSON.parse(fs.readFileSync(path, 'utf8'))] *)
Definition readJson (path : string) : M FileContent :=
  w <- JsM.get ;;
  match files w !! path with
  | None => JsM.throw (Error ("ENOENT: no such file or directory, open " +:+ path))
  | Some Unparsable => JsM.throw (Error "Unexpected token in JSON")
  | Some c => JsM.ret c
  end.

(** [fs.writeFileSync(path, JSON.stringify(data))] *)
Definition writeJson (path : string) (c : FileContent) : M unit :=
  JsM.modify (fun w => set_files (<[path := c]> (files w)) w).

Definition unlinkSync (path : string) : M unit :=
  w <- JsM.get ;;
  match files w !! path with
  | Some _ => JsM.modify (set_files (delete path (files w)))
  | None => JsM.throw (Error ("ENOENT: no such file or directory, unlink " +:+ path))
  end.

(** [fs.mkdirSync(path, { recursive: true })] *)
Definition mkdirSync (path : string) : M unit :=
  JsM.modify (fun w => set_dirs ({[path]} ∪ dirs w) w).

(** [fs.rmSync(path, { recursive: true, force: true })] *)
Definition rmSync (path : string) : M unit :=
  JsM.modify (fun w => set_files (delete path (files w)) (set_dirs (dirs w ∖ {[path]}) w)).

(** ** helpers.js *)

Import Str.

Record SelectorSet := {
  sel_email : list string;
  sel_password : list string;
  sel_loginButton : list string
}.

Definition SELECTORS (version : Version) : SelectorSet :=
  match version with
  | mobile =>
      {| sel_email :=
           [ css "input[name=`email`]";
             css "input[type=`email`]";
             css "input[type=`text`]:first-of-type";
             css "input[id=`m_login_email`]" ];
         sel_password :=
           [ css "input[name=`pass`]";
             css "input[type=`password`]";
             css "input[id=`m_login_password`]" ];
         sel_loginButton :=
           [ css "div[role=`button`][aria-label=`Iniciar sesión`]:not(:has-text(`Spinner`))";
             css "div[role=`button`]:has-text(`Iniciar sesión`):not(:has-text(`Spinner`))";
             css "div[role=`button`][aria-label=`Log in`]:not(:has-text(`Spinner`))";
             css "div[role=`button`]:has-text(`Log in`):not(:has-text(`Spinner`))";
             css "button[name=`login`]";
             css "button[type=`submit`]";
             css "div[role=`button`]:has-text(`Iniciar sesión`)";
             css "div[role=`button`]:has-text(`Log in`)" ] |}
  | desktop =>
      {| sel_email :=
           [ css "input[name=`email`]";
             css "input[type=`email`]";
             css "input[data-testid=`royal_email`]";
             css "input[id=`email`]" ];
         sel_password :=
           [ css "input[name=`pass`]";
             css "input[type=`password`]";
             css "input[data-testid=`royal_pass`]";
             css "input[id=`pass`]" ];
         sel_loginButton :=
           [ css "button[name=`login`]";
             css "button[type=`submit`]";
             css "button[data-testid=`royal_login_button`]";
             css "div[role=`button`]:has-text(`Iniciar sesión`)";
             css "div[role=`button`]:has-text(`Log in`)";
             css "input[type=`submit`][value=`Log In`]";
             css "input[type=`submit`][value=`Iniciar sesión`]" ] |}
  end.

(** [new Date(data.timestamp).getTime()] of a parsed artifact file. *)
Definition timestampOf (c : FileContent) : option Z :=
  match c with
  | Unparsable => None
  | CookieJson d => cd_timestamp d
  | SessionJson s => ss_timestamp s
  end.

(** A parsed artifact file read as the object of [saveCookies]; a file of
    the other kind has no [cookies] property. *)
Definition asCookieData (c : FileContent) : CookieData :=
  match c with
  | CookieJson d => d
  | SessionJson s =>
      {| cd_email := ss_email s; cd_timestamp := ss_timestamp s; cd_cookies := [] |}
  | Unparsable => {| cd_email := ""; cd_timestamp := None; cd_cookies := [] |}
  end.

(** The retention window of [loadCookies]: 7 days in milliseconds. *)
Definition maxAge : Z := 7 * 24 * 60 * 60 * 1000.

(** [cookieAge > maxAge]; a comparison with NaN is false. *)
Definition tooOld (nowMs : Z) (timestamp : option Z) : bool :=
  match timestamp with
  | Some t => maxAge <? nowMs - t
  | None => false
  end.

Definition saveCookies (context : nat) (email cookiesDir : string) : M (option string) :=
  JsM.try_catch
    (p <- observe context ;;
     cookies <- JsM.lift (contextCookies p) ;;
     t <- dateNow ;;
     let cookieFile := pathJoin cookiesDir (cookieFileName email) in
     writeJson cookieFile
       (CookieJson {| cd_email := email; cd_timestamp := Some t; cd_cookies := cookies |}) ;;;
     JsM.ret (Some cookieFile))
    (fun _ => JsM.ret None).

Definition loadCookies (email cookiesDir : string) : M (option CookieData) :=
  JsM.try_catch
    (let cookieFile := pathJoin cookiesDir (cookieFileName email) in
     there <- existsSync cookieFile ;;
     if negb there then JsM.ret None
     else
       cookieData <- readJson cookieFile ;;
       t <- dateNow ;;
       if tooOld t (timestampOf cookieData) then JsM.ret None
       else JsM.ret (Some (asCookieData cookieData)))
    (fun _ => JsM.ret None).

Definition saveSessionState (context page : nat) (email cookiesDir : string)
    : M (option string) :=
  JsM.try_catch
    (saveCookies context email cookiesDir ;;;
     t <- dateNow ;;
     p <- observe page ;;
     u <- JsM.lift (url p) ;;
     ti <- JsM.lift (title p) ;;
     ls <- JsM.lift (localStorage p) ;;
     ss <- JsM.lift (sessionStorage p) ;;
     let sessionFile := pathJoin cookiesDir (sessionFileName email) in
     writeJson sessionFile
       (SessionJson {| ss_email := email; ss_timestamp := Some t; ss_url := u;
                       ss_title := ti; ss_localStorage := Some ls;
                       ss_sessionStorage := Some ss |}) ;;;
     JsM.ret (Some sessionFile))
    (fun _ => JsM.ret None).

Definition storagesOf (c : FileContent) : option Storage * option Storage :=
  match c with
  | SessionJson s => (ss_localStorage s, ss_sessionStorage s)
  | _ => (None, None)
  end.

Definition restoreSessionState (page : nat) (email cookiesDir : string) : M bool :=
  JsM.try_catch
    (let sessionFile := pathJoin cookiesDir (sessionFileName email) in
     there <- existsSync sessionFile ;;
     if negb there then JsM.ret false
     else
       sessionState <- readJson sessionFile ;;
       (match fst (storagesOf sessionState) with
        | Some storage => act page (SetLocalStorage storage)
        | None => JsM.ret tt
        end) ;;;
       (match snd (storagesOf sessionState) with
        | Some storage => act page (SetSessionStorage storage)
        | None => JsM.ret tt
        end) ;;;
       JsM.ret true)
    (fun _ => JsM.ret false).

(** [i % r === 0] *)
Definition pauseDue (i : nat) (r : Z) : bool :=
  negb (r =? 0) && (Z.rem (Z.of_nat i) r =? 0).

Fixpoint typeChars (page : nat) (i : nat) (text : string) : M unit :=
  match text with
  | EmptyString => JsM.ret tt
  | String char rest =>
      _ <- randomDelay 200 400 ;;
      act page (KeyboardType char) ;;;
      pause <- (if (0 <? i)%nat
                then (r <- randomDelay 3 5 ;; JsM.ret (pauseDue i r))
                else JsM.ret false) ;;
      (if pause then (d <- randomDelay 500 800 ;; sleep d) else JsM.ret tt) ;;;
      typeChars page (S i) rest
  end.

(** [typeOptimized(page, selector, text)]; [text] is [None] for [null],
    whose [length] cannot be read. *)
Definition typeOptimized (page : nat) (selector : string) (text : option string) : M unit :=
  act page (PageClick selector) ;;;
  sleep 300 ;;;
  match text with
  | Some t => typeChars page 0 t
  | None => JsM.throw (TypeError "Cannot read properties of null (reading 'length')")
  end.

(** [createDebugSnapshot]: a screenshot and a JSON file in the debug
    directory; every failure is caught inside. *)
Definition createDebugSnapshot (page : nat) (stage : string) : M unit :=
  emit (EvSnapshot stage).

(** [await element.isVisible(...)] inside [try { ... } catch { continue }] *)
Definition visibleNow (p : PageState) (l : Locator) : bool :=
  match isVisible p l with
  | Ok true => true
  | _ => false
  end.

Fixpoint findElement (p : PageState) (selectors : list string) : option Locator :=
  match selectors with
  | [] => None
  | selector :: rest =>
      if visibleNow p (Loc selector) then Some (Loc selector)
      else findElement p rest
  end.

Definition detectFacebookVersion (p : PageState) : Res Version :=
  let? u := url p in
  if includes u "m.facebook.com" then Ok mobile
  else if includes u "www.facebook.com" || includes u "facebook.com" then Ok desktop
  else
    ResM.try_catch
      (let? mobileIndicator := isVisible p (Loc (css "input[id=`m_login_email`]")) in
       if mobileIndicator then Ok mobile
       else
         let? desktopIndicator := isVisible p (Loc (css "input[data-testid=`royal_email`]")) in
         if desktopIndicator then Ok desktop else Ok mobile)
      (fun _ => Ok mobile).

Definition getSelectorsForVersion (p : PageState) : Res SelectorSet :=
  let? version := detectFacebookVersion p in
  Ok (SELECTORS version).

Definition clickAndSettle (page : nat) (button : Locator) : M bool :=
  act page (Click button) ;;;
  sleep 2000 ;;;
  JsM.ret true.

Definition handleSaveLoginDialog (page : nat) : M bool :=
  JsM.try_catch
    (sleep 2000 ;;;
     p <- observe page ;;
     match findElement p
             [ css "div[role=`button`]:has-text(`Ahora no`)";
               css "div[role=`button`]:has-text(`Not now`)";
               css "button:has-text(`Ahora no`)";
               css "button:has-text(`Not now`)";
               css "div[aria-label=`Not Now`]";
               css "div[aria-label=`Ahora no`]" ] with
     | Some notNowButton => clickAndSettle page notNowButton
     | None =>
         p' <- observe page ;;
         match findElement p'
                 [ css "div[role=`button`]:has-text(`Guardar`)";
                   css "div[role=`button`]:has-text(`Save`)";
                   css "button:has-text(`Guardar`)";
                   css "button:has-text(`Save`)";
                   css "button[data-testid=`save_device_checkbox`]" ] with
         | Some saveButton => clickAndSettle page saveButton
         | None => JsM.ret false
         end
     end)
    (fun _ => JsM.ret false).

Definition readyButtonSelectors : list string :=
  [ css "div[role=`button`][aria-label=`Iniciar sesión`]:not(:has-text(`Spinner`))";
    css "div[role=`button`]:has-text(`Iniciar sesión`):not(:has-text(`Spinner`))";
    css "div[role=`button`][aria-label=`Log in`]:not(:has-text(`Spinner`))";
    css "div[role=`button`]:has-text(`Log in`):not(:has-text(`Spinner`))";
    css "button[name=`login`]";
    css "button[type=`submit`]" ].

(** The [while] loop of [waitForLoginButton].  Every turn sleeps one
    second, so [rounds] turns are enough once
    [maxWaitMs <= 1000 * rounds] (lemmas [waitLoop_rounds_enough] and
    [waitForLoginButton_rounds]); the branch taken when the rounds are
    used up is never reached then. *)
Fixpoint waitLoop (rounds : nat) (page : nat) (startTime maxWaitMs : Z)
    (fallback : list string) : M (option Locator) :=
  t <- dateNow ;;
  if t - startTime <? maxWaitMs then
    match rounds with
    | O => JsM.throw (Error "waitForLoginButton: rounds used up")
    | S rounds' =>
        p <- observe page ;;
        match findElement p readyButtonSelectors with
        | Some readyButton => JsM.ret (Some readyButton)
        | None =>
            sleep 1000 ;;;
            waitLoop rounds' page startTime maxWaitMs fallback
        end
    end
  else
    p <- observe page ;;
    JsM.ret (findElement p fallback).

Definition roundsFor (maxWaitMs : Z) : nat := Z.to_nat ((maxWaitMs + 999) / 1000).

Definition waitForLoginButton (page : nat) (maxWaitMs : Z) : M (option Locator) :=
  startTime <- dateNow ;;
  p <- observe page ;;
  selectors <- JsM.lift (getSelectorsForVersion p) ;;
  waitLoop (roundsFor maxWaitMs) page startTime maxWaitMs (sel_loginButton selectors).

(** The second-factor indicators probed by [checkLoginSuccess]. *)
Definition twoFAIndicators_checkLoginSuccess : list string :=
  [ css "input[placeholder*=`código` i]";
    css "input[placeholder*=`code` i]";
    css "input[name=`approvals_code`]";
    css "input[id=`approvals_code`]";
    css "input[data-testid=`2fa_code`]";
    css "input[inputmode=`numeric`]";
    css "input[aria-label*=`código` i]";
    css "input[aria-label*=`Código` i]";
    css "input[type=`text`][maxlength=`6`]";
    css "input[autocomplete=`one-time-code`]";
    "text=Ve a tu app de autenticación";
    "text=Ingresa el código de 6 dígitos para esta cuenta";
    "text=desde la app de autenticación en dos pasos que configuraste";
    "text=app de autenticación";
    "text=Duo Mobile";
    "text=Google Authenticator";
    "text=Confía en este dispositivo y omite este paso";
    css ":text(`Ve a tu app`)";
    css ":text(`código de 6 dígitos`)";
    css ":text(`app de autenticación`)";
    css ":text(`Ingresa el código`)";
    css ":text(`dos pasos`)";
    css ":text(`autenticación en dos`)";
    "text=código de verificación";
    "text=authentication code";
    "text=two-factor";
    "text=verificación";
    "text=verification";
    css "div:has-text(`Ve a tu app de autenticación`)";
    css "div:has-text(`Ingresa el código de 6 dígitos`)";
    css "form:has-text(`código de 6 dígitos`)" ].

Definition successUrls : list string :=
  [ "home.php"; "/?"; "/feed"; "/home";
    "facebook.com/?sk=h_chr"; "facebook.com/?ref=tn_tnmn" ].

Definition successIndicators : list string :=
  [ css "[data-testid=`search`]";
    css "[aria-label=`Facebook`]";
    css "div[role=`main`]";
    css "[data-testid=`blue_bar`]" ].

Definition checkLoginSuccess (p : PageState) : Res bool :=
  let? currentUrl := url p in
  if existsb (fun indicator => visibleNow p (Loc indicator))
       twoFAIndicators_checkLoginSuccess
  then Ok false
  else if existsb (fun u => includes currentUrl u) successUrls
  then Ok true
  else
    ResM.try_catch
      (let? loginFields :=
         count p (css "input[name=`email`], input[type=`password`]") in
       if (loginFields =? 0)%nat then Ok true
       else if existsb (fun indicator => visibleNow p (Loc indicator)) successIndicators
       then Ok true
       else Ok false)
      (fun _ => Ok false).

(** The second-factor indicators probed by [checkFor2FA]. *)
Definition twoFAIndicators : list string :=
  [ css "input[placeholder*=`código` i]";
    css "input[placeholder*=`code` i]";
    css "input[name=`approvals_code`]";
    css "input[id=`approvals_code`]";
    css "input[data-testid=`2fa_code`]";
    css "input[inputmode=`numeric`]";
    css "input[aria-label*=`código` i]";
    css "input[aria-label*=`Código` i]";
    css "input[type=`text`][maxlength=`6`]";
    css "input[autocomplete=`one-time-code`]";
    "text=Ve a tu app de autenticación";
    "text=Ingresa el código de 6 dígitos para esta cuenta";
    "text=desde la app de autenticación en dos pasos que configuraste";
    "text=app de autenticación";
    "text=Duo Mobile";
    "text=Google Authenticator";
    "text=Confía en este dispositivo y omite este paso";
    css ":text(`Ve a tu app`)";
    css ":text(`código de 6 dígitos`)";
    css ":text(`app de autenticación`)";
    css ":text(`Ingresa el código`)";
    css ":text(`dos pasos`)";
    css ":text(`autenticación en dos`)";
    "text=código de";
    "text=código de verificación";
    "text=autenticación de dos factores";
    "text=Ingresa el código de 6 dígitos";
    "text=Revisa tu dispositivo de autenticación";
    "text=Código de seguridad";
    "text=Código";
    "text=authentication code";
    "text=two-factor";
    "text=verificación";
    "text=verification";
    "text=Enter the 6-digit code";
    "text=Check your authentication device";
    "text=Security code";
    "text=Two-Factor Authentication";
    "text=Go to your authentication app";
    css "[data-testid=`2fa-form`]";
    css "[role=`dialog`]:has-text(`código`)";
    css "[role=`dialog`]:has-text(`code`)";
    css "form:has-text(`código de verificación`)";
    css "form:has-text(`authentication code`)";
    css "button:has-text(`Continuar`)";
    css "div[role=`button`]:has-text(`Continuar`)";
    css "button:has-text(`Continue`)";
    css "div[role=`button`]:has-text(`Continue`)";
    css "button:has-text(`Usar otro método`)";
    css "div[role=`button`]:has-text(`Usar otro método`)";
    css "div:has-text(`Ve a tu app de autenticación`)";
    css "div:has-text(`Ingresa el código de 6 dígitos`)";
    css "form:has-text(`código de 6 dígitos`)" ].

Definition twoFAUrlPatterns : list string :=
  [ "checkpoint"; "two_factor"; "approvals"; "security"; "verify";
    "auth-app"; "authentication"; "confirm"; "mfa"; "otp"; "factor" ].

Definition checkFor2FA (p : PageState) : Res bool :=
  ResM.try_catch
    (let? _ := url p in                      (* logged *)
     let? _ := title p in                    (* logged *)
     if existsb (fun indicator => visibleNow p (Loc indicator)) twoFAIndicators
     then Ok true
     else
       let? currentUrl := url p in
       if existsb (fun pattern => includes currentUrl pattern) twoFAUrlPatterns
       then Ok true
       else Ok false)
    (fun _ => Ok false).

(** The two checks awaited on the page of a handle. *)
Definition checkFor2FAOn (page : nat) : M bool :=
  p <- observe page ;;
  emit (EvCheckFor2FA page (checkFor2FA p)) ;;;
  JsM.lift (checkFor2FA p).

Definition checkLoginSuccessOn (page : nat) : M bool :=
  p <- observe page ;;
  emit (EvCheckLoginSuccess page (checkLoginSuccess p)) ;;;
  JsM.lift (checkLoginSuccess p).

(** ** server.js *)

Definition facebookUrl (version : Version) : string :=
  match version with
  | mobile => "https://m.facebook.com/"
  | desktop => "https://www.facebook.com/"
  end.

(** [pending2FASessions.get(sessionId)] *)
Definition lookupPending (sessionId : string) (l : list (string * Pending)) : option Pending :=
  snd <$> List.find (fun entry => bool_decide (fst entry = sessionId)) l.

(** [pending2FASessions.set(sessionId, data)]: a new key goes last, a key
    that is there keeps its place. *)
Fixpoint setPending (sessionId : string) (data : Pending) (l : list (string * Pending))
    : list (string * Pending) :=
  match l with
  | [] => [(sessionId, data)]
  | entry :: rest =>
      if bool_decide (fst entry = sessionId) then (sessionId, data) :: rest
      else entry :: setPending sessionId data rest
  end.

(** [pending2FASessions.delete(sessionId)] *)
Definition deletePending (sessionId : string) (l : list (string * Pending))
    : list (string * Pending) :=
  filter (fun entry => fst entry ≠ sessionId) l.

(** What [createPersistentContext] returns. *)
Record PersistentData := {
  pd_browser : option nat;
  pd_context : nat;
  pd_savedCookies : option CookieData;
  pd_cacheDir : string
}.

Definition createPersistentContext (email : string) (version : Version) : M PersistentData :=
  savedCookies <- loadCookies email COOKIES_DIR ;;
  let cacheDir := pathJoin CACHE_DIR (cacheDirName email version) in
  there <- existsSync cacheDir ;;
  (if negb there then mkdirSync cacheDir else JsM.ret tt) ;;;
  context <- launchPersistentContext cacheDir version (cd_cookies <$> savedCookies) ;;
  w <- JsM.get ;;
  let browser := if persistentContextHasBrowser (site w) then Some context else None in
  JsM.ret {| pd_browser := browser; pd_context := context;
             pd_savedCookies := savedCookies; pd_cacheDir := cacheDir |}.

Definition resultOf (success : bool) (sessionId : option string) (message : string)
    (error : option string) (version : option string) : LoginResult :=
  {| r_success := success; r_sessionId := sessionId; r_message := message;
     r_error := error; r_version := version; r_usedSavedData := None;
     r_quickLogin := None; r_requires2FA := false; r_completed2FA := false;
     r_attempts := None |}.

Definition successResult (sessionId message : string) (usedSavedData : bool)
    (version : Version) (quickLogin : bool) : LoginResult :=
  {| r_success := true; r_sessionId := Some sessionId; r_message := message;
     r_error := None; r_version := Some (versionName version);
     r_usedSavedData := Some usedSavedData; r_quickLogin := Some quickLogin;
     r_requires2FA := false; r_completed2FA := false; r_attempts := None |}.

Definition requires2FAResult (sessionId : option string) (message : string)
    (version : option string) : LoginResult :=
  {| r_success := false; r_sessionId := sessionId; r_message := message;
     r_error := None; r_version := version; r_usedSavedData := None;
     r_quickLogin := None; r_requires2FA := true; r_completed2FA := false;
     r_attempts := None |}.

(** The handles of a login attempt. *)
Record Handles := {
  h_browser : option nat;
  h_context : nat;
  h_savedCookies : option CookieData;
  h_cacheDir : option string;
  h_page : nat
}.

(** The three checks for a second factor of [attemptLoginWithVersion]
    (the block "Verificar 2FA MULTIPLES VECES"): at once, one second
    later, two more seconds later; each later check only if the one
    before found nothing. *)
Definition verify2FA (page : nat) : M bool :=
  first <- checkFor2FAOn page ;;
  second <- (if negb first
             then (sleep 1000 ;;; checkFor2FAOn page)
             else JsM.ret first) ;;
  if negb second
  then (sleep 2000 ;;; checkFor2FAOn page)
  else JsM.ret second.

(** The direct entry with cookies and cache of a quick login; [None] when
    it does not end in a success. *)
Definition tryCookiesAndCache (sessionId email : string) (version : Version)
    (quickLogin : bool) (hs : Handles) : M (option LoginResult) :=
  JsM.try_catch
    (act (h_page hs) (Goto (facebookUrl version)) ;;;
     sleep 2000 ;;;
     restoreSessionState (h_page hs) email COOKIES_DIR ;;;
     sleep 1000 ;;;
     handleSaveLoginDialog (h_page hs) ;;;
     ok <- checkLoginSuccessOn (h_page hs) ;;
     if ok then
       saveCookies (h_context hs) email COOKIES_DIR ;;;
       saveSessionState (h_context hs) (h_page hs) email COOKIES_DIR ;;;
       JsM.ret (Some (successResult sessionId
         ("¡Login exitoso usando cookies + cache " +:+ versionName version
            +:+ "! Página permanece abierta.")
         true version quickLogin))
     else JsM.ret None)
    (fun _ => JsM.ret None).

(** [await browser.close()] on a variable that may hold [null]. *)
Definition closeMaybe (browser : option nat) : M unit :=
  match browser with
  | Some h => browserClose h
  | None => JsM.throw (TypeError "Cannot read properties of null (reading 'close')")
  end.

(** The normal login of [attemptLoginWithVersion] is cut here into its
    consecutive parts: [enterCredentials], [hesitate], the click,
    [settle], [verify2FA] above and [conclude]; [loginWithCredentials]
    puts them in a row again. *)

(** From the navigation to the login button: the page is loaded, the
    e-mail and the password are typed, the button is waited for. *)
Definition enterCredentials (page : nat) (email : string) (password : option string)
    (version : Version) : M Locator :=
  act page (Goto (facebookUrl version)) ;;;
  d <- randomDelay 1000 1500 ;;
  sleep d ;;;
  (if DEBUG_ENABLED then createDebugSnapshot page ("inicial-" +:+ versionName version)
   else JsM.ret tt) ;;;
  p <- observe page ;;
  selectors <- JsM.lift (getSelectorsForVersion p) ;;
  p <- observe page ;;
  match findElement p (sel_email selectors) with
  | None => JsM.throw (Error ("No se pudo encontrar el campo de email en versión "
                                +:+ versionName version))
  | Some _ =>
  (* selectors.email[0]: the lists of SELECTORS are not empty *)
  typeOptimized page (default "undefined" (head (sel_email selectors))) (Some email) ;;;
  p <- observe page ;;
  match findElement p (sel_password selectors) with
  | None => JsM.throw (Error ("No se pudo encontrar el campo de contraseña en versión "
                                +:+ versionName version))
  | Some _ =>
  typeOptimized page (default "undefined" (head (sel_password selectors))) password ;;;
  loginButton <- waitForLoginButton page 15000 ;;
  match loginButton with
  | None =>
      (if DEBUG_ENABLED
       then createDebugSnapshot page ("no-login-button-" +:+ versionName version)
       else JsM.ret tt) ;;;
      JsM.throw (Error ("No se pudo encontrar el botón de login en versión "
                          +:+ versionName version))
  | Some loginButton => JsM.ret loginButton
  end end end.

(** The pause before the click. *)
Definition hesitate : M unit :=
  d <- randomDelay 500 800 ;;
  sleep d.

(** The wait for the answer of the site after the click. *)
Definition settle (page : nat) : M unit :=
  sleep 3000 ;;;
  handleSaveLoginDialog page ;;;
  sleep 2000.

(** What follows the checks for a second factor. *)
Definition conclude (sessionId email : string) (version : Version) (quickLogin : bool)
    (hs : Handles) (requires2FA : bool) : M LoginResult :=
  let page := h_page hs in
  if requires2FA then
    (if DEBUG_ENABLED
     then createDebugSnapshot page ("2fa-detected-" +:+ versionName version)
     else JsM.ret tt) ;;;
    t <- dateNow ;;
    JsM.modify (fun w => set_pending2FASessions
      (setPending sessionId
         {| p_page := page; p_email := email; p_version := version;
            p_timestamp := t; p_resolve := None; p_reject := None |}
         (pending2FASessions w)) w) ;;;
    JsM.throw (Error ("2FA_REQUIRED:" +:+ sessionId +:+ ":" +:+ versionName version))
  else
    (if DEBUG_ENABLED
     then createDebugSnapshot page ("post-login-" +:+ versionName version)
     else JsM.ret tt) ;;;
    ok <- checkLoginSuccessOn page ;;
    if ok then
      saveCookies (h_context hs) email COOKIES_DIR ;;;
      saveSessionState (h_context hs) page email COOKIES_DIR ;;;
      (if negb quickLogin && negb (bool_decide (is_Some (h_cacheDir hs))) then
         let cacheDir := pathJoin CACHE_DIR (cacheDirName email version) in
         there <- existsSync cacheDir ;;
         if negb there then mkdirSync cacheDir else JsM.ret tt
       else JsM.ret tt) ;;;
      JsM.ret (successResult sessionId
        ("¡Login " +:+ versionName version
           +:+ " exitoso con credenciales! Cookies + cache guardados. Página permanece abierta.")
        false version false)
    else
      (if DEBUG_ENABLED
       then createDebugSnapshot page ("login-failed-" +:+ versionName version)
       else JsM.ret tt) ;;;
      JsM.throw (Error ("El login " +:+ versionName version
                          +:+ " no fue exitoso - verifica credenciales")).

Definition loginWithCredentials (sessionId email : string) (password : option string)
    (version : Version) (quickLogin : bool) (hs : Handles) : M LoginResult :=
  loginButton <- enterCredentials (h_page hs) email password version ;;
  hesitate ;;;
  act (h_page hs) (ClickForce loginButton) ;;;
  settle (h_page hs) ;;;
  requires2FA <- verify2FA (h_page hs) ;;
  conclude sessionId email version quickLogin hs requires2FA.

Definition sessionIdOf (email : string) (version : Version) (quickLogin : bool)
    (t : Z) : string :=
  (if quickLogin then "quick-" else "") +:+ sanitize email +:+ "-"
    +:+ versionName version +:+ "-" +:+ ofZ t.

Definition deleteActiveSession (sessionId : string) : M unit :=
  JsM.modify (fun w => set_activeSessions (delete sessionId (activeSessions w)) w).

(** The [catch] block of [attemptLoginWithVersion]. *)
Definition attemptFailed (sessionId : string) (version : Version) (error : JsError)
    : M LoginResult :=
  w <- JsM.get ;;
  (match activeSessions w !! sessionId with
   | Some session =>
       if DEBUG_ENABLED
       then createDebugSnapshot (s_page session) ("error-" +:+ versionName version)
       else JsM.ret tt
   | None => JsM.ret tt
   end) ;;;
  if startsWith (errorMessage error) "2FA_REQUIRED:" then JsM.throw error
  else
    w <- JsM.get ;;
    (match activeSessions w !! sessionId with
     | Some session =>
         (match s_browser session with
          | Some browser => browserClose browser
          | None => JsM.ret tt
          end) ;;;
         deleteActiveSession sessionId
     | None => JsM.ret tt
     end) ;;;
    JsM.ret (resultOf false None
      ("Error " +:+ versionName version +:+ ": " +:+ errorMessage error)
      (Some (errorMessage error)) (Some (versionName version))).

Definition attemptLoginWithVersion (email : string) (password : option string)
    (version : Version) (quickLogin : bool) : M LoginResult :=
  t0 <- dateNow ;;
  let sessionId := sessionIdOf email version quickLogin t0 in
  JsM.try_catch
    (noCookies <- (if quickLogin
                   then (saved <- loadCookies email COOKIES_DIR ;;
                         JsM.ret (negb (bool_decide (is_Some saved))))
                   else JsM.ret false) ;;
     if noCookies then
       JsM.ret (resultOf false None
         ("No hay cookies guardadas para " +:+ email +:+ ". Usa login normal primero.")
         (Some "NO_COOKIES") (Some (versionName version)))
     else
       hs <- (if quickLogin then
                (persistentData <- createPersistentContext email version ;;
                 JsM.ret {| h_browser := pd_browser persistentData;
                            h_context := pd_context persistentData;
                            h_savedCookies := pd_savedCookies persistentData;
                            h_cacheDir := Some (pd_cacheDir persistentData);
                            h_page := pd_context persistentData |})
              else
                (fresh <- launchFresh version ;;
                 JsM.ret {| h_browser := Some fresh; h_context := fresh;
                            h_savedCookies := None; h_cacheDir := None;
                            h_page := fresh |})) ;;
       t1 <- dateNow ;;
       JsM.modify (fun w => set_activeSessions
         (<[sessionId :=
              {| s_browser := h_browser hs; s_context := h_context hs;
                 s_page := h_page hs; s_email := email;
                 s_password := if quickLogin then None else password;
                 s_cacheDir := h_cacheDir hs; s_version := version;
                 s_createdAt := t1; s_quickLogin := quickLogin |}]>
            (activeSessions w)) w) ;;;
       direct <- (if quickLogin && bool_decide (is_Some (h_savedCookies hs))
                  then tryCookiesAndCache sessionId email version quickLogin hs
                  else JsM.ret None) ;;
       match direct with
       | Some result => JsM.ret result
       | None =>
           if quickLogin then
             closeMaybe (h_browser hs) ;;;
             deleteActiveSession sessionId ;;;
             JsM.ret (resultOf false None
               ("Quick login " +:+ versionName version +:+ " falló para " +:+ email
                  +:+ ". Las cookies pueden haber expirado.")
               (Some "QUICK_LOGIN_FAILED") (Some (versionName version)))
           else loginWithCredentials sessionId email password version quickLogin hs
       end)
    (attemptFailed sessionId version).

(** The handling of the second-factor signal in the [catch] blocks of
    [performFacebookLoginPersistent]: the result to return, or [None]
    when the block goes on. *)
Definition secondFactorSignal (error : JsError) (email : string) (version : Version)
    (label : string) : M (option LoginResult) :=
  let message := "Se requiere código 2FA " +:+ label
                   +:+ ". Usa el modal para ingresar el código." in
  if startsWith (errorMessage error) "2FA_REQUIRED:" then
    let parts := split ":" (errorMessage error) in
    JsM.ret (Some (requires2FAResult (parts !! 1%nat) message (parts !! 2%nat)))
  else
    w <- JsM.get ;;
    if (0 <? length (pending2FASessions w))%nat then
      match fst <$> List.find
              (fun entry => bool_decide (p_email (snd entry) = email)
                            && bool_decide (p_version (snd entry) = version))
              (pending2FASessions w) with
      | Some sessionId =>
          if bool_decide (sessionId = "") then JsM.ret None
          else JsM.ret (Some (requires2FAResult (Some sessionId) message
                                (Some (versionName version))))
      | None => JsM.ret None
      end
    else JsM.ret None.

Definition versionLabel (version : Version) : string :=
  match version with mobile => "móvil" | desktop => "desktop" end.

(** The branch of [performFacebookLoginPersistent] for one chosen version. *)
Definition loginOneVersion (email : string) (password : option string)
    (version : Version) : M LoginResult :=
  JsM.try_catch
    (attemptLoginWithVersion email password version false)
    (fun error =>
       signal <- secondFactorSignal error email version (versionLabel version) ;;
       match signal with
       | Some result => JsM.ret result
       | None => JsM.throw error
       end).

(** One [try]/[catch] of the automatic branch: [Some result] when the
    function returns from inside it, [None] when it goes on. *)
Definition autoAttempt (email : string) (password : option string)
    (version : Version) : M (option LoginResult) :=
  JsM.try_catch
    (result <- attemptLoginWithVersion email password version false ;;
     if r_success result then JsM.ret (Some result) else JsM.ret None)
    (fun error => secondFactorSignal error email version (versionLabel version)).

(** [versionChoice] is the string of the request; anything but ['mobile']
    and ['desktop'] takes the automatic branch.  In that branch
    [mobileResult] and [desktopResult] are declared with [const] inside
    the two [try] blocks, so the object literal of the last [return],
    which reads [mobileResult.message] outside of them, throws a
    ReferenceError. *)
Definition performFacebookLoginPersistent (email : string) (password : option string)
    (versionChoice : string) : M LoginResult :=
  if bool_decide (versionChoice = "mobile") then loginOneVersion email password mobile
  else if bool_decide (versionChoice = "desktop") then loginOneVersion email password desktop
  else
    fromMobile <- autoAttempt email password mobile ;;
    match fromMobile with
    | Some result => JsM.ret result
    | None =>
        fromDesktop <- autoAttempt email password desktop ;;
        match fromDesktop with
        | Some result => JsM.ret result
        | None => JsM.throw (ReferenceError "mobileResult is not defined")
        end
    end.

Definition performQuickLogin (email : string) (versionChoice : string) : M LoginResult :=
  if bool_decide (versionChoice = "mobile")
  then attemptLoginWithVersion email None mobile true
  else if bool_decide (versionChoice = "desktop")
  then attemptLoginWithVersion email None desktop true
  else
    mobileResult <- attemptLoginWithVersion email None mobile true ;;
    if r_success mobileResult then JsM.ret mobileResult
    else
      desktopResult <- attemptLoginWithVersion email None desktop true ;;
      if r_success desktopResult then JsM.ret desktopResult
      else if bool_decide (r_error mobileResult = Some "NO_COOKIES")
      then JsM.ret mobileResult
      else
        JsM.ret
          {| r_success := false; r_sessionId := None;
             r_message := "Quick login falló en ambas versiones para " +:+ email
                            +:+ ". Usa login normal para renovar cookies.";
             r_error := Some "BOTH_VERSIONS_FAILED"; r_version := None;
             r_usedSavedData := None; r_quickLogin := None;
             r_requires2FA := false; r_completed2FA := false;
             r_attempts := Some (r_message mobileResult, r_message desktopResult) |}.

Record CloseResult := {
  c_success : bool;
  c_message : string
}.

Definition closeSession (sessionId : string) : M CloseResult :=
  JsM.try_catch
    (w <- JsM.get ;;
     match activeSessions w !! sessionId with
     | None => JsM.ret {| c_success := false; c_message := "Sesión no encontrada" |}
     | Some session =>
         saveCookies (s_context session) (s_email session) COOKIES_DIR ;;;
         saveSessionState (s_context session) (s_page session) (s_email session)
           COOKIES_DIR ;;;
         (match s_browser session with
          | Some browser => browserClose browser
          | None => JsM.ret tt
          end) ;;;
         deleteActiveSession sessionId ;;;
         JsM.ret {| c_success := true; c_message := "Sesión cerrada exitosamente" |}
     end)
    (fun error =>
       JsM.ret {| c_success := false;
                  c_message := "Error cerrando sesión: " +:+ errorMessage error |}).

(** *** The routes *)

(** A response: the status and the fields of its JSON body. *)
Record Response := {
  status : nat;
  res_success : option bool;
  res_message : option string;
  res_stillRequires2FA : bool;
  res_loginCompleted : bool;
  res_filesDeleted : option nat
}.

Definition respond (code : nat) (success : bool) (message : string) : Response :=
  {| status := code; res_success := Some success; res_message := Some message;
     res_stillRequires2FA := false; res_loginCompleted := false;
     res_filesDeleted := None |}.

Definition respondStill (message : string) : Response :=
  {| status := 200; res_success := Some false; res_message := Some message;
     res_stillRequires2FA := true; res_loginCompleted := false;
     res_filesDeleted := None |}.

(** [value || fallback] on an attribute. *)
Definition orElse (value : option string) (fallback : string) : string :=
  match value with
  | Some EmptyString | None => fallback
  | Some v => v
  end.

(** The loop over [element.nth(j)] for [j] from the given index, for as
    many turns as given: the first visible one. *)
Fixpoint firstVisibleNth (p : PageState) (selector : string) (turns j : nat)
    : Res (option Locator) :=
  match turns with
  | O => Ok None
  | S turns' =>
      let? visible := isVisible p (Nth selector j) in
      if visible then Ok (Some (Nth selector j))
      else firstVisibleNth p selector turns' (S j)
  end.

Definition codeInputSelectors : list string :=
  [ css "input[placeholder=`Código`]";
    css "input[placeholder=`código`]";
    css "input[placeholder*=`código` i]";
    css "input[placeholder*=`code` i]";
    css "input[name=`approvals_code`]";
    css "input[id=`approvals_code`]";
    css "input[data-testid=`2fa_code`]";
    css "input[inputmode=`numeric`]";
    css "input[type=`text`][maxlength=`6`]";
    css "input[autocomplete=`one-time-code`]";
    css "input[aria-label*=`código` i]";
    css "input[aria-label*=`Código` i]";
    css "input[aria-label*=`code` i]";
    css "input[type=`text`]:not([name=`email`]):not([name=`pass`]):not([style*=`display: none`])";
    css "input:not([name=`email`]):not([name=`pass`]):not([type=`password`]):not([type=`hidden`])" ].

Fixpoint probeCodeInput (p : PageState) (selectors : list string) : option Locator :=
  match selectors with
  | [] => None
  | selector :: rest =>
      match (let? n := count p selector in firstVisibleNth p selector n 0) with
      | Ok (Some codeInput) => Some codeInput
      | _ => probeCodeInput p rest
      end
  end.

(** The fallback loop over all inputs of the page. *)
Fixpoint anyPlainInput (p : PageState) (turns i : nat) : Res (option Locator) :=
  match turns with
  | O => Ok None
  | S turns' =>
      let input := Nth "input" i in
      let? visible := isVisible p input in
      if visible then
        let? type := getAttribute p input "type" in
        let? name := getAttribute p input "name" in
        let? _ := getAttribute p input "placeholder" in
        if negb (includes (orElse name "") "email")
           && negb (includes (orElse name "") "pass")
           && negb (bool_decide (orElse type "text" = "password"))
           && negb (bool_decide (orElse type "text" = "hidden"))
        then Ok (Some input)
        else anyPlainInput p turns' (S i)
      else anyPlainInput p turns' (S i)
  end.

Definition findCodeInput (p : PageState) : option Locator :=
  match probeCodeInput p codeInputSelectors with
  | Some codeInput => Some codeInput
  | None =>
      match (let? n := count p "input" in anyPlainInput p n 0) with
      | Ok found => found
      | Throw _ => None
      end
  end.

Definition submitButtonSelectors : list string :=
  [ css "div[role=`button`]:has-text(`Continuar`)";
    css "button:has-text(`Continuar`)";
    css "div[role=`button`]:has-text(`Continue`)";
    css "button:has-text(`Continue`)";
    css "div[role=`button`][aria-label*=`Continuar`]";
    css "button[type=`submit`]";
    css "div[role=`button`]:has-text(`Submit`)";
    css "div[role=`button`]:has-text(`Enviar`)";
    css "button:has-text(`Submit`)";
    css "button:has-text(`Enviar`)";
    css "[data-testid=`2fa_submit_button`]";
    css "div[role=`button`]";
    "button" ].

(** The first visible button that is not disabled. *)
Fixpoint firstEnabledNth (p : PageState) (selector : string) (turns j : nat)
    : Res (option Locator) :=
  match turns with
  | O => Ok None
  | S turns' =>
      let button := Nth selector j in
      let? visible := isVisible p button in
      if visible then
        let? disabled := getAttribute p button "disabled" in
        let? isDisabled :=
          (match disabled with
           | Some _ => Ok true
           | None =>
               let? ariaDisabled := getAttribute p button "aria-disabled" in
               Ok (bool_decide (ariaDisabled = Some "true"))
           end) in
        let? _ := textContent p button in
        if negb isDisabled then Ok (Some button)
        else firstEnabledNth p selector turns' (S j)
      else firstEnabledNth p selector turns' (S j)
  end.

Fixpoint findSubmitButton (p : PageState) (selectors : list string) : option Locator :=
  match selectors with
  | [] => None
  | selector :: rest =>
      match (let? n := count p selector in firstEnabledNth p selector n 0) with
      | Ok (Some submitButton) => Some submitButton
      | _ => findSubmitButton p rest
      end
  end.

(** Calling the [resolve] stored in a pending entry. *)
Definition callResolve (resolve : option nat) (result : LoginResult) : M unit :=
  match resolve with
  | None => JsM.throw (TypeError "resolve is not a function")
  | Some n =>
      JsM.modify (fun w => set_promises
        (alter (fun st => match st with
                          | PromisePending => PromiseResolved result
                          | _ => st
                          end) n (promises w)) w)
  end.

(** Calling the [reject] stored in a pending entry. *)
Definition callReject (reject : option nat) (e : JsError) : M unit :=
  match reject with
  | None => JsM.throw (TypeError "sessionData.reject is not a function")
  | Some n =>
      JsM.modify (fun w => set_promises
        (alter (fun st => match st with
                          | PromisePending => PromiseRejected e
                          | _ => st
                          end) n (promises w)) w)
  end.

Definition removePending (sessionId : string) : M unit :=
  JsM.modify (fun w =>
    set_pending2FASessions (deletePending sessionId (pending2FASessions w)) w).

(** The inner [try] block of the route [/submit-2fa]. *)
Definition processCode (sessionId code : string) (sessionData : Pending) : M Response :=
  let page := p_page sessionData in
  let email := p_email sessionData in
  let version := p_version sessionData in
  p <- observe page ;;
  match findCodeInput p with
  | None =>
      (if DEBUG_ENABLED
       then createDebugSnapshot page ("2fa-field-not-found-" +:+ versionName version)
       else JsM.ret tt) ;;;
      JsM.throw (Error "No se pudo encontrar el campo de código 2FA")
  | Some codeInput =>
      act page (Click codeInput) ;;;
      act page (Fill codeInput "") ;;;
      sleep 500 ;;;
      act page (TypeInto codeInput code) ;;;
      sleep 1000 ;;;
      p <- observe page ;;
      match findSubmitButton p submitButtonSelectors with
      | None => JsM.throw (Error "No se pudo encontrar el botón de envío 2FA")
      | Some submitButton =>
          act page (ClickForce submitButton) ;;;
          sleep 3000 ;;;
          still <- checkFor2FAOn page ;;
          if still then
            JsM.ret (respondStill "Código 2FA incorrecto. Intenta nuevamente.")
          else
            ok <- checkLoginSuccessOn page ;;
            if ok then
              w <- JsM.get ;;
              (match activeSessions w !! sessionId with
               | Some session =>
                   saveCookies (s_context session) email COOKIES_DIR ;;;
                   saveSessionState (s_context session) page email COOKIES_DIR ;;;
                   JsM.ret tt
               | None => JsM.ret tt
               end) ;;;
              removePending sessionId ;;;
              callResolve (p_resolve sessionData)
                {| r_success := true; r_sessionId := Some sessionId;
                   r_message := "¡Login " +:+ versionName version
                     +:+ " exitoso con 2FA! Cookies + cache guardados. Página permanece abierta.";
                   r_error := None; r_version := Some (versionName version);
                   r_usedSavedData := Some false; r_quickLogin := None;
                   r_requires2FA := false; r_completed2FA := true;
                   r_attempts := None |} ;;;
              JsM.ret
                {| status := 200; res_success := Some true;
                   res_message := Some ("¡Login " +:+ versionName version
                                          +:+ " exitoso con 2FA!");
                   res_stillRequires2FA := false; res_loginCompleted := true;
                   res_filesDeleted := None |}
            else JsM.throw (Error "Login no exitoso después de 2FA")
      end
  end.

(** [app.post('/submit-2fa')]; the session id and the code are the
    strings of the request body. *)
Definition submit2FA (sessionId code : string) : M Response :=
  JsM.try_catch
    (if bool_decide (sessionId = "") || bool_decide (code = "") then
       JsM.ret (respond 400 false "Se requiere sessionId y código 2FA")
     else
       w <- JsM.get ;;
       match lookupPending sessionId (pending2FASessions w) with
       | None =>
           JsM.ret (respond 404 false "Sesión no encontrada o no está esperando 2FA")
       | Some sessionData =>
           JsM.try_catch
             (processCode sessionId code sessionData)
             (fun error =>
                JsM.ret (respondStill ("Error procesando 2FA: " +:+ errorMessage error)))
       end)
    (fun error =>
       JsM.ret (respond 500 false ("Error del servidor: " +:+ errorMessage error))).

(** [app.post('/cancel-2fa')] *)
Definition cancel2FA (sessionId : string) : M Response :=
  JsM.try_catch
    (if bool_decide (sessionId = "") then
       JsM.ret (respond 400 false "Se requiere sessionId")
     else
       w <- JsM.get ;;
       (match lookupPending sessionId (pending2FASessions w) with
        | Some sessionData =>
            removePending sessionId ;;;
            callReject (p_reject sessionData) (Error "2FA cancelado por el usuario")
        | None => JsM.ret tt
        end) ;;;
       closeSession sessionId ;;;
       JsM.ret (respond 200 true "2FA cancelado y sesión cerrada"))
    (fun error =>
       JsM.ret (respond 500 false ("Error del servidor: " +:+ errorMessage error))).

(** One [if (fs.existsSync(path)) { remove; deleted++ }]. *)
Definition removeIfThere (path : string) (remove : string -> M unit) (deleted : nat)
    : M nat :=
  there <- existsSync path ;;
  if there then (remove path ;;; JsM.ret (S deleted)) else JsM.ret deleted.

(** [app.delete('/cookies/:email')] *)
Definition deleteCookies (email : string) : M Response :=
  JsM.try_catch
    (let cookieFile := pathJoin COOKIES_DIR (cookieFileName email) in
     let sessionFile := pathJoin COOKIES_DIR (sessionFileName email) in
     let cacheDir := pathJoin CACHE_DIR (sanitize email) in
     deleted <- removeIfThere cookieFile unlinkSync 0 ;;
     deleted <- removeIfThere sessionFile unlinkSync deleted ;;
     deleted <- removeIfThere cacheDir rmSync deleted ;;
     if (0 <? deleted)%nat then
       JsM.ret
         {| status := 200; res_success := Some true;
            res_message := Some ("Datos eliminados para " +:+ email +:+ " ("
                                   +:+ ofNat deleted +:+ " elementos)");
            res_stillRequires2FA := false; res_loginCompleted := false;
            res_filesDeleted := Some deleted |}
     else
       JsM.ret (respond 404 false ("No se encontraron datos para " +:+ email)))
    (fun error =>
       JsM.ret {| status := 500; res_success := None;
                  res_message := Some (errorMessage error);
                  res_stillRequires2FA := false; res_loginCompleted := false;
                  res_filesDeleted := None |}).

(** *** The other routes *)

(** The [email] field of an entry of [GET /cache]:
    [dirent.name.replace(/_/g, '@')]. *)
Definition cacheEmail (name : string) : string :=
  Str.map (fun c => if Ascii.eqb c "_"%char then "@"%char else c) name.

(** The answer of the routes [/login] and [/quick-login]: the status
    and the fields of the JSON body; a field that the body does not have
    is [None]. *)
Record LoginReply := {
  lg_status : nat;
  lg_success : option bool;
  lg_sessionId : option string;
  lg_message : option string;
  lg_error : option string;
  lg_requires2FA : option bool;
  lg_usedSavedData : option bool;
  lg_version : option string;
  lg_quickLogin : option bool;
  lg_attempts : option (string * string)
}.

(** [res.status(code).json({ error: message })] *)
Definition errorReply (code : nat) (message : string) : LoginReply :=
  {| lg_status := code; lg_success := None; lg_sessionId := None; lg_message := None;
     lg_error := Some message; lg_requires2FA := None; lg_usedSavedData := None;
     lg_version := None; lg_quickLogin := None; lg_attempts := None |}.

(** The body of [/login] for a success. *)
Definition successReply (result : LoginResult) : LoginReply :=
  {| lg_status := 200; lg_success := Some true; lg_sessionId := r_sessionId result;
     lg_message := Some (r_message result); lg_error := None; lg_requires2FA := None;
     lg_usedSavedData := Some (default false (r_usedSavedData result));
     lg_version := r_version result;
     lg_quickLogin := Some (default false (r_quickLogin result));
     lg_attempts := None |}.

(** The body of [/login] for a failure. *)
Definition failureReply (result : LoginResult) : LoginReply :=
  {| lg_status := 401; lg_success := Some false; lg_sessionId := r_sessionId result;
     lg_message := Some (r_message result); lg_error := r_error result;
     lg_requires2FA := Some (r_requires2FA result); lg_usedSavedData := None;
     lg_version := r_version result; lg_quickLogin := None;
     lg_attempts := r_attempts result |}.

(** [app.post('/login')]; the e-mail, the password and the version are
    the strings of the request body, a missing version is ['auto']. *)
Definition loginRoute (email password versionChoice : string) : M LoginReply :=
  if bool_decide (email = "") || bool_decide (password = "") then
    JsM.ret (errorReply 400 "Email y contraseña son requeridos.")
  else
    JsM.try_catch
      (result <- performFacebookLoginPersistent email (Some password) versionChoice ;;
       if r_success result then JsM.ret (successReply result)
       else JsM.ret (failureReply result))
      (fun error =>
         JsM.ret (errorReply 500 ("Error interno del servidor: " +:+ errorMessage error))).

(** ** The older variant of server.js: suspension on a promise

    In the older variant [attemptLoginWithVersion] returns a promise when
    a second factor is required, and [performFacebookLoginPersistent]
    awaits it: the call of the login stays suspended at that [await]
    until the promise is settled, and goes on from there.  A call that is
    suspended is kept as a [Waiter]; its continuation runs to its end, or
    to its next suspension, as soon as the promise is settled. *)

Module Legacy.

(** The 30 minutes of the timer. *)
Definition timeoutMs : Z := 30 * 60 * 1000.

(** The session id of the older variant; the identity is not sanitized. *)
Definition sessionIdOf (email : string) (version : Version) (quickLogin : bool)
    (t : Z) : string :=
  (if quickLogin then "quick-" else "") +:+ email +:+ "-"
    +:+ versionName version +:+ "-" +:+ ofZ t.

(** What awaiting [attemptLoginWithVersion] gives at first: the result
    the function returned, or the promise it returned (its number), which
    is not settled yet. *)
Inductive Attempted :=
| Returned (result : LoginResult)
| Suspended (promise : nat).

(** The executor of [new Promise((resolve, reject) => { ... })] that the
    older [attemptLoginWithVersion] returns when a second factor is
    required: the pending entry holds the two functions of the new
    promise, and a timer is set.  The number of the promise is returned. *)
Definition awaitSecondFactor (sessionId : string) (page : nat) (email : string)
    (version : Version) : M nat :=
  w <- JsM.get ;;
  let promise := length (promises w) in
  JsM.modify (fun w => set_promises (promises w ++ [PromisePending]) w) ;;;
  t <- dateNow ;;
  JsM.modify (fun w => set_pending2FASessions
    (setPending sessionId
       {| p_page := page; p_email := email; p_version := version;
          p_timestamp := t; p_resolve := Some promise; p_reject := Some promise |}
       (pending2FASessions w)) w) ;;;
  JsM.modify (fun w => set_timers (timers w ++ [(t + timeoutMs, (sessionId, promise))]) w) ;;;
  JsM.ret promise.

(** The [catch] block of the older [attemptLoginWithVersion]: whatever
    the error is, the session is torn down. *)
Definition attemptFailed (sessionId : string) (version : Version) (error : JsError)
    : M LoginResult :=
  w <- JsM.get ;;
  (match activeSessions w !! sessionId with
   | Some session =>
       if DEBUG_ENABLED
       then createDebugSnapshot (s_page session) ("error-" +:+ versionName version)
       else JsM.ret tt
   | None => JsM.ret tt
   end) ;;;
  w <- JsM.get ;;
  (match activeSessions w !! sessionId with
   | Some session =>
       (match s_browser session with
        | Some browser => browserClose browser
        | None => JsM.ret tt
        end) ;;;
       deleteActiveSession sessionId
   | None => JsM.ret tt
   end) ;;;
  JsM.ret (resultOf false None
    ("Error " +:+ versionName version +:+ ": " +:+ errorMessage error)
    (Some (errorMessage error)) (Some (versionName version))).

(** The older [attemptLoginWithVersion] is, up to the click on the
    login button, the text of the current one, but for the session id.
    Its normal login is cut here into two parts: [submitAndCheck], from
    the navigation to the one check for a second factor that follows the
    click, and what follows the check. *)
Definition submitAndCheck (page : nat) (email : string) (password : option string)
    (version : Version) : M bool :=
  loginButton <- enterCredentials page email password version ;;
  hesitate ;;;
  act page (ClickForce loginButton) ;;;
  sleep 3000 ;;;
  handleSaveLoginDialog page ;;;
  checkFor2FAOn page.

Definition loginWithCredentials (sessionId email : string) (password : option string)
    (version : Version) (quickLogin : bool) (hs : Handles) : M Attempted :=
  requires2FA <- submitAndCheck (h_page hs) email password version ;;
  if requires2FA then
    (if DEBUG_ENABLED
     then createDebugSnapshot (h_page hs) ("2fa-detected-" +:+ versionName version)
     else JsM.ret tt) ;;;
    promise <- awaitSecondFactor sessionId (h_page hs) email version ;;
    JsM.ret (Suspended promise)
  else
    (* from here on the text is that of the current server *)
    result <- conclude sessionId email version quickLogin hs false ;;
    JsM.ret (Returned result).

Definition attemptLoginWithVersion (email : string) (password : option string)
    (version : Version) (quickLogin : bool) : M Attempted :=
  t0 <- dateNow ;;
  let sessionId := sessionIdOf email version quickLogin t0 in
  JsM.try_catch
    (noCookies <- (if quickLogin
                   then (saved <- loadCookies email COOKIES_DIR ;;
                         JsM.ret (negb (bool_decide (is_Some saved))))
                   else JsM.ret false) ;;
     if noCookies then
       JsM.ret (Returned (resultOf false None
         ("No hay cookies guardadas para " +:+ email +:+ ". Usa login normal primero.")
         (Some "NO_COOKIES") (Some (versionName version))))
     else
       hs <- (if quickLogin then
                (persistentData <- createPersistentContext email version ;;
                 JsM.ret {| h_browser := pd_browser persistentData;
                            h_context := pd_context persistentData;
                            h_savedCookies := pd_savedCookies persistentData;
                            h_cacheDir := Some (pd_cacheDir persistentData);
                            h_page := pd_context persistentData |})
              else
                (fresh <- launchFresh version ;;
                 JsM.ret {| h_browser := Some fresh; h_context := fresh;
                            h_savedCookies := None; h_cacheDir := None;
                            h_page := fresh |})) ;;
       t1 <- dateNow ;;
       JsM.modify (fun w => set_activeSessions
         (<[sessionId :=
              {| s_browser := h_browser hs; s_context := h_context hs;
                 s_page := h_page hs; s_email := email;
                 s_password := if quickLogin then None else password;
                 s_cacheDir := h_cacheDir hs; s_version := version;
                 s_createdAt := t1; s_quickLogin := quickLogin |}]>
            (activeSessions w)) w) ;;;
       direct <- (if quickLogin && bool_decide (is_Some (h_savedCookies hs))
                  then tryCookiesAndCache sessionId email version quickLogin hs
                  else JsM.ret None) ;;
       match direct with
       | Some result => JsM.ret (Returned result)
       | None =>
           if quickLogin then
             closeMaybe (h_browser hs) ;;;
             deleteActiveSession sessionId ;;;
             JsM.ret (Returned (resultOf false None
               ("Quick login " +:+ versionName version +:+ " falló para " +:+ email
                  +:+ ". Las cookies pueden haber expirado.")
               (Some "QUICK_LOGIN_FAILED") (Some (versionName version))))
           else loginWithCredentials sessionId email password version quickLogin hs
       end)
    (fun error =>
       result <- attemptFailed sessionId version error ;;
       JsM.ret (Returned result)).

(** The four places at which [performFacebookLoginPersistent] awaits an
    attempt: in the branch of the mobile choice, in that of the desktop
    choice, and twice in the automatic branch. *)
Inductive Await := OnlyMobile | OnlyDesktop | AutoMobile | AutoDesktop.

Definition versionAt (place : Await) : Version :=
  match place with
  | OnlyMobile | AutoMobile => mobile
  | OnlyDesktop | AutoDesktop => desktop
  end.

(** A call of the login that is suspended at an [await]. *)
Record Waiter := {
  wa_promise : nat;
  wa_email : string;
  wa_password : option string;
  wa_place : Await
}.

(** What a call of the login has come to: it returned a result, or it is
    suspended. *)
Inductive Outcome :=
| Finished (result : LoginResult)
| Held (waiter : Waiter).

(** The search of the [catch] blocks for a pending entry of the identity
    and the dialect. *)
Definition pendingOf (email : string) (version : Version) : M (option LoginResult) :=
  w <- JsM.get ;;
  if (0 <? length (pending2FASessions w))%nat then
    match fst <$> List.find
            (fun entry => bool_decide (p_email (snd entry) = email)
                          && bool_decide (p_version (snd entry) = version))
            (pending2FASessions w) with
    | Some sessionId =>
        if bool_decide (sessionId = "") then JsM.ret None
        else JsM.ret (Some (requires2FAResult (Some sessionId)
                              ("Se requiere código 2FA " +:+ versionLabel version
                                 +:+ ". Usa el modal para ingresar el código.")
                              (Some (versionName version))))
    | None => JsM.ret None
    end
  else JsM.ret None.

(** [try { return await attempt } catch (error) { ... throw error }] of
    the branches of a chosen dialect.  [attempt] is the call of
    [attemptLoginWithVersion], or, when the call goes on after its
    suspension, the promise that has been settled. *)
Definition awaitChosen (place : Await) (email : string) (password : option string)
    (attempt : M Attempted) : M Outcome :=
  JsM.try_catch
    (attempted <- attempt ;;
     match attempted with
     | Returned result => JsM.ret (Finished result)
     | Suspended promise =>
         JsM.ret (Held {| wa_promise := promise; wa_email := email;
                          wa_password := password; wa_place := place |})
     end)
    (fun error =>
       found <- pendingOf email (versionAt place) ;;
       match found with
       | Some result => JsM.ret (Finished result)
       | None => JsM.throw error
       end).

(** One [try]/[catch] of the automatic branch: [Some] when the function
    returns, or is suspended, inside it, [None] when it goes on. *)
Definition awaitAuto (place : Await) (email : string) (password : option string)
    (attempt : M Attempted) : M (option Outcome) :=
  JsM.try_catch
    (attempted <- attempt ;;
     match attempted with
     | Returned result =>
         if r_success result then JsM.ret (Some (Finished result)) else JsM.ret None
     | Suspended promise =>
         JsM.ret (Some (Held {| wa_promise := promise; wa_email := email;
                                wa_password := password; wa_place := place |}))
     end)
    (fun error =>
       found <- pendingOf email (versionAt place) ;;
       JsM.ret (Finished <$> found)).

(** The automatic branch from its second [try] on.  As in the current
    server, the last [return] reads [mobileResult], which is declared
    inside the first [try] block. *)
Definition autoFromDesktop (email : string) (password : option string)
    (attempt : M Attempted) : M Outcome :=
  fromDesktop <- awaitAuto AutoDesktop email password attempt ;;
  match fromDesktop with
  | Some outcome => JsM.ret outcome
  | None => JsM.throw (ReferenceError "mobileResult is not defined")
  end.

(** The automatic branch from its first [try] on. *)
Definition autoFromMobile (email : string) (password : option string)
    (attempt : M Attempted) : M Outcome :=
  fromMobile <- awaitAuto AutoMobile email password attempt ;;
  match fromMobile with
  | Some outcome => JsM.ret outcome
  | None =>
      autoFromDesktop email password
        (attemptLoginWithVersion email password desktop false)
  end.

Definition performFacebookLoginPersistent (email : string) (password : option string)
    (versionChoice : string) : M Outcome :=
  if bool_decide (versionChoice = "mobile")
  then awaitChosen OnlyMobile email password
         (attemptLoginWithVersion email password mobile false)
  else if bool_decide (versionChoice = "desktop")
  then awaitChosen OnlyDesktop email password
         (attemptLoginWithVersion email password desktop false)
  else autoFromMobile email password
         (attemptLoginWithVersion email password mobile false).

(** The call goes on after the promise it awaits has been settled, with
    the value of the promise or with the error it was rejected with. *)
Definition resume (waiter : Waiter) (settled : Res LoginResult) : M Outcome :=
  let attempt := JsM.lift (let? result := settled in Ok (Returned result)) in
  match wa_place waiter with
  | OnlyMobile | OnlyDesktop =>
      awaitChosen (wa_place waiter) (wa_email waiter) (wa_password waiter) attempt
  | AutoMobile => autoFromMobile (wa_email waiter) (wa_password waiter) attempt
  | AutoDesktop => autoFromDesktop (wa_email waiter) (wa_password waiter) attempt
  end.

(** The answers of the route [/login]: the status, and the result the
    body is made of or the text of its [error] field. *)
Inductive Reply :=
| ReplyResult (code : nat) (result : LoginResult)
| ReplyError (code : nat) (error : string).

(** The server: its world, the calls of the login that are suspended,
    and the answers sent so far. *)
Record Server := {
  world : World;
  held : list Waiter;
  replies : list Reply
}.

(** The end of the handler of [/login]: the answer to a call that has
    come to its end; a call that is suspended answers nothing yet. *)
Definition answer (run : Res Outcome * World) (waiting : list Waiter)
    (sent : list Reply) : Server :=
  match run with
  | (Ok (Finished result), w) =>
      {| world := w; held := waiting;
         replies := sent ++ [ReplyResult (if r_success result then 200 else 401) result] |}
  | (Ok (Held waiter), w) =>
      {| world := w; held := waiting ++ [waiter]; replies := sent |}
  | (Throw error, w) =>
      {| world := w; held := waiting;
         replies := sent ++ [ReplyError 500 ("Error interno del servidor: "
                                               +:+ errorMessage error)] |}
  end.

(** [app.post('/login')]; the three strings are those of the request
    body, [versionChoice] being ['auto'] when the body has none. *)
Definition login (email password versionChoice : string) (s : Server) : Server :=
  if bool_decide (email = "") || bool_decide (password = "") then
    {| world := world s; held := held s;
       replies := replies s ++ [ReplyError 400 "Email y contraseña son requeridos."] |}
  else
    answer (performFacebookLoginPersistent email (Some password) versionChoice (world s))
      (held s) (replies s).

(** The callback of the timer. *)
Definition timeoutCallback (sessionId : string) (promise : nat) : M unit :=
  w <- JsM.get ;;
  match lookupPending sessionId (pending2FASessions w) with
  | Some _ =>
      removePending sessionId ;;;
      callReject (Some promise) (Error "Timeout esperando código 2FA (30 minutos)")
  | None => JsM.ret tt
  end.

(** After a promise has been settled, the call that awaits it goes on. *)
Definition wake (promise : nat) (s : Server) : Server :=
  match List.find (fun waiter => bool_decide (wa_promise waiter = promise)) (held s) with
  | None => s
  | Some waiter =>
      let others := filter (fun other => wa_promise other <> promise) (held s) in
      match promises (world s) !! promise with
      | Some (PromiseRejected error) =>
          answer (resume waiter (Throw error) (world s)) others (replies s)
      | Some (PromiseResolved result) =>
          answer (resume waiter (Ok result) (world s)) others (replies s)
      | _ => s
      end
  end.

(** The timers that are due fire one after the other; after each
    callback the call it has woken goes on. *)
Fixpoint fire (due : list (Z * (string * nat))) (s : Server) : Server :=
  match due with
  | [] => s
  | (_, (sessionId, promise)) :: rest =>
      let w := snd (timeoutCallback sessionId promise (world s)) in
      fire rest (wake promise {| world := w; held := held s; replies := replies s |})
  end.

(** The server stays idle for [ms] milliseconds: no request arrives, the
    clock advances, and the timers that are due by then fire. *)
Definition idle (ms : Z) (s : Server) : Server :=
  let w := set_browsers (elapseBrowser (site (world s)) (Z.max 0 ms) <$> browsers (world s))
             (set_now (now (world s) + Z.max 0 ms) (world s)) in
  let due := filter (fun timer => fst timer <= now w) (timers w) in
  let w' := set_timers (filter (fun timer => ¬ fst timer <= now w) (timers w)) w in
  fire due {| world := w'; held := held s; replies := replies s |}.

End Legacy.

(** ** A simulated site *)

Module Demo.

(** The states of the page: blank, the login form, the second-factor
    form (empty, or with the right code typed in), the home page, and a
    login form whose fields cannot be found. *)
Definition blank : nat := 0.
Definition loginForm : nat := 1.
Definition codeForm : nat := 2.
Definition codeTyped : nat := 3.
Definition home : nat := 4.
Definition broken : nat := 5.

Definition noPage : PageState :=
  {| url := Ok "about:blank";
     title := Ok "";
     isVisible := fun _ => Ok false;
     count := fun _ => Ok 0%nat;
     getAttribute := fun _ _ => Ok None;
     textContent := fun _ => Ok None;
     contextCookies := Ok [];
     localStorage := Ok [];
     sessionStorage := Ok [] |}.

Definition selectorOf (l : Locator) : string :=
  match l with Loc s | Nth s _ => s end.

Definition shows (visible : list string) (l : Locator) : Res bool :=
  Ok (bool_decide (selectorOf l ∈ visible)).

Definition counts (present : list string) (selector : string) : Res nat :=
  Ok (if bool_decide (selector ∈ present) then 1%nat else 0%nat).

Definition sessionCookie : Cookie :=
  {| cookie_name := "c_user"; cookie_value := "1000"; cookie_domain := ".facebook.com";
     cookie_path := "/"; cookie_expires := 1800000000 |}.

Definition loginFields : list string :=
  [ css "input[name=`email`]"; css "input[name=`pass`]"; css "button[name=`login`]";
    css "input[name=`email`], input[type=`password`]" ].

Definition codeFields : list string :=
  [ css "input[name=`approvals_code`]"; css "button[type=`submit`]" ].

Definition view (host : string) (d : nat) : PageState :=
  if (d =? loginForm)%nat then
    {| url := Ok ("https://" +:+ host +:+ "/"); title := Ok "Facebook";
       isVisible := shows loginFields; count := counts loginFields;
       getAttribute := fun _ _ => Ok None; textContent := fun _ => Ok None;
       contextCookies := Ok []; localStorage := Ok []; sessionStorage := Ok [] |}
  else if (d =? codeForm)%nat || (d =? codeTyped)%nat then
    {| url := Ok ("https://" +:+ host +:+ "/login/device-based"); title := Ok "Facebook";
       isVisible := shows codeFields; count := counts codeFields;
       getAttribute := fun _ _ => Ok None; textContent := fun _ => Ok (Some "Continuar");
       contextCookies := Ok []; localStorage := Ok []; sessionStorage := Ok [] |}
  else if (d =? home)%nat then
    {| url := Ok ("https://" +:+ host +:+ "/home.php"); title := Ok "Facebook";
       isVisible := fun _ => Ok false; count := fun _ => Ok 0%nat;
       getAttribute := fun _ _ => Ok None; textContent := fun _ => Ok None;
       contextCookies := Ok [sessionCookie];
       localStorage := Ok [("k", "v")]; sessionStorage := Ok [] |}
  else if (d =? broken)%nat then
    {| url := Ok ("https://" +:+ host +:+ "/"); title := Ok "Facebook";
       isVisible := fun _ => Ok false; count := counts loginFields;
       getAttribute := fun _ _ => Ok None; textContent := fun _ => Ok None;
       contextCookies := Ok []; localStorage := Ok []; sessionStorage := Ok [] |}
  else noPage.

(** A site that asks for a second factor after the password and accepts
    the code 123456. *)
Definition reactWithCode (a : Action) (d : nat) : Res nat :=
  match a with
  | Goto _ => Ok loginForm
  | ClickForce _ =>
      if (d =? loginForm)%nat then Ok codeForm
      else if (d =? codeTyped)%nat then Ok home
      else Ok d
  | TypeInto _ text =>
      if (d =? codeForm)%nat && bool_decide (text = "123456") then Ok codeTyped
      else Ok d
  | _ => Ok d
  end.

Definition siteWithCode : Site :=
  {| pageOf := view "m.facebook.com";
     react := reactWithCode;
     elapse := fun _ d => d;
     launchState := fun _ _ _ => Ok blank;
     persistentContextHasBrowser := true;
     drawDelay := fun _ min _ => min |}.

(** A site that lets the user in right after the password. *)
Definition siteDirect : Site :=
  {| pageOf := view "m.facebook.com";
     react := fun a d =>
       match a with
       | Goto _ => Ok loginForm
       | ClickForce _ => if (d =? loginForm)%nat then Ok home else Ok d
       | _ => Ok d
       end;
     elapse := fun _ d => d;
     launchState := fun _ _ _ => Ok blank;
     persistentContextHasBrowser := true;
     drawDelay := fun _ min _ => min |}.

(** A checkpoint page: nothing of the login form is left, no indicator
    is visible, the address is that of a checkpoint. *)
Definition checkpointPage : PageState :=
  {| url := Ok "https://www.facebook.com/checkpoint";
     title := Ok "Facebook";
     isVisible := fun _ => Ok false;
     count := fun _ => Ok 0%nat;
     getAttribute := fun _ _ => Ok None;
     textContent := fun _ => Ok None;
     contextCookies := Ok [];
     localStorage := Ok [];
     sessionStorage := Ok [] |}.

(** An approval page that shows only a button to continue. *)
Definition continuePage : PageState :=
  {| url := Ok "https://m.facebook.com/login/";
     title := Ok "Facebook";
     isVisible := shows [css "button:has-text(`Continuar`)"];
     count := fun _ => Ok 0%nat;
     getAttribute := fun _ _ => Ok None;
     textContent := fun _ => Ok None;
     contextCookies := Ok [];
     localStorage := Ok [];
     sessionStorage := Ok [] |}.

(** A site whose login form shows no field in either dialect. *)
Definition siteBroken : Site :=
  {| pageOf := view "m.facebook.com";
     react := fun a d => match a with Goto _ => Ok broken | _ => Ok d end;
     elapse := fun _ d => d;
     launchState := fun _ _ _ => Ok blank;
     persistentContextHasBrowser := true;
     drawDelay := fun _ min _ => min |}.

(** The server just started: nothing on disk, no session. *)
Definition start (s : Site) : World :=
  {| now := 1700000000000; files := ∅; dirs := ∅; site := s; browsers := [];
     draws := 0; activeSessions := ∅; pending2FASessions := []; promises := [];
     timers := []; trace := [] |}.

End Demo.

(** ** Notions and example worlds used in the properties *)

(** The world after a successful login of user@example.com in the mobile
    dialect. *)
Definition afterDirectLogin : World :=
  snd (performFacebookLoginPersistent "user@example.com" (Some "secret") "mobile"
         (Demo.start Demo.siteDirect)).

(** The two attempts on a site whose login form shows no field. *)
Definition brokenMobile : Res LoginResult * World :=
  attemptLoginWithVersion "user@example.com" (Some "secret") mobile false
    (Demo.start Demo.siteBroken).

(** The desktop attempt that follows the failed mobile one. *)
Definition brokenDesktop : Res LoginResult * World :=
  attemptLoginWithVersion "user@example.com" (Some "secret") desktop false
    (snd brokenMobile).

(** The result of an attempt that failed with the given message. *)
Definition failedResult (version message : string) : LoginResult :=
  resultOf false None ("Error " +:+ version +:+ ": " +:+ message) (Some message)
    (Some version).

(** The path of the cookie file of an identity. *)
Definition cookiePath (email : string) : string :=
  pathJoin COOKIES_DIR (cookieFileName email).

(** The identity has no stored artifact bundle. *)
Definition noBundle (w : World) (email : string) : Prop :=
  files w !! cookiePath email = None.

(** The stored bundle of the identity is older than the retention window
    of 7 days. *)
Definition expiredBundle (w : World) (email : string) : Prop :=
  exists c t, files w !! cookiePath email = Some c
              /\ timestampOf c = Some t
              /\ maxAge < now w - t.

(** The result of a quick login that finds no cookies. *)
Definition noCookiesResult (email : string) (version : Version) : LoginResult :=
  resultOf false None
    ("No hay cookies guardadas para " +:+ email +:+ ". Usa login normal primero.")
    (Some "NO_COOKIES") (Some (versionName version)).

(** The version whose result a quick login without cookies returns. *)
Definition quickVersion (versionChoice : string) : Version :=
  if bool_decide (versionChoice = "desktop") then desktop else mobile.

(** An old bundle: written 8 days before the server started. *)
Definition staleWorld : World :=
  set_files
    {[ "cookies/user_example_com_cookies.json" :=
         CookieJson {| cd_email := "user@example.com";
                       cd_timestamp := Some (1700000000000 - 8 * 24 * 60 * 60 * 1000);
                       cd_cookies := [Demo.sessionCookie] |} ]}
    (Demo.start Demo.siteDirect).

(** User user@example.com logs in on a site that asks for a second
    factor: the world in which the login has returned and the session
    waits for the code. *)
Definition suspendedRun : Res LoginResult * World :=
  performFacebookLoginPersistent "user@example.com" (Some "secret") "auto"
    (Demo.start Demo.siteWithCode).

(** The id of that session. *)
Definition suspendedId : string := "user_example_com-mobile-1700000000000".

(** The run from [w] to [w'] emitted only events that satisfy [P]. *)
Definition emitsOnly (P : Event -> Prop) (w w' : World) : Prop :=
  exists t, trace w' = trace w ++ t /\ Forall P t.

(** Is the event a check for a second factor, is it a sleep. *)
Definition isCheck (e : Event) : bool :=
  match e with EvCheckFor2FA _ _ => true | _ => false end.

Definition isSleep (e : Event) : bool :=
  match e with EvSleep _ => true | _ => false end.

(** Not a check for a second factor. *)
Definition noCheck (e : Event) : Prop := isCheck e = false.

(** Neither a check for a second factor nor a sleep. *)
Definition quiet (e : Event) : Prop := isCheck e = false /\ isSleep e = false.

(** The three shapes of the checks for a second factor on a page, with
    the answer they end on. *)
Inductive Ladder (page : nat) : list Event -> bool -> Prop :=
| ladder_first :
    Ladder page [EvCheckFor2FA page (Ok true)] true
| ladder_second :
    Ladder page [EvCheckFor2FA page (Ok false); EvSleep 1000;
                 EvCheckFor2FA page (Ok true)] true
| ladder_third (r : bool) :
    Ladder page [EvCheckFor2FA page (Ok false); EvSleep 1000;
                 EvCheckFor2FA page (Ok false); EvSleep 2000;
                 EvCheckFor2FA page (Ok r)] r.

(** The error of the timer of the older server. *)
Definition timeoutError : JsError := Error "Timeout esperando código 2FA (30 minutos)".

(** The handles of a normal login: the browser, its context and its page
    are those of the fresh launch. *)
Definition freshHandles (fresh : nat) : Handles :=
  {| h_browser := Some fresh; h_context := fresh; h_savedCookies := None;
     h_cacheDir := None; h_page := fresh |}.

(** A normal login of [attemptLoginWithVersion] up to the click on the
    login button: the browser is launched, the session is registered, the
    credentials are typed and the button is clicked.  The value is the
    page on which the click was made. *)
Definition upToTheClick (sessionId email : string) (password : option string)
    (version : Version) : M nat :=
  fresh <- launchFresh version ;;
  t1 <- dateNow ;;
  JsM.modify (fun w => set_activeSessions
    (<[sessionId :=
         {| s_browser := Some fresh; s_context := fresh; s_page := fresh;
            s_email := email; s_password := password; s_cacheDir := None;
            s_version := version; s_createdAt := t1; s_quickLogin := false |}]>
       (activeSessions w)) w) ;;;
  loginButton <- enterCredentials fresh email password version ;;
  hesitate ;;;
  act fresh (ClickForce loginButton) ;;;
  JsM.ret fresh.

(** The older server just started. *)
Definition legacyStart (s : Site) : Legacy.Server :=
  {| Legacy.world := Demo.start s; Legacy.held := []; Legacy.replies := [] |}.

(** The id of the session of user@example.com on the older server. *)
Definition legacyId : string := "user@example.com-mobile-1700000000000".

(** The call of that login, suspended on its first promise. *)
Definition legacyWaiter : Legacy.Waiter :=
  {| Legacy.wa_promise := 0; Legacy.wa_email := "user@example.com";
     Legacy.wa_password := Some "secret"; Legacy.wa_place := Legacy.OnlyMobile |}.

(** User user@example.com logs in on the older server with the mobile
    dialect, on a site that asks for a second factor, and the server then
    stays idle for 30 minutes. *)
Definition legacyTimedOut : Legacy.Server :=
  Legacy.idle Legacy.timeoutMs
    (Legacy.login "user@example.com" "secret" "mobile" (legacyStart Demo.siteWithCode)).

(** The browser behind the handle is there and open. *)
Definition openAt (h : nat) (w : World) : Prop :=
  exists b, browsers w !! h = Some b /\ b_open b = true.

(** No desktop session of the identity is registered. *)
Definition noDesktopSession (email : string) (w : World) : Prop :=
  forall t, activeSessions w !! Legacy.sessionIdOf email desktop false t = None.

(** No login is suspended on the server: no call waits, no timer is set
    and no pending entry is left. *)
Definition nothingSuspended (s : Legacy.Server) : Prop :=
  Legacy.held s = []
  /\ timers (Legacy.world s) = []
  /\ pending2FASessions (Legacy.world s) = [].

(** The call of the login is suspended on the session: the pending entry
    of the session is the only one and holds the [reject] of the promise
    the call awaits, the timer of the session is the only one and is due
    30 minutes after the entry was made, the promise is not settled, and
    the session is registered with its browser open. *)
Definition suspendedOn (w : World) (waiter : Legacy.Waiter) (sessionId : string)
    (data : Pending) (session : Session) (browser : nat) : Prop :=
  pending2FASessions w = [(sessionId, data)]
  /\ p_reject data = Some (Legacy.wa_promise waiter)
  /\ p_timestamp data <= now w
  /\ timers w = [(p_timestamp data + Legacy.timeoutMs, (sessionId, Legacy.wa_promise waiter))]
  /\ promises w !! Legacy.wa_promise waiter = Some PromisePending
  /\ activeSessions w !! sessionId = Some session
  /\ s_browser session = Some browser
  /\ openAt browser w.

(** Between two worlds nothing has happened to the sessions: the
    registry, the pending entries, the promises and the timers are the
    same, and no browser was added, closed or opened. *)
Definition undisturbed (a b : World) : Prop :=
  activeSessions b = activeSessions a
  /\ pending2FASessions b = pending2FASessions a
  /\ promises b = promises a
  /\ timers b = timers a
  /\ b_open <$> browsers b = b_open <$> browsers a
  /\ exists t, trace b = trace a ++ t.

(** The pending entries all hold [null] for [resolve] and [reject]. *)
Definition nullFunctions (w : World) : Prop :=
  Forall (fun entry => p_resolve (snd entry) = None /\ p_reject (snd entry) = None)
    (pending2FASessions w).

(** A site that shows the code form only ten seconds after the click:
    the page states from 100 on count the seconds since the click. *)
Definition siteSlow : Site :=
  {| pageOf := fun d => if (110 <=? d)%nat then Demo.view "m.facebook.com" Demo.codeForm
                        else if (100 <=? d)%nat then Demo.noPage
                        else Demo.view "m.facebook.com" d;
     react := fun a d =>
       match a with
       | Goto _ => Ok Demo.loginForm
       | ClickForce _ => if (d =? Demo.loginForm)%nat then Ok 100%nat else Ok d
       | _ => Ok d
       end;
     elapse := fun ms d => if (100 <=? d)%nat then (d + Z.to_nat (ms / 1000))%nat else d;
     launchState := fun _ _ _ => Ok Demo.blank;
     persistentContextHasBrowser := true;
     drawDelay := fun _ min _ => min |}.

(** ** Notions used in the further properties *)

(** No probe of the list answers that its element is visible. *)
Definition noneVisible (p : PageState) (selectors : list string) : Prop :=
  Forall (fun selector => isVisible p (Loc selector) <> Ok true) selectors.

(** The path of the session file of an identity. *)
Definition sessionPath (email : string) : string :=
  pathJoin COOKIES_DIR (sessionFileName email).

(** The object that [saveCookies] writes at the time [t]. *)
Definition cookieBundle (email : string) (t : Z) (cookies : list Cookie) : CookieData :=
  {| cd_email := email; cd_timestamp := Some t; cd_cookies := cookies |}.

(** Is there a file or a directory at the path. *)
Definition exists_at (w : World) (path : string) : bool :=
  bool_decide (is_Some (files w !! path)) || bool_decide (path ∈ dirs w).

(** The attempt has registered its session [sessionId] with a browser
    that it launched and that is open; nothing else happened to the
    sessions since [w]. *)
Definition registered (sessionId email : string) (w w' : World) : Prop :=
  (exists session,
     activeSessions w' = <[sessionId := session]> (activeSessions w)
     /\ s_browser session = Some (length (browsers w))
     /\ s_email session = email)
  /\ b_open <$> browsers w' = (b_open <$> browsers w) ++ [true]
  /\ promises w' = promises w
  /\ timers w' = timers w.

(** What one [if (fs.existsSync(path))] of the route [DELETE
    /cookies/:email] adds to its count. *)
Definition found (w : World) (path : string) : nat :=
  if exists_at w path then 1%nat else 0%nat.

(** The answer of [DELETE /cookies/:email] after [deleted] removals. *)
Definition deletedResponse (email : string) (deleted : nat) : Response :=
  if (0 <? deleted)%nat then
    {| status := 200; res_success := Some true;
       res_message := Some ("Datos eliminados para " +:+ email +:+ " ("
                              +:+ ofNat deleted +:+ " elementos)");
       res_stillRequires2FA := false; res_loginCompleted := false;
       res_filesDeleted := Some deleted |}
  else respond 404 false ("No se encontraron datos para " +:+ email).

(** The world without the three paths that the route looks at. *)
Definition withoutAccountData (email : string) (w : World) : World :=
  let cacheDir := pathJoin CACHE_DIR (sanitize email) in
  set_files (delete cacheDir (delete (sessionPath email) (delete (cookiePath email) (files w))))
    (set_dirs (dirs w ∖ {[cacheDir]}) w).

(** What [session.browser.close()] of [closeSession] leaves of the
    browsers. *)
Definition browsersAfterClose (session : Session) (l : list Browser) : list Browser :=
  match s_browser session with
  | Some browser => alter closeIt browser l
  | None => l
  end.

(** The answer of [closeSession] for a session it closed. *)
Definition closedResult : CloseResult :=
  {| c_success := true; c_message := "Sesión cerrada exitosamente" |}.

(** The cookie file of the identity after [saveCookies] on the page. *)
Definition savedCookieFile (email : string) (context : nat) (w : World)
    : option FileContent :=
  match contextCookies (pageIn w context) with
  | Ok cookies => Some (CookieJson (cookieBundle email (now w) cookies))
  | Throw _ => files w !! cookiePath email
  end.

(** The session record of user@example.com after the login of
    [afterDirectLogin]. *)
Definition directSession : Session :=
  {| s_browser := Some 0%nat; s_context := 0; s_page := 0;
     s_email := "user@example.com"; s_password := Some "secret";
     s_cacheDir := None; s_version := mobile;
     s_createdAt := 1700000000000; s_quickLogin := false |}.

(** Between two worlds the session [sessionId] was kept: no session
    record was added or removed, no browser was added or closed, no
    directory was made, no timer was set, and the pending entries of the
    other sessions are the same. *)
Definition sessionKept (sessionId : string) (a b : World) : Prop :=
  activeSessions b = activeSessions a
  /\ b_open <$> browsers b = b_open <$> browsers a
  /\ dirs b = dirs a
  /\ timers b = timers a
  /\ (forall other, other <> sessionId ->
        lookupPending other (pending2FASessions b)
        = lookupPending other (pending2FASessions a)).

(** An event of a login that enters nothing: no fresh browser is
    launched, nothing is typed or filled in, no field or button is
    clicked through [page.click] or with force, and no check for a second
    factor is made. *)
Definition entersNothing (e : Event) : Prop :=
  match e with
  | EvLaunch _ | EvCheckFor2FA _ _ => False
  | EvAction _ (PageClick _ | KeyboardType _ | ClickForce _ | Fill _ _ | TypeInto _ _) => False
  | _ => True
  end.

(** An event of a login that starts from nothing stored: no persistent
    context is launched and no storage is written into the page. *)
Definition startsFresh (e : Event) : Prop :=
  match e with
  | EvLaunchPersistent _ => False
  | EvAction _ (SetLocalStorage _ | SetSessionStorage _ | Fill _ _ | TypeInto _ _) => False
  | _ => True
  end.

(** Between two worlds only the data of one login attempt changed on the
    disk and in the tables: the files other than the two artifact files
    of the identity, the directories other than the cache directory of
    the identity and the dialect, the session records and the pending
    entries under other ids are the same, no timer was set and no promise
    was made or settled. *)
Definition onlyOwnData (email : string) (version : Version) (sessionId : string)
    (a b : World) : Prop :=
  (forall path, path <> cookiePath email -> path <> sessionPath email ->
                files b !! path = files a !! path)
  /\ (forall dir, dir <> pathJoin CACHE_DIR (cacheDirName email version) ->
                  dir ∈ dirs b <-> dir ∈ dirs a)
  /\ (forall other, other <> sessionId ->
                    activeSessions b !! other = activeSessions a !! other)
  /\ (forall other, other <> sessionId ->
                    lookupPending other (pending2FASessions b)
                    = lookupPending other (pending2FASessions a))
  /\ timers b = timers a
  /\ promises b = promises a
  /\ (length (browsers a) <= length (browsers b))%nat.

(** The characters typed on the keyboard in a run of events, in order. *)
Fixpoint typed (t : list Event) : string :=
  match t with
  | [] => ""
  | EvAction _ (KeyboardType c) :: rest => String c (typed rest)
  | _ :: rest => typed rest
  end.

(** A key typed on the page, or a pause. *)
Definition keyOrPause (page : nat) (e : Event) : Prop :=
  match e with
  | EvAction h (KeyboardType _) => h = page
  | EvSleep _ => True
  | _ => False
  end.

(** The quick attempt has registered its session [sessionId] with the
    persistent context that it launched on the cache directory of the
    identity and the dialect and that is open; nothing else happened to
    the sessions since [w]. *)
Definition registeredQuick (sessionId email : string) (version : Version)
    (w w' : World) : Prop :=
  (exists session,
     activeSessions w' = <[sessionId := session]> (activeSessions w)
     /\ s_context session = length (browsers w)
     /\ s_browser session
        = (if persistentContextHasBrowser (site w) then Some (length (browsers w)) else None)
     /\ s_cacheDir session = Some (pathJoin CACHE_DIR (cacheDirName email version))
     /\ s_password session = None
     /\ s_email session = email)
  /\ b_open <$> browsers w' = (b_open <$> browsers w) ++ [true].

(** The error of a quick attempt that launched its context and did not
    get in: [browser.close()] is called on what [context.browser()]
    returned. *)
Definition quickFailure (hasBrowser : bool) : string :=
  if hasBrowser then "QUICK_LOGIN_FAILED"
  else "Cannot read properties of null (reading 'close')".

(** The object that [saveSessionState] writes at the time [t] for a page
    with the given address, title and storages. *)
Definition sessionBundle (email : string) (t : Z) (address heading : string)
    (local session : Storage) : SessionState :=
  {| ss_email := email; ss_timestamp := Some t; ss_url := address; ss_title := heading;
     ss_localStorage := Some local; ss_sessionStorage := Some session |}.

(** The selectors of the button that declines to save the login, as
    [handleSaveLoginDialog] lists them. *)
Definition notNowSelectors : list string :=
  [ css "div[role=`button`]:has-text(`Ahora no`)";
    css "div[role=`button`]:has-text(`Not now`)";
    css "button:has-text(`Ahora no`)";
    css "button:has-text(`Not now`)";
    css "div[aria-label=`Not Now`]";
    css "div[aria-label=`Ahora no`]" ].

(** The selectors of the button that saves the login. *)
Definition saveSelectors : list string :=
  [ css "div[role=`button`]:has-text(`Guardar`)";
    css "div[role=`button`]:has-text(`Save`)";
    css "button:has-text(`Guardar`)";
    css "button:has-text(`Save`)";
    css "button[data-testid=`save_device_checkbox`]" ].

(** The button that [handleSaveLoginDialog] clicks on a page: the one
    that declines when there is one, else the one that saves. *)
Definition dialogButton (p : PageState) : option Locator :=
  match findElement p notNowSelectors with
  | Some notNowButton => Some notNowButton
  | None => findElement p saveSelectors
  end.

(** * Properties *)

(** ** The names derived from an identity *)

Section DerivedNames.

Lemma length_append (a b : string) :
  String.length (a +:+ b) = (String.length a + String.length b)%nat.
Proof.
  induction a as [|c a IH]; [reflexivity|].
  change (S (String.length (a +:+ b)) = S (String.length a + String.length b)).
  now rewrite IH.
Qed.

(** A suffix can be taken off both sides of an equation. *)
Lemma append_cancel_r (t a b : string) : a +:+ t = b +:+ t -> a = b.
Proof.
  revert b; induction a as [|c a IH]; intros [|d b] H.
  - reflexivity.
  - apply (f_equal String.length) in H.
    rewrite !length_append in H. simpl in H. lia.
  - apply (f_equal String.length) in H.
    rewrite !length_append in H. simpl in H. lia.
  - change (String c (a +:+ t) = String d (b +:+ t)) in H.
    injection H as -> H. f_equal. now apply IH.
Qed.

Lemma sanitize_char_eq (c d : ascii) :
  (if isAtOrDot c then "_"%char else c) = (if isAtOrDot d then "_"%char else d)
  <-> sameAfterSanitize c d = true.
Proof.
  unfold sameAfterSanitize, isAtOrDot.
  repeat match goal with
         | |- context [Ascii.eqb ?x ?y] =>
             destruct (Ascii.eqb_spec x y); subst; cbn [orb andb]
         end;
    (split; intros; congruence).
Qed.

Lemma sanitize_eq_iff (a b : string) : sanitize a = sanitize b <-> confusable a b = true.
Proof.
  revert b; induction a as [|c a IH]; intros [|d b];
    try (split; discriminate); [split; reflexivity|].
  change (String (if isAtOrDot c then "_"%char else c) (sanitize a)
          = String (if isAtOrDot d then "_"%char else d) (sanitize b)
          <-> sameAfterSanitize c d && confusable a b = true).
  rewrite andb_true_iff, <- IH, <- sanitize_char_eq.
  split; [intros H; injection H; auto | intros [-> ->]; reflexivity].
Qed.

End DerivedNames.

(** C8, as amended.  The sanitizing transform is not reversible.  Two
    identities get the same cookie file name, the same session file name
    and the same cache directory name exactly when they have the same
    length and, position by position, the same character or two
    characters among ['@'], ['.'] and ['_']. *)
Theorem derived_names_equal_iff (a b : string) :
  (cookieFileName a = cookieFileName b <-> confusable a b = true)
  /\ (sessionFileName a = sessionFileName b <-> confusable a b = true)
  /\ (forall v, cacheDirName a v = cacheDirName b v <-> confusable a b = true).
Proof.
  unfold cookieFileName, sessionFileName, cacheDirName.
  repeat split; try (intros H; apply sanitize_eq_iff; eapply append_cancel_r; exact H);
    intros H; apply sanitize_eq_iff in H; now rewrite H.
Qed.

(** C8, the claim refuted: two distinct identities with the same derived
    names, so that no function recovers the identity from such a name. *)
Lemma derived_names_collide :
  "john.doe@example.com" <> "john@doe.example.com"
  /\ cookieFileName "john.doe@example.com" = cookieFileName "john@doe.example.com"
  /\ sessionFileName "john.doe@example.com" = sessionFileName "john@doe.example.com"
  /\ cacheDirName "john.doe@example.com" mobile = cacheDirName "john@doe.example.com" mobile
  /\ ~ (forall a b : string, a <> b -> cookieFileName a <> cookieFileName b)
  /\ ~ (exists recover : string -> string, forall a, recover (cookieFileName a) = a).
Proof.
  assert (Hne : "john.doe@example.com" <> "john@doe.example.com") by discriminate.
  assert (Heq : cookieFileName "john.doe@example.com" = cookieFileName "john@doe.example.com")
    by reflexivity.
  repeat split; try reflexivity; try exact Hne.
  - intros H. exact (H _ _ Hne Heq).
  - intros [recover H]. apply Hne.
    rewrite <- (H "john.doe@example.com"), Heq. apply H.
Qed.

(** ** The two checks of the outcome classifier *)

(** [checkFor2FA] always returns a boolean. *)
Lemma checkFor2FA_returns (p : PageState) : exists b, checkFor2FA p = Ok b.
Proof.
  unfold checkFor2FA.
  destruct (url p) as [u|e]; cbn [ResM.bind ResM.try_catch]; [|eauto].
  destruct (title p) as [t|e]; cbn [ResM.bind ResM.try_catch]; [|eauto].
  repeat match goal with
         | |- context [existsb ?f ?l] =>
             destruct (existsb f l); cbn [ResM.bind ResM.try_catch]
         end; eauto.
Qed.

(** C10.  [checkFor2FA] never throws: on every page state it returns a
    boolean, and it returns [false] when reading the address or the title
    of the page fails; awaited on a handle it never rejects either. *)
Theorem checkFor2FA_total (p : PageState) :
  (exists b, checkFor2FA p = Ok b)
  /\ (forall e, url p = Throw e \/ title p = Throw e -> checkFor2FA p = Ok false)
  /\ (forall w h, exists b, fst (checkFor2FAOn h w) = Ok b).
Proof.
  split; [apply checkFor2FA_returns|]. split.
  - intros e [H|H]; unfold checkFor2FA.
    + now rewrite H.
    + rewrite H. destruct (url p); reflexivity.
  - intros w h. unfold checkFor2FAOn, observe, emit, JsM.bind, JsM.get, JsM.ret,
      JsM.modify, JsM.lift. simpl.
    destruct (checkFor2FA_returns (pageIn w h)) as [b Hb]. exists b. exact Hb.
Qed.

Lemma checkFor2FA_total_witness :
  (url closedPage = Throw closedError \/ title closedPage = Throw closedError)
  /\ checkFor2FA closedPage = Ok false.
Proof.
  split.
  - left; reflexivity.
  - apply (proj1 (proj2 (checkFor2FA_total closedPage)) closedError).
    left; reflexivity.
Defined.

(** The part of C5 that the code keeps: a second-factor indicator that is
    in the list of [checkLoginSuccess] and visible makes it answer
    [false]. *)
Lemma checkLoginSuccess_sees_its_indicators (p : PageState) (u indicator : string) :
  url p = Ok u ->
  indicator ∈ twoFAIndicators_checkLoginSuccess ->
  isVisible p (Loc indicator) = Ok true ->
  checkLoginSuccess p = Ok false.
Proof.
  intros Hu Hin Hvis. unfold checkLoginSuccess. rewrite Hu.
  cbn [ResM.bind].
  assert (H : existsb (fun i => visibleNow p (Loc i)) twoFAIndicators_checkLoginSuccess = true).
  { apply existsb_exists. exists indicator. split.
    - now apply list_elem_of_In.
    - unfold visibleNow. now rewrite Hvis. }
  now rewrite H.
Qed.

(** C5, the claim evaluated where the code breaks it: on a checkpoint
    page and on a page that shows only the button to continue,
    [checkFor2FA] answers [true] and [checkLoginSuccess] answers [true]
    too.  The list of indicators of [checkLoginSuccess] is shorter than
    that of [checkFor2FA], and it does not look at the address. *)
Theorem checkLoginSuccess_misses_second_factor :
  checkFor2FA Demo.checkpointPage = Ok true
  /\ checkLoginSuccess Demo.checkpointPage = Ok true
  /\ checkFor2FA Demo.continuePage = Ok true
  /\ checkLoginSuccess Demo.continuePage = Ok true.
Proof. repeat split; vm_compute; reflexivity. Qed.

(** ** Reasoning about runs *)

(** Unfolds the operations of the monad in the goal. *)
Ltac unfold_monad :=
  unfold JsM.bind, JsM.ret, JsM.throw, JsM.try_catch, JsM.lift, JsM.get, JsM.modify in *.

(** Decides a closed proposition by evaluating its decision procedure. *)
Ltac by_evaluation :=
  match goal with
  | |- ?P => apply (bool_decide_unpack P); vm_compute; exact I
  end.

(** ** Deleting the data of an account *)

Section DeleteAccountData.

Lemma removeIfThere_unlink_dirs (path : string) (n : nat) (w : World) :
  dirs (snd (removeIfThere path unlinkSync n w)) = dirs w.
Proof.
  unfold removeIfThere, existsSync, unlinkSync. unfold_monad. simpl.
  destruct (_ || _); simpl; [|reflexivity].
  destruct (files w !! path); reflexivity.
Qed.

Lemma removeIfThere_rm_dirs (path x : string) (n : nat) (w : World) :
  x <> path -> x ∈ dirs w -> x ∈ dirs (snd (removeIfThere path rmSync n w)).
Proof.
  intros Hne Hin. unfold removeIfThere, existsSync, rmSync. unfold_monad. simpl.
  destruct (_ || _); simpl; [|exact Hin].
  set_solver.
Qed.

(** The directory that the route removes is never the one a login makes. *)
Lemma login_cache_is_not_the_deleted_path (email : string) (v : Version) :
  pathJoin CACHE_DIR (cacheDirName email v) <> pathJoin CACHE_DIR (sanitize email).
Proof.
  unfold pathJoin, cacheDirName. intros H.
  apply (f_equal String.length) in H.
  rewrite !length_append in H.
  destruct v; simpl in H; lia.
Qed.

End DeleteAccountData.

(** C9, where the code breaks the claim: the cache directory that a login
    creates for an identity ([cache/<sanitized identity>_<version>]) is
    still there after [deleteCookies] for that identity, whatever else
    was removed: the route looks for [cache/<sanitized identity>]. *)
Theorem deleteCookies_keeps_login_cache (w : World) (email : string) (v : Version) :
  pathJoin CACHE_DIR (cacheDirName email v) ∈ dirs w ->
  pathJoin CACHE_DIR (cacheDirName email v) ∈ dirs (snd (deleteCookies email w)).
Proof.
  intros Hin. unfold deleteCookies.
  unfold JsM.try_catch at 1.
  match goal with
  | |- context [match ?m w with (_, _) => _ end] =>
      assert (Hrun : pathJoin CACHE_DIR (cacheDirName email v) ∈ dirs (snd (m w)))
  end.
  { unfold JsM.bind at 1.
    pose proof (removeIfThere_unlink_dirs (pathJoin COOKIES_DIR (cookieFileName email)) 0 w) as H1.
    destruct (removeIfThere _ unlinkSync 0%nat w) as [[d1|e1] w1]; simpl in H1;
      [|simpl; now rewrite H1].
    unfold JsM.bind at 1.
    pose proof (removeIfThere_unlink_dirs (pathJoin COOKIES_DIR (sessionFileName email)) d1 w1) as H2.
    destruct (removeIfThere _ unlinkSync d1 w1) as [[d2|e2] w2]; simpl in H2;
      [|simpl; rewrite H2; now rewrite H1].
    unfold JsM.bind at 1.
    pose proof (removeIfThere_rm_dirs (pathJoin CACHE_DIR (sanitize email))
                  (pathJoin CACHE_DIR (cacheDirName email v)) d2 w2
                  (login_cache_is_not_the_deleted_path email v)) as H3.
    rewrite H2, H1 in H3. specialize (H3 Hin).
    destruct (removeIfThere _ rmSync d2 w2) as [[d3|e3] w3]; simpl in H3; [|exact H3].
    destruct (0 <? d3)%nat; exact H3. }
  match goal with
  | |- context [match ?m w with (_, _) => _ end] =>
      destruct (m w) as [[r|e] w']; exact Hrun
  end.
Qed.

(** The failing input of C9: after that login the cookie file, the
    session file and the cache directory of the identity are there;
    [deleteCookies] reports 2 removed items and the cache directory stays. *)
Lemma deleteCookies_keeps_login_cache_witness :
  "cache/user_example_com_mobile" ∈ dirs afterDirectLogin
  /\ "cache/user_example_com_mobile" ∈ dirs (snd (deleteCookies "user@example.com" afterDirectLogin))
  /\ is_Some (files afterDirectLogin !! "cookies/user_example_com_cookies.json")
  /\ is_Some (files afterDirectLogin !! "cookies/user_example_com_session.json")
  /\ (res_filesDeleted <$> fst_ok (deleteCookies "user@example.com" afterDirectLogin))
     = Some (Some 2%nat).
Proof.
  assert (Hin : pathJoin CACHE_DIR (cacheDirName "user@example.com" mobile) ∈ dirs afterDirectLogin).
  { by_evaluation. }
  split; [exact Hin|].
  split; [exact (deleteCookies_keeps_login_cache afterDirectLogin "user@example.com" mobile Hin)|].
  split; [by_evaluation|].
  split; [by_evaluation|].
  vm_compute. reflexivity.
Defined.

(** ** The automatic choice of the dialect *)

Section AutoDialect.

Variables (email : string) (password : option string).

Lemma secondFactorSignal_returns (error : JsError) (version : Version) (label : string)
    (w : World) :
  exists o, secondFactorSignal error email version label w = (Ok o, w)
            /\ forall r, o = Some r -> r_success r = false /\ r_requires2FA r = true.
Proof.
  unfold secondFactorSignal. unfold_monad.
  destruct (startsWith _ _); [eexists; split; [reflexivity|]; intros r [= <-]; auto|].
  destruct (0 <? _)%nat; [|eexists; split; [reflexivity|]; discriminate].
  destruct (fst <$> List.find _ _) as [sessionId|];
    [|eexists; split; [reflexivity|]; discriminate].
  destruct (bool_decide _); eexists; (split; [reflexivity|]);
    [discriminate | intros r [= <-]; auto].
Qed.

(** One automatic attempt never throws; what it hands back to return is
    a success or the request for a second factor. *)
Lemma autoAttempt_returns (version : Version) (w : World) :
  exists o w', autoAttempt email password version w = (Ok o, w')
               /\ forall r, o = Some r -> r_success r = true \/ r_requires2FA r = true.
Proof.
  unfold autoAttempt. unfold JsM.try_catch, JsM.bind.
  destruct (attemptLoginWithVersion email password version false w) as [[r|e] w1].
  - destruct (r_success r) eqn:Hs; unfold JsM.ret; do 2 eexists;
      (split; [reflexivity|]); [intros ? [= <-]; auto | discriminate].
  - destruct (secondFactorSignal_returns e version (versionLabel version) w1)
      as (o & -> & Ho).
    do 2 eexists; split; [reflexivity|]. intros r Hr. right. now apply Ho.
Qed.

(** An attempt that failed outright makes the automatic attempt go on. *)
Lemma autoAttempt_failed (version : Version) (w w1 : World) (r : LoginResult) :
  attemptLoginWithVersion email password version false w = (Ok r, w1) ->
  r_success r = false ->
  autoAttempt email password version w = (Ok None, w1).
Proof.
  intros Hrun Hs. unfold autoAttempt. unfold JsM.try_catch, JsM.bind.
  rewrite Hrun, Hs. reflexivity.
Qed.

(** With the automatic choice, the combined failure is never returned:
    a result that comes back is a success or the request for a second
    factor, and the only error is the ReferenceError of the last
    [return]. *)
Lemma auto_login_outcomes (versionChoice : string) (w : World) :
  versionChoice <> "mobile" -> versionChoice <> "desktop" ->
  match fst (performFacebookLoginPersistent email password versionChoice w) with
  | Ok r => r_success r = true \/ r_requires2FA r = true
  | Throw e => e = ReferenceError "mobileResult is not defined"
  end.
Proof.
  intros Hm Hd. unfold performFacebookLoginPersistent.
  rewrite !bool_decide_eq_false_2 by assumption.
  unfold JsM.bind at 1.
  destruct (autoAttempt_returns mobile w) as (o1 & w1 & -> & H1).
  destruct o1 as [r1|]; [unfold JsM.ret; simpl; now apply H1|].
  unfold JsM.bind at 1.
  destruct (autoAttempt_returns desktop w1) as (o2 & w2 & -> & H2).
  destruct o2 as [r2|]; [unfold JsM.ret; simpl; now apply H2|].
  reflexivity.
Qed.

End AutoDialect.

(** C3, where the code breaks the claim.  With the automatic choice,
    when the mobile attempt fails outright the desktop attempt is made in
    the world the mobile attempt left; when that fails outright too, the
    login does not return the combined failure: it throws the
    ReferenceError of reading [mobileResult] out of its scope. *)
Theorem auto_login_both_failed (email : string) (password : option string)
    (versionChoice : string) (w w1 w2 : World) (r1 r2 : LoginResult) :
  versionChoice <> "mobile" -> versionChoice <> "desktop" ->
  attemptLoginWithVersion email password mobile false w = (Ok r1, w1) ->
  r_success r1 = false ->
  attemptLoginWithVersion email password desktop false w1 = (Ok r2, w2) ->
  r_success r2 = false ->
  performFacebookLoginPersistent email password versionChoice w
  = (Throw (ReferenceError "mobileResult is not defined"), w2).
Proof.
  intros Hm Hd Hrun1 Hs1 Hrun2 Hs2. unfold performFacebookLoginPersistent.
  rewrite !bool_decide_eq_false_2 by assumption.
  unfold JsM.bind at 1.
  rewrite (autoAttempt_failed email password mobile w w1 r1 Hrun1 Hs1).
  unfold JsM.bind at 1.
  rewrite (autoAttempt_failed email password desktop w1 w2 r2 Hrun2 Hs2).
  reflexivity.
Qed.

(** The failing input of C3: on that site the mobile attempt and then
    the desktop attempt fail for want of the e-mail field, both browsers
    are closed, and the login throws. *)
Lemma auto_login_both_failed_witness :
  fst brokenMobile
    = Ok (failedResult "mobile" "No se pudo encontrar el campo de email en versión mobile")
  /\ fst brokenDesktop
    = Ok (failedResult "desktop" "No se pudo encontrar el campo de email en versión desktop")
  /\ b_open <$> browsers (snd brokenDesktop) = [false; false]
  /\ performFacebookLoginPersistent "user@example.com" (Some "secret") "auto"
       (Demo.start Demo.siteBroken)
     = (Throw (ReferenceError "mobileResult is not defined"), snd brokenDesktop).
Proof.
  assert (H1 : fst brokenMobile
    = Ok (failedResult "mobile" "No se pudo encontrar el campo de email en versión mobile"))
    by (vm_compute; reflexivity).
  assert (H2 : fst brokenDesktop
    = Ok (failedResult "desktop" "No se pudo encontrar el campo de email en versión desktop"))
    by (vm_compute; reflexivity).
  split; [exact H1|]. split; [exact H2|].
  split; [vm_compute; reflexivity|].
  apply (auto_login_both_failed "user@example.com" (Some "secret") "auto"
           (Demo.start Demo.siteBroken) (snd brokenMobile) (snd brokenDesktop)
           (failedResult "mobile" "No se pudo encontrar el campo de email en versión mobile")
           (failedResult "desktop" "No se pudo encontrar el campo de email en versión desktop")).
  - discriminate.
  - discriminate.
  - vm_compute; reflexivity.
  - reflexivity.
  - vm_compute; reflexivity.
  - reflexivity.
Defined.

(** ** Quick login without a usable bundle *)

Section QuickLogin.

Lemma loadCookies_nothing_usable (w : World) (email : string) :
  noBundle w email \/ expiredBundle w email ->
  loadCookies email COOKIES_DIR w = (Ok None, w).
Proof.
  unfold noBundle, expiredBundle, cookiePath, loadCookies, existsSync, readJson, dateNow.
  unfold_monad. intros [Hnone | (c & t & Hfile & Hts & Hold)]; simpl.
  - rewrite Hnone. simpl.
    match goal with
    | |- context [if ?b then _ else _] => destruct b; simpl; [reflexivity|]
    end.
    rewrite Hnone. reflexivity.
  - rewrite Hfile. simpl. rewrite Hfile.
    assert (Hcut : tooOld (now w) (timestampOf c) = true).
    { rewrite Hts. unfold tooOld. apply Z.ltb_lt. exact Hold. }
    destruct c as [|d|s]; [discriminate Hts| |];
      cbv beta iota; rewrite Hcut; reflexivity.
Qed.

Lemma attempt_quick_without_cookies (w : World) (email : string)
    (password : option string) (version : Version) :
  loadCookies email COOKIES_DIR w = (Ok None, w) ->
  attemptLoginWithVersion email password version true w
  = (Ok (noCookiesResult email version), w).
Proof.
  intros Hload. unfold attemptLoginWithVersion, dateNow. unfold_monad. simpl.
  rewrite Hload. reflexivity.
Qed.

End QuickLogin.

(** C2.  For an identity without a stored bundle, and just the same for
    an identity whose stored bundle is older than 7 days, a quick login
    with any choice of the dialect returns the NO_COOKIES failure and
    leaves the world as it was: no browser is launched (the trace gets no
    event), nothing is written. *)
Theorem quickLogin_without_usable_bundle (w : World) (email versionChoice : string) :
  noBundle w email \/ expiredBundle w email ->
  performQuickLogin email versionChoice w
  = (Ok (noCookiesResult email (quickVersion versionChoice)), w)
  /\ trace (snd (performQuickLogin email versionChoice w)) = trace w
  /\ browsers (snd (performQuickLogin email versionChoice w)) = browsers w.
Proof.
  intros Huse.
  pose proof (loadCookies_nothing_usable w email Huse) as Hload.
  assert (Hrun : performQuickLogin email versionChoice w
                 = (Ok (noCookiesResult email (quickVersion versionChoice)), w)).
  { unfold performQuickLogin, quickVersion.
    destruct (bool_decide (versionChoice = "mobile")) eqn:Hm.
    - apply bool_decide_eq_true in Hm. subst versionChoice.
      rewrite bool_decide_eq_false_2 by discriminate.
      now apply attempt_quick_without_cookies.
    - destruct (bool_decide (versionChoice = "desktop")).
      + now apply attempt_quick_without_cookies.
      + unfold JsM.bind.
        rewrite (attempt_quick_without_cookies w email None mobile Hload). simpl.
        rewrite (attempt_quick_without_cookies w email None desktop Hload). simpl.
        reflexivity. }
  rewrite Hrun. auto.
Qed.

Lemma quickLogin_without_usable_bundle_witness :
  (noBundle (Demo.start Demo.siteDirect) "user@example.com"
   /\ fst (performQuickLogin "user@example.com" "auto" (Demo.start Demo.siteDirect))
      = Ok (noCookiesResult "user@example.com" mobile))
  /\ (expiredBundle staleWorld "user@example.com"
      /\ fst (performQuickLogin "user@example.com" "auto" staleWorld)
         = Ok (noCookiesResult "user@example.com" mobile)
      /\ trace (snd (performQuickLogin "user@example.com" "auto" staleWorld)) = []).
Proof.
  assert (H1 : noBundle (Demo.start Demo.siteDirect) "user@example.com")
    by (vm_compute; reflexivity).
  assert (H2 : expiredBundle staleWorld "user@example.com").
  { exists (CookieJson {| cd_email := "user@example.com";
                          cd_timestamp := Some (1700000000000 - 8 * 24 * 60 * 60 * 1000);
                          cd_cookies := [Demo.sessionCookie] |}).
    exists (1700000000000 - 8 * 24 * 60 * 60 * 1000).
    split; [vm_compute; reflexivity|]. split; [reflexivity|].
    vm_compute; reflexivity. }
  split.
  - split; [exact H1|].
    rewrite (proj1 (quickLogin_without_usable_bundle
                      (Demo.start Demo.siteDirect) "user@example.com" "auto" (or_introl H1))).
    reflexivity.
  - split; [exact H2|].
    destruct (quickLogin_without_usable_bundle staleWorld "user@example.com" "auto"
                (or_intror H2)) as (Hrun & Htrace & _).
    split; [rewrite Hrun; reflexivity | exact Htrace].
Defined.

(** ** Sessions waiting for a second factor *)

Section SecondFactor.

Lemma lookupPending_deletePending (sessionId : string) (l : list (string * Pending)) :
  lookupPending sessionId (deletePending sessionId l) = None.
Proof.
  unfold lookupPending, deletePending.
  induction l as [|[k v] l IH]; [reflexivity|].
  rewrite filter_cons. simpl. destruct (decide (k ≠ sessionId)) as [Hne|Heq].
  - simpl. rewrite bool_decide_eq_false_2 by exact Hne. exact IH.
  - exact IH.
Qed.

(** A session id without a pending entry: the request is answered with
    404 and nothing changes. *)
Lemma submit2FA_unknown_session (w : World) (sessionId code : string) :
  sessionId <> "" -> code <> "" ->
  lookupPending sessionId (pending2FASessions w) = None ->
  submit2FA sessionId code w
  = (Ok (respond 404 false "Sesión no encontrada o no está esperando 2FA"), w).
Proof.
  intros Hs Hc Hnone. unfold submit2FA. unfold_monad.
  rewrite !bool_decide_eq_false_2 by assumption. simpl.
  rewrite Hnone. reflexivity.
Qed.

(** With [resolve] left at [null], the inner [try] block of the route
    either answers that the code was wrong or throws. *)
Lemma processCode_null_resolve (w : World) (sessionId code : string) (sessionData : Pending) :
  p_resolve sessionData = None ->
  match fst (processCode sessionId code sessionData w) with
  | Ok r => r = respondStill "Código 2FA incorrecto. Intenta nuevamente."
  | Throw _ => True
  end.
Proof.
  intros Hnull. unfold processCode. rewrite Hnull.
  unfold callResolve, DEBUG_ENABLED. unfold_monad.
  repeat match goal with
         | |- context [match ?m ?v with (_, _) => _ end] =>
             destruct (m v) as [[?|?] ?]
         | |- context [match findCodeInput ?p with _ => _ end] =>
             destruct (findCodeInput p)
         | |- context [match findSubmitButton ?p ?l with _ => _ end] =>
             destruct (findSubmitButton p l)
         | |- context [match activeSessions ?v !! ?k with _ => _ end] =>
             destruct (activeSessions v !! k)
         | |- context [if ?b then _ else _] => destruct b
         end; simpl; auto.
Qed.

End SecondFactor.

(** C1, where the code breaks the claim.  A session suspended by a full
    login of the current server holds [null] for [resolve]; for such a
    session, whatever the site does with the code, [submit2FA] answers
    with [success: false] and [stillRequires2FA: true]: the call of
    [resolve] after the artifacts are saved and the pending entry is
    removed throws, and the inner [catch] turns it into that answer. *)
Theorem submit2FA_null_resolve_never_succeeds (w : World) (sessionId code : string)
    (sessionData : Pending) :
  sessionId <> "" -> code <> "" ->
  lookupPending sessionId (pending2FASessions w) = Some sessionData ->
  p_resolve sessionData = None ->
  exists r w', submit2FA sessionId code w = (Ok r, w')
               /\ status r = 200%nat
               /\ res_success r = Some false
               /\ res_stillRequires2FA r = true
               /\ res_loginCompleted r = false.
Proof.
  intros Hs Hc Hpending Hnull. unfold submit2FA.
  unfold JsM.try_catch at 1.
  rewrite !bool_decide_eq_false_2 by assumption. simpl.
  unfold JsM.bind at 1. unfold JsM.get at 1. rewrite Hpending.
  unfold JsM.try_catch at 1.
  pose proof (processCode_null_resolve w sessionId code sessionData Hnull) as Hcode.
  destruct (processCode sessionId code sessionData w) as [[r|e] w1]; simpl in Hcode.
  - subst r. do 2 eexists. split; [reflexivity|]. auto.
  - unfold JsM.ret. do 2 eexists. split; [reflexivity|]. auto.
Qed.

(** The failing input of C1: the suspended session of user@example.com
    and the code 123456 that the site accepts.  The page ends on the home
    page, the cookie file and the session file are written, the pending
    entry is removed and a second call is answered with 404, but the
    answer to the first call is a failure. *)
Lemma submit2FA_null_resolve_witness :
  let w := snd suspendedRun in
  let run := submit2FA suspendedId "123456" w in
  (r_requires2FA <$> fst_ok suspendedRun) = Some true
  /\ (p_resolve <$> lookupPending suspendedId (pending2FASessions w)) = Some None
  /\ (exists r w', run = (Ok r, w') /\ status r = 200%nat /\ res_success r = Some false
                   /\ res_stillRequires2FA r = true /\ res_loginCompleted r = false)
  /\ fst run = Ok (respondStill "Error procesando 2FA: resolve is not a function")
  /\ pending2FASessions (snd run) = []
  /\ is_Some (files (snd run) !! "cookies/user_example_com_cookies.json")
  /\ is_Some (files (snd run) !! "cookies/user_example_com_session.json")
  /\ (b_dom <$> browsers (snd run)) = [Demo.home]
  /\ checkFor2FA (pageIn (snd run) 0) = Ok false
  /\ checkLoginSuccess (pageIn (snd run) 0) = Ok true
  /\ fst (submit2FA suspendedId "123456" (snd run))
     = Ok (respond 404 false "Sesión no encontrada o no está esperando 2FA").
Proof.
  intros w run.
  split; [vm_compute; reflexivity|].
  split; [vm_compute; reflexivity|].
  split.
  { apply (submit2FA_null_resolve_never_succeeds w suspendedId "123456"
             {| p_page := 0; p_email := "user@example.com"; p_version := mobile;
                p_timestamp := 1700000012100; p_resolve := None; p_reject := None |});
      [discriminate | discriminate | vm_compute; reflexivity | reflexivity]. }
  split; [vm_compute; reflexivity|].
  split; [vm_compute; reflexivity|].
  split; [by_evaluation|].
  split; [by_evaluation|].
  repeat split; vm_compute; reflexivity.
Defined.

(** C4, where the code breaks the claim.  For a session whose pending
    entry holds [null] for [reject] (every session suspended by the
    current server), [cancel2FA] removes the pending entry and then fails
    on the call of [reject]: the route answers with status 500 and
    [closeSession] is not reached, so the browser stays open and the
    entry of [activeSessions] stays. *)
Theorem cancel2FA_null_reject_leaks_browser (w : World) (sessionId : string)
    (sessionData : Pending) :
  sessionId <> "" ->
  lookupPending sessionId (pending2FASessions w) = Some sessionData ->
  p_reject sessionData = None ->
  let run := cancel2FA sessionId w in
  fst run = Ok (respond 500 false
                  "Error del servidor: sessionData.reject is not a function")
  /\ lookupPending sessionId (pending2FASessions (snd run)) = None
  /\ browsers (snd run) = browsers w
  /\ activeSessions (snd run) = activeSessions w
  /\ trace (snd run) = trace w.
Proof.
  intros Hs Hpending Hnull. unfold cancel2FA, removePending, callReject.
  unfold_monad. rewrite bool_decide_eq_false_2 by assumption.
  rewrite Hpending, Hnull. simpl.
  repeat split. apply lookupPending_deletePending.
Qed.

(** The failing input of C4: the suspended session of user@example.com
    is cancelled; its browser is still open afterwards and its session
    record is still registered. *)
Lemma cancel2FA_null_reject_witness :
  let w := snd suspendedRun in
  let run := cancel2FA suspendedId w in
  (p_reject <$> lookupPending suspendedId (pending2FASessions w)) = Some None
  /\ fst run = Ok (respond 500 false
                     "Error del servidor: sessionData.reject is not a function")
  /\ pending2FASessions (snd run) = []
  /\ (b_open <$> browsers (snd run)) = [true]
  /\ (s_browser <$> activeSessions (snd run) !! suspendedId) = Some (Some 0%nat).
Proof.
  intros w run.
  split; [vm_compute; reflexivity|].
  split.
  - apply (cancel2FA_null_reject_leaks_browser w suspendedId
             {| p_page := 0; p_email := "user@example.com"; p_version := mobile;
                p_timestamp := 1700000012100; p_resolve := None; p_reject := None |});
      [discriminate | vm_compute; reflexivity | reflexivity].
  - split; [vm_compute; reflexivity|].
    split; vm_compute; reflexivity.
Defined.

(** ** What a login attempt leaves alone *)

(** A relation between the world before and the world after is kept by
    every function of a login attempt as soon as it is a preorder, it
    does not depend on the clock, the disk, the browsers, the random
    draws and the registry of sessions, it accepts a pending entry with
    [null] functions, and it accepts the events the function emits. *)
Section Frame.

Variable R : World -> World -> Prop.
Variable allowed : Event -> Prop.

Hypothesis R_refl : forall w, R w w.
Hypothesis R_trans : forall a b c, R a b -> R b c -> R a c.
Hypothesis R_now : forall v w, R w (set_now v w).
Hypothesis R_files : forall v w, R w (set_files v w).
Hypothesis R_dirs : forall v w, R w (set_dirs v w).
Hypothesis R_browsers : forall v w, R w (set_browsers v w).
Hypothesis R_draws : forall v w, R w (set_draws v w).
Hypothesis R_active : forall v w, R w (set_activeSessions v w).
Hypothesis R_pending :
  forall sessionId data w,
    p_resolve data = None -> p_reject data = None ->
    R w (set_pending2FASessions (setPending sessionId data (pending2FASessions w)) w).
Hypothesis R_emit : forall e w, allowed e -> R w (set_trace (trace w ++ [e]) w).

Hypothesis allow_sleep : forall ms, allowed (EvSleep ms).
Hypothesis allow_action : forall h a, allowed (EvAction h a).
Hypothesis allow_snapshot : forall stage, allowed (EvSnapshot stage).
Hypothesis allow_launch : forall v, allowed (EvLaunch v).
Hypothesis allow_launchPersistent : forall dir, allowed (EvLaunchPersistent dir).
Hypothesis allow_close : forall h, allowed (EvClose h).
Hypothesis allow_checkLoginSuccess : forall h r, allowed (EvCheckLoginSuccess h r).
Hypothesis allow_checkFor2FA : forall h r, allowed (EvCheckFor2FA h r).

(** The relation holds between the world before and after a run. *)
Definition keeps {A : Type} (m : M A) : Prop := forall w, R w (snd (m w)).

Lemma keeps_ret {A} (a : A) : keeps (JsM.ret a).
Proof. intros w. apply R_refl. Qed.

Lemma keeps_throw {A} (e : JsError) : keeps (@JsM.throw A e).
Proof. intros w. apply R_refl. Qed.

Lemma keeps_lift {A} (r : Res A) : keeps (JsM.lift r).
Proof. intros w. apply R_refl. Qed.

Lemma keeps_get : keeps JsM.get.
Proof. intros w. apply R_refl. Qed.

Lemma keeps_modify (f : World -> World) : (forall w, R w (f w)) -> keeps (JsM.modify f).
Proof. intros H w. apply H. Qed.

Lemma keeps_bind {A B} (m : M A) (k : A -> M B) :
  keeps m -> (forall a, keeps (k a)) -> keeps (JsM.bind m k).
Proof.
  intros Hm Hk w. unfold JsM.bind. specialize (Hm w).
  destruct (m w) as [[a|e] w1]; simpl in *; [|exact Hm].
  eapply R_trans; [exact Hm | apply Hk].
Qed.

Lemma keeps_try_catch {A} (m : M A) (h : JsError -> M A) :
  keeps m -> (forall e, keeps (h e)) -> keeps (JsM.try_catch m h).
Proof.
  intros Hm Hh w. unfold JsM.try_catch. specialize (Hm w).
  destruct (m w) as [[a|e] w1]; simpl in *; [exact Hm|].
  eapply R_trans; [exact Hm | apply Hh].
Qed.

Create HintDb frame.

Ltac frame_step :=
  lazymatch goal with
  | |- keeps (JsM.ret _) => apply keeps_ret
  | |- keeps (JsM.throw _) => apply keeps_throw
  | |- keeps (JsM.lift _) => apply keeps_lift
  | |- keeps JsM.get => apply keeps_get
  | |- keeps (JsM.bind _ _) => apply keeps_bind; [|intro]
  | |- keeps (JsM.try_catch _ _) => apply keeps_try_catch; [|intro]
  | |- keeps (JsM.modify _) => apply keeps_modify; intro
  | |- keeps (match ?x with _ => _ end) => destruct x
  | |- keeps _ => solve [eauto with frame]
  | |- R _ _ => solve [eauto with frame]
  end.

Ltac frame := repeat frame_step.

Lemma keeps_emit (e : Event) : allowed e -> keeps (emit e).
Proof. intros He w. apply R_emit, He. Qed.

Lemma keeps_dateNow : keeps dateNow.
Proof. unfold dateNow. frame. Qed.

Lemma keeps_sleep (ms : Z) : keeps (sleep ms).
Proof.
  unfold sleep. apply keeps_bind; [apply keeps_emit, allow_sleep|intros _].
  apply keeps_modify. intros w. eapply R_trans; [apply R_now | apply R_browsers].
Qed.

Lemma keeps_randomDelay (min max : Z) : keeps (randomDelay min max).
Proof. unfold randomDelay. frame. Qed.

Lemma keeps_observe (h : nat) : keeps (observe h).
Proof. unfold observe. frame. Qed.

Lemma keeps_act (h : nat) (a : Action) : keeps (act h a).
Proof.
  unfold act. apply keeps_bind; [apply keeps_emit, allow_action|intros _]. frame.
Qed.

Lemma keeps_openBrowser (v : Version) (dir : option string) (cookies : option (list Cookie)) :
  keeps (openBrowser v dir cookies).
Proof. unfold openBrowser. frame. Qed.

Lemma keeps_launchFresh (v : Version) : keeps (launchFresh v).
Proof.
  unfold launchFresh.
  apply keeps_bind; [apply keeps_emit, allow_launch | intros _; apply keeps_openBrowser].
Qed.

Lemma keeps_launchPersistentContext (dir : string) (v : Version)
    (cookies : option (list Cookie)) :
  keeps (launchPersistentContext dir v cookies).
Proof.
  unfold launchPersistentContext.
  apply keeps_bind; [apply keeps_emit, allow_launchPersistent
                    | intros _; apply keeps_openBrowser].
Qed.

Lemma keeps_browserClose (h : nat) : keeps (browserClose h).
Proof.
  unfold browserClose. apply keeps_bind; [apply keeps_emit, allow_close | intros _].
  frame.
Qed.

Lemma keeps_existsSync (path : string) : keeps (existsSync path).
Proof. unfold existsSync. frame. Qed.

Lemma keeps_readJson (path : string) : keeps (readJson path).
Proof. unfold readJson. frame. Qed.

Lemma keeps_writeJson (path : string) (c : FileContent) : keeps (writeJson path c).
Proof. unfold writeJson. frame. Qed.

Lemma keeps_mkdirSync (path : string) : keeps (mkdirSync path).
Proof. unfold mkdirSync. frame. Qed.

Hint Resolve keeps_dateNow keeps_sleep keeps_randomDelay keeps_observe keeps_act
  keeps_launchFresh keeps_launchPersistentContext keeps_browserClose
  keeps_existsSync keeps_readJson keeps_writeJson keeps_mkdirSync : frame.

Lemma keeps_saveCookies (context : nat) (email dir : string) :
  keeps (saveCookies context email dir).
Proof. unfold saveCookies. frame. Qed.

Lemma keeps_loadCookies (email dir : string) : keeps (loadCookies email dir).
Proof. unfold loadCookies. frame. Qed.

Hint Resolve keeps_saveCookies keeps_loadCookies : frame.

Lemma keeps_saveSessionState (context page : nat) (email dir : string) :
  keeps (saveSessionState context page email dir).
Proof. unfold saveSessionState. frame. Qed.

Lemma keeps_restoreSessionState (page : nat) (email dir : string) :
  keeps (restoreSessionState page email dir).
Proof. unfold restoreSessionState. frame. Qed.

Lemma keeps_typeChars (page : nat) (text : string) :
  forall i, keeps (typeChars page i text).
Proof.
  induction text as [|c rest IH]; intros i; simpl; frame.
Qed.

Hint Resolve keeps_saveSessionState keeps_restoreSessionState keeps_typeChars : frame.

Lemma keeps_typeOptimized (page : nat) (selector : string) (text : option string) :
  keeps (typeOptimized page selector text).
Proof. unfold typeOptimized. frame. Qed.

Lemma keeps_createDebugSnapshot (page : nat) (stage : string) :
  keeps (createDebugSnapshot page stage).
Proof. unfold createDebugSnapshot. apply keeps_emit, allow_snapshot. Qed.

Lemma keeps_clickAndSettle (page : nat) (button : Locator) :
  keeps (clickAndSettle page button).
Proof. unfold clickAndSettle. frame. Qed.

Hint Resolve keeps_typeOptimized keeps_createDebugSnapshot keeps_clickAndSettle : frame.

Lemma keeps_handleSaveLoginDialog (page : nat) : keeps (handleSaveLoginDialog page).
Proof. unfold handleSaveLoginDialog. frame. Qed.

Lemma keeps_waitLoop (page : nat) (startTime maxWaitMs : Z) (fallback : list string) :
  forall rounds, keeps (waitLoop rounds page startTime maxWaitMs fallback).
Proof.
  induction rounds as [|rounds IH]; simpl; frame.
Qed.

Hint Resolve keeps_handleSaveLoginDialog keeps_waitLoop : frame.

Lemma keeps_waitForLoginButton (page : nat) (maxWaitMs : Z) :
  keeps (waitForLoginButton page maxWaitMs).
Proof. unfold waitForLoginButton. frame. Qed.

Lemma keeps_checkLoginSuccessOn (page : nat) : keeps (checkLoginSuccessOn page).
Proof.
  unfold checkLoginSuccessOn. apply keeps_bind; [apply keeps_observe | intros p].
  apply keeps_bind; [apply keeps_emit, allow_checkLoginSuccess | intros _]. frame.
Qed.

Lemma keeps_checkFor2FAOn (page : nat) : keeps (checkFor2FAOn page).
Proof.
  unfold checkFor2FAOn. apply keeps_bind; [apply keeps_observe | intros p].
  apply keeps_bind; [apply keeps_emit, allow_checkFor2FA | intros _]. frame.
Qed.

Hint Resolve keeps_waitForLoginButton keeps_checkLoginSuccessOn keeps_checkFor2FAOn : frame.

Lemma keeps_verify2FA (page : nat) : keeps (verify2FA page).
Proof. unfold verify2FA. frame. Qed.

Lemma keeps_enterCredentials (page : nat) (email : string) (password : option string)
    (version : Version) :
  keeps (enterCredentials page email password version).
Proof. unfold enterCredentials, DEBUG_ENABLED. frame. Qed.

Lemma keeps_hesitate : keeps hesitate.
Proof. unfold hesitate. frame. Qed.

Lemma keeps_settle (page : nat) : keeps (settle page).
Proof. unfold settle. frame. Qed.

Lemma keeps_conclude (sessionId email : string) (version : Version) (quickLogin : bool)
    (hs : Handles) (requires2FA : bool) :
  keeps (conclude sessionId email version quickLogin hs requires2FA).
Proof.
  unfold conclude, DEBUG_ENABLED. destruct requires2FA.
  - apply keeps_bind; [apply keeps_createDebugSnapshot | intros _].
    apply keeps_bind; [apply keeps_dateNow | intros t].
    apply keeps_bind; [|intros _; apply keeps_throw].
    apply keeps_modify. intros w. apply R_pending; reflexivity.
  - frame.
Qed.

Hint Resolve keeps_verify2FA keeps_enterCredentials keeps_hesitate keeps_settle
  keeps_conclude : frame.

Lemma keeps_loginWithCredentials (sessionId email : string) (password : option string)
    (version : Version) (quickLogin : bool) (hs : Handles) :
  keeps (loginWithCredentials sessionId email password version quickLogin hs).
Proof. unfold loginWithCredentials. frame. Qed.

Lemma keeps_createPersistentContext (email : string) (version : Version) :
  keeps (createPersistentContext email version).
Proof. unfold createPersistentContext. frame. Qed.

Lemma keeps_deleteActiveSession (sessionId : string) : keeps (deleteActiveSession sessionId).
Proof. unfold deleteActiveSession. frame. Qed.

Hint Resolve keeps_loginWithCredentials keeps_createPersistentContext
  keeps_deleteActiveSession : frame.

Lemma keeps_tryCookiesAndCache (sessionId email : string) (version : Version)
    (quickLogin : bool) (hs : Handles) :
  keeps (tryCookiesAndCache sessionId email version quickLogin hs).
Proof. unfold tryCookiesAndCache. frame. Qed.

Lemma keeps_closeMaybe (browser : option nat) : keeps (closeMaybe browser).
Proof. unfold closeMaybe. frame. Qed.

Lemma keeps_attemptFailed (sessionId : string) (version : Version) (error : JsError) :
  keeps (attemptFailed sessionId version error).
Proof. unfold attemptFailed, DEBUG_ENABLED. frame. Qed.

Hint Resolve keeps_tryCookiesAndCache keeps_closeMaybe keeps_attemptFailed : frame.

Lemma keeps_attemptLoginWithVersion (email : string) (password : option string)
    (version : Version) (quickLogin : bool) :
  keeps (attemptLoginWithVersion email password version quickLogin).
Proof. unfold attemptLoginWithVersion. frame. Qed.

End Frame.

(** ** The events of a run *)

Section Events.

Variable P : Event -> Prop.

Lemma emitsOnly_refl (w : World) : emitsOnly P w w.
Proof. exists []. split; [now rewrite app_nil_r | constructor]. Qed.

Lemma emitsOnly_trans (a b c : World) : emitsOnly P a b -> emitsOnly P b c -> emitsOnly P a c.
Proof.
  intros (t1 & H1 & P1) (t2 & H2 & P2). exists (t1 ++ t2). split.
  - now rewrite H2, H1, app_assoc.
  - now apply Forall_app.
Qed.

Lemma emitsOnly_same (w w' : World) : trace w' = trace w -> emitsOnly P w w'.
Proof. intros H. exists []. split; [now rewrite app_nil_r | constructor]. Qed.

Lemma emitsOnly_emit (e : Event) (w : World) :
  P e -> emitsOnly P w (set_trace (trace w ++ [e]) w).
Proof. intros He. exists [e]. split; [reflexivity | now repeat constructor]. Qed.

End Events.

Lemma quiet_noCheck (t : list Event) : Forall quiet t -> Forall noCheck t.
Proof. intros H. eapply Forall_impl; [exact H|]. intros e [He _]. exact He. Qed.

(** The side conditions of the frame lemmas for a relation [emitsOnly]. *)
Ltac emits_side :=
  intros;
  first [ apply emitsOnly_refl
        | eapply emitsOnly_trans; eassumption
        | apply emitsOnly_same; reflexivity
        | apply emitsOnly_emit; assumption
        | reflexivity
        | split; reflexivity ].

Section LoginEvents.

Lemma act_trace (h : nat) (a : Action) (w : World) :
  trace (snd (act h a w)) = trace w ++ [EvAction h a].
Proof.
  unfold act, emit. unfold_monad. simpl.
  destruct (browsers w !! h) as [b|]; [|reflexivity].
  destruct (b_open b); [|reflexivity].
  destruct (react (site w) a (b_dom b)); reflexivity.
Qed.

Lemma checkFor2FAOn_run (page : nat) (w : World) :
  exists r, checkFor2FAOn page w
            = (Ok r, set_trace (trace w ++ [EvCheckFor2FA page (Ok r)]) w).
Proof.
  unfold checkFor2FAOn, observe, emit. unfold_monad. simpl.
  destruct (checkFor2FA_returns (pageIn w page)) as [r Hr].
  exists r. now rewrite Hr.
Qed.

Lemma sleep_run (ms : Z) (w : World) :
  exists w', sleep ms w = (Ok tt, w') /\ trace w' = trace w ++ [EvSleep ms].
Proof. unfold sleep, emit. unfold_monad. simpl. eexists. split; reflexivity. Qed.

(** The checks after the click form one ladder and always give an
    answer. *)
Lemma verify2FA_ladder (page : nat) (w : World) :
  exists t r w', verify2FA page w = (Ok r, w')
                 /\ trace w' = trace w ++ t
                 /\ Ladder page t r.
Proof.
  unfold verify2FA. unfold JsM.bind at 1.
  destruct (checkFor2FAOn_run page w) as [r1 ->].
  destruct r1; cbn [negb].
  { unfold JsM.bind, JsM.ret.
    exists [EvCheckFor2FA page (Ok true)], true. eexists.
    split; [reflexivity|]. split; [reflexivity | constructor]. }
  unfold JsM.bind at 1. unfold JsM.bind at 1.
  destruct (sleep_run 1000 (set_trace (trace w ++ [EvCheckFor2FA page (Ok false)]) w))
    as (w1 & -> & Hw1).
  destruct (checkFor2FAOn_run page w1) as [r2 ->].
  destruct r2; cbn [negb].
  { unfold JsM.ret.
    exists [EvCheckFor2FA page (Ok false); EvSleep 1000; EvCheckFor2FA page (Ok true)], true.
    eexists. split; [reflexivity|]. split; [|constructor].
    cbn [trace set_trace]. rewrite Hw1. cbn [trace set_trace].
    now rewrite <- !app_assoc. }
  unfold JsM.bind at 1.
  destruct (sleep_run 2000 (set_trace (trace w1 ++ [EvCheckFor2FA page (Ok false)]) w1))
    as (w2 & -> & Hw2).
  destruct (checkFor2FAOn_run page w2) as [r3 ->].
  exists [EvCheckFor2FA page (Ok false); EvSleep 1000; EvCheckFor2FA page (Ok false);
          EvSleep 2000; EvCheckFor2FA page (Ok r3)], r3.
  eexists. split; [reflexivity|]. split; [|constructor].
  cbn [trace set_trace]. rewrite Hw2. cbn [trace set_trace]. rewrite Hw1.
  cbn [trace set_trace]. now rewrite <- !app_assoc.
Qed.

Lemma enterCredentials_noCheck (page : nat) (email : string) (password : option string)
    (version : Version) (w : World) :
  emitsOnly noCheck w (snd (enterCredentials page email password version w)).
Proof.
  apply (keeps_enterCredentials (emitsOnly noCheck) noCheck);
    emits_side.
Qed.

Lemma hesitate_noCheck (w : World) : emitsOnly noCheck w (snd (hesitate w)).
Proof.
  apply (keeps_hesitate (emitsOnly noCheck) noCheck);
    emits_side.
Qed.

Lemma settle_noCheck (page : nat) (w : World) : emitsOnly noCheck w (snd (settle page w)).
Proof.
  apply (keeps_settle (emitsOnly noCheck) noCheck);
    emits_side.
Qed.

Lemma conclude_quiet (sessionId email : string) (version : Version) (quickLogin : bool)
    (hs : Handles) (requires2FA : bool) (w : World) :
  emitsOnly quiet w (snd (conclude sessionId email version quickLogin hs requires2FA w)).
Proof.
  apply (keeps_conclude (emitsOnly quiet) quiet);
    emits_side.
Qed.

Lemma attemptFailed_quiet (sessionId : string) (version : Version) (error : JsError)
    (w : World) :
  emitsOnly quiet w (snd (attemptFailed sessionId version error w)).
Proof.
  apply (keeps_attemptFailed (emitsOnly quiet) quiet);
    emits_side.
Qed.

Lemma launchFresh_noCheck (version : Version) (w : World) :
  emitsOnly noCheck w (snd (launchFresh version w)).
Proof.
  apply (keeps_launchFresh (emitsOnly noCheck) noCheck);
    emits_side.
Qed.

End LoginEvents.

Section LadderOfChecks.

Lemma noCheck_click (page : nat) (button : Locator) :
  Forall noCheck [EvAction page (ClickForce button)].
Proof. repeat constructor. Qed.

(** A normal login, with the steps that cannot apply to it taken out. *)
Lemma attempt_normal_login (email : string) (password : option string)
    (version : Version) (w : World) :
  let sessionId := sessionIdOf email version false (now w) in
  attemptLoginWithVersion email password version false w
  = JsM.try_catch
      (fresh <- launchFresh version ;;
       t1 <- dateNow ;;
       JsM.modify (fun w => set_activeSessions
         (<[sessionId :=
              {| s_browser := Some fresh; s_context := fresh; s_page := fresh;
                 s_email := email; s_password := password; s_cacheDir := None;
                 s_version := version; s_createdAt := t1; s_quickLogin := false |}]>
            (activeSessions w)) w) ;;;
       loginWithCredentials sessionId email password version false
         {| h_browser := Some fresh; h_context := fresh; h_savedCookies := None;
            h_cacheDir := None; h_page := fresh |})
      (attemptFailed sessionId version) w.
Proof.
  cbv zeta. unfold attemptLoginWithVersion, dateNow.
  unfold JsM.try_catch, JsM.bind, JsM.ret, JsM.get. cbv beta iota.
  destruct (launchFresh version w) as [[fresh|e] w1]; cbv beta iota; [|reflexivity].
  destruct (JsM.modify _ w1) as [[[]|e] w2]; reflexivity.
Qed.

Lemma settle_returns (page : nat) (w : World) :
  exists w', settle page w = (Ok tt, w').
Proof.
  unfold settle. unfold JsM.bind at 1.
  destruct (sleep_run 3000 w) as (w1 & -> & _).
  unfold JsM.bind at 1.
  assert (exists b w2, handleSaveLoginDialog page w1 = (Ok b, w2)) as (b & w2 & ->).
  { unfold handleSaveLoginDialog, JsM.try_catch.
    match goal with
    | |- context [match ?m w1 with (_, _) => _ end] => destruct (m w1) as [[b|e] w2]
    end; eauto. }
  destruct (sleep_run 2000 w2) as (w3 & -> & _). eauto.
Qed.

Lemma upToTheClick_noCheck (sessionId email : string) (password : option string)
    (version : Version) (w : World) :
  emitsOnly noCheck w (snd (upToTheClick sessionId email password version w)).
Proof.
  unfold upToTheClick.
  apply (keeps_bind (emitsOnly noCheck)); [emits_side | intros w0; apply launchFresh_noCheck |].
  intros fresh.
  apply (keeps_bind (emitsOnly noCheck)); [emits_side | |].
  { intros w0. apply emitsOnly_refl. }
  intros t1.
  apply (keeps_bind (emitsOnly noCheck)); [emits_side | |].
  { intros w0. apply emitsOnly_same. reflexivity. }
  intros _.
  apply (keeps_bind (emitsOnly noCheck)); [emits_side | intros w0; apply enterCredentials_noCheck |].
  intros button.
  apply (keeps_bind (emitsOnly noCheck)); [emits_side | intros w0; apply hesitate_noCheck |].
  intros _.
  apply (keeps_bind (emitsOnly noCheck)); [emits_side | |].
  { intros w0. exists [EvAction fresh (ClickForce button)].
    split; [apply act_trace | apply noCheck_click]. }
  intros _ w0. apply emitsOnly_refl.
Qed.

(** A normal login is the part up to the click, the settling wait, the
    checks for a second factor and the conclusion, inside the [try] of
    the attempt. *)
Lemma attempt_from_the_click (email : string) (password : option string)
    (version : Version) (w : World) :
  let sessionId := sessionIdOf email version false (now w) in
  attemptLoginWithVersion email password version false w
  = JsM.try_catch
      (page <- upToTheClick sessionId email password version ;;
       settle page ;;;
       requires2FA <- verify2FA page ;;
       conclude sessionId email version false (freshHandles page) requires2FA)
      (attemptFailed sessionId version) w.
Proof.
  rewrite attempt_normal_login. cbv zeta.
  unfold JsM.try_catch. f_equal.
  unfold upToTheClick, loginWithCredentials, freshHandles.
  unfold JsM.bind, JsM.ret. cbn [h_page].
  destruct (launchFresh version w) as [[fresh|e] w1]; [|reflexivity].
  destruct (dateNow w1) as [[t1|e] w2]; [|reflexivity].
  destruct (JsM.modify _ w2) as [[[]|e] w3]; [|reflexivity].
  destruct (enterCredentials fresh email password version w3) as [[button|e] w4];
    [|reflexivity].
  destruct (hesitate w4) as [[[]|e] w5]; [|reflexivity].
  destruct (act fresh (ClickForce button) w5) as [[[]|e] w6]; reflexivity.
Qed.

End LadderOfChecks.


(** ** The timeout of the wait for a second factor *)

Section PendingEntries.

Lemma lookupPending_setPending (sessionId : string) (data : Pending)
    (l : list (string * Pending)) :
  lookupPending sessionId (setPending sessionId data l) = Some data.
Proof.
  unfold lookupPending. induction l as [|[k v] l IH]; simpl.
  - now rewrite bool_decide_eq_true_2.
  - destruct (bool_decide (k = sessionId)) eqn:Hk; simpl.
    + now rewrite bool_decide_eq_true_2.
    + rewrite Hk. exact IH.
Qed.

Lemma lookupPending_deletePending_ne (s sessionId : string) (l : list (string * Pending)) :
  s <> sessionId ->
  lookupPending sessionId (deletePending s l) = lookupPending sessionId l.
Proof.
  intros Hne. unfold lookupPending, deletePending.
  induction l as [|[k v] l IH]; [reflexivity|].
  rewrite filter_cons. simpl. destruct (decide (k ≠ s)) as [Hk|Hk]; simpl.
  - destruct (bool_decide (k = sessionId)); [reflexivity | exact IH].
  - apply dec_stable in Hk. subst k.
    rewrite bool_decide_eq_false_2 by exact Hne. exact IH.
Qed.

End PendingEntries.

Section NoTimerInCurrentServer.

(** A login attempt of the current server sets no timer and creates no
    promise. *)
Lemma attempt_sets_no_timer (email : string) (password : option string)
    (version : Version) (quickLogin : bool) (w : World) :
  timers (snd (attemptLoginWithVersion email password version quickLogin w)) = timers w
  /\ promises (snd (attemptLoginWithVersion email password version quickLogin w))
     = promises w.
Proof.
  apply (keeps_attemptLoginWithVersion
           (fun a b => timers b = timers a /\ promises b = promises a)
           (fun _ => True)); try (intros; split; reflexivity); try (intros; exact I).
  intros a b c [H1 H2] [H3 H4]. split; congruence.
Qed.

Lemma elapseBrowser_open (s : Site) (ms : Z) (l : list Browser) :
  b_open <$> (elapseBrowser s ms <$> l) = b_open <$> l.
Proof.
  rewrite <- list_fmap_compose. apply list_fmap_ext. intros i b _.
  unfold elapseBrowser. simpl. destruct (b_open b) eqn:E; simpl; congruence.
Qed.

End NoTimerInCurrentServer.

(** ** What the functions touch *)

(** The functions of a login change the world only in a few ways: the
    clock and the random draws move on, the pages of the open browsers
    change state, a browser is added or closed, the two artifact files of
    the identity are written, its cache directory is made, the session of
    the attempt is registered or removed, its pending entry is set, and
    events are emitted.  A relation between the world before and the
    world after that is a preorder and accepts the changes a function can
    make is kept by the function. *)
Section Footprint.

Variable R : World -> World -> Prop.
Variable allowed : Event -> Prop.
Variable email : string.
Variable version : Version.
Variable sessionId : string.

Hypothesis R_refl : forall w, R w w.
Hypothesis R_trans : forall a b c, R a b -> R b c -> R a c.
Hypothesis R_now : forall v w, R w (set_now v w).
Hypothesis R_draws : forall v w, R w (set_draws v w).
Hypothesis R_elapse :
  forall ms w, R w (set_browsers (elapseBrowser (site w) ms <$> browsers w) w).
Hypothesis R_react :
  forall h b d w,
    browsers w !! h = Some b -> b_open b = true ->
    R w (set_browsers (<[h := {| b_open := true; b_dom := d;
                                 b_userDataDir := b_userDataDir b |}]> (browsers w)) w).
Hypothesis R_open :
  forall d dir w,
    R w (set_browsers (browsers w ++ [{| b_open := true; b_dom := d;
                                         b_userDataDir := dir |}]) w).
Hypothesis R_close : forall h w, R w (set_browsers (alter closeIt h (browsers w)) w).
Hypothesis R_cookieFile :
  forall c w, R w (set_files (<[pathJoin COOKIES_DIR (cookieFileName email) := c]> (files w)) w).
Hypothesis R_sessionFile :
  forall c w, R w (set_files (<[pathJoin COOKIES_DIR (sessionFileName email) := c]> (files w)) w).
Hypothesis R_cacheDir :
  forall w, R w (set_dirs ({[pathJoin CACHE_DIR (cacheDirName email version)]} ∪ dirs w) w).
Hypothesis R_register :
  forall session w,
    R w (set_activeSessions (<[sessionId := session]> (activeSessions w)) w).
Hypothesis R_unregister :
  forall w, R w (set_activeSessions (delete sessionId (activeSessions w)) w).
Hypothesis R_setPending :
  forall data w,
    R w (set_pending2FASessions (setPending sessionId data (pending2FASessions w)) w).
Hypothesis R_emit : forall e w, allowed e -> R w (set_trace (trace w ++ [e]) w).

Hypothesis allow_sleep : forall ms, allowed (EvSleep ms).
Hypothesis allow_snapshot : forall stage, allowed (EvSnapshot stage).
Hypothesis allow_launch : allowed (EvLaunch version).
Hypothesis allow_launchPersistent :
  allowed (EvLaunchPersistent (pathJoin CACHE_DIR (cacheDirName email version))).
Hypothesis allow_close : forall h, allowed (EvClose h).
Hypothesis allow_checkLoginSuccess : forall h r, allowed (EvCheckLoginSuccess h r).
Hypothesis allow_checkFor2FA : forall h r, allowed (EvCheckFor2FA h r).
Hypothesis allow_goto : forall h, allowed (EvAction h (Goto (facebookUrl version))).
Hypothesis allow_pageClick : forall h selector, allowed (EvAction h (PageClick selector)).
Hypothesis allow_keyboardType : forall h c, allowed (EvAction h (KeyboardType c)).
Hypothesis allow_click : forall h l, allowed (EvAction h (Click l)).
Hypothesis allow_clickForce : forall h l, allowed (EvAction h (ClickForce l)).
Hypothesis allow_fill : forall h l text, allowed (EvAction h (Fill l text)).
Hypothesis allow_typeInto : forall h l text, allowed (EvAction h (TypeInto l text)).
Hypothesis allow_setLocalStorage : forall h entries, allowed (EvAction h (SetLocalStorage entries)).
Hypothesis allow_setSessionStorage :
  forall h entries, allowed (EvAction h (SetSessionStorage entries)).

Local Abbreviation keeps := (keeps R).

Lemma fp_ret {A} (a : A) : keeps (JsM.ret a).
Proof. intros w. apply R_refl. Qed.

Lemma fp_throw {A} (e : JsError) : keeps (@JsM.throw A e).
Proof. intros w. apply R_refl. Qed.

Lemma fp_lift {A} (r : Res A) : keeps (JsM.lift r).
Proof. intros w. apply R_refl. Qed.

Lemma fp_get : keeps JsM.get.
Proof. intros w. apply R_refl. Qed.

Lemma fp_modify (f : World -> World) : (forall w, R w (f w)) -> keeps (JsM.modify f).
Proof. intros H w. apply H. Qed.

Lemma fp_bind {A B} (m : M A) (k : A -> M B) :
  keeps m -> (forall a, keeps (k a)) -> keeps (JsM.bind m k).
Proof.
  intros Hm Hk w. unfold JsM.bind. specialize (Hm w).
  destruct (m w) as [[a|e] w1]; simpl in *; [|exact Hm].
  eapply R_trans; [exact Hm | apply Hk].
Qed.

Lemma fp_try_catch {A} (m : M A) (h : JsError -> M A) :
  keeps m -> (forall e, keeps (h e)) -> keeps (JsM.try_catch m h).
Proof.
  intros Hm Hh w. unfold JsM.try_catch. specialize (Hm w).
  destruct (m w) as [[a|e] w1]; simpl in *; [exact Hm|].
  eapply R_trans; [exact Hm | apply Hh].
Qed.

Create HintDb footprint.

Ltac fp_step :=
  try progress cbv beta iota;
  lazymatch goal with
  | |- keeps (JsM.ret _) => apply fp_ret
  | |- keeps (JsM.throw _) => apply fp_throw
  | |- keeps (JsM.lift _) => apply fp_lift
  | |- keeps JsM.get => apply fp_get
  | |- keeps (JsM.bind _ _) => apply fp_bind; [|intro]
  | |- keeps (JsM.try_catch _ _) => apply fp_try_catch; [|intro]
  | |- keeps (JsM.modify _) => apply fp_modify; intro
  | |- keeps (match ?x with _ => _ end) => destruct x
  | |- keeps _ => solve [eauto with footprint]
  | |- R _ _ => solve [eauto with footprint]
  end.

Ltac footprint := repeat fp_step.

Lemma fp_emit (e : Event) : allowed e -> keeps (emit e).
Proof. intros He w. apply R_emit, He. Qed.

Lemma fp_dateNow : keeps dateNow.
Proof. unfold dateNow. footprint. Qed.

Lemma fp_sleep (ms : Z) : keeps (sleep ms).
Proof.
  unfold sleep. apply fp_bind; [apply fp_emit, allow_sleep|intros _].
  apply fp_modify. intros w. eapply R_trans; [apply R_now|].
  apply (R_elapse (Z.max 0 ms) (set_now (now w + Z.max 0 ms) w)).
Qed.

Lemma fp_randomDelay (min max : Z) : keeps (randomDelay min max).
Proof. unfold randomDelay. footprint. Qed.

Lemma fp_observe (h : nat) : keeps (observe h).
Proof. unfold observe. footprint. Qed.

Lemma fp_act (h : nat) (a : Action) : allowed (EvAction h a) -> keeps (act h a).
Proof.
  intros Ha w. unfold act, emit. unfold_monad. cbv beta iota.
  cbn [browsers set_trace site].
  destruct (browsers w !! h) as [b|] eqn:Hb; [|now apply R_emit].
  destruct (b_open b) eqn:Ho; [|now apply R_emit].
  destruct (react (site w) a (b_dom b)) as [d|e]; [|now apply R_emit].
  cbn [snd]. eapply R_trans; [apply R_emit, Ha|].
  apply (R_react h b d (set_trace (trace w ++ [EvAction h a]) w)); assumption.
Qed.

Lemma fp_openBrowser (v : Version) (dir : option string) (cookies : option (list Cookie)) :
  keeps (openBrowser v dir cookies).
Proof.
  intros w. unfold openBrowser. unfold_monad. cbv beta iota.
  destruct (launchState (site w) (length (browsers w)) v cookies) as [d|e];
    [|apply R_refl].
  cbn [snd]. apply R_open.
Qed.

Lemma fp_launchFresh : keeps (launchFresh version).
Proof.
  unfold launchFresh.
  apply fp_bind; [apply fp_emit, allow_launch | intros _; apply fp_openBrowser].
Qed.

Lemma fp_launchPersistentContext (cookies : option (list Cookie)) :
  keeps (launchPersistentContext (pathJoin CACHE_DIR (cacheDirName email version))
           version cookies).
Proof.
  unfold launchPersistentContext.
  apply fp_bind; [apply fp_emit, allow_launchPersistent
                 | intros _; apply fp_openBrowser].
Qed.

Lemma fp_browserClose (h : nat) : keeps (browserClose h).
Proof.
  unfold browserClose. apply fp_bind; [apply fp_emit, allow_close | intros _].
  apply fp_modify. intros w. apply R_close.
Qed.

Lemma fp_existsSync (path : string) : keeps (existsSync path).
Proof. unfold existsSync. footprint. Qed.

Lemma fp_readJson (path : string) : keeps (readJson path).
Proof. unfold readJson. footprint. Qed.

Hint Resolve fp_dateNow fp_sleep fp_randomDelay fp_observe fp_act
  fp_launchFresh fp_launchPersistentContext fp_browserClose fp_existsSync fp_readJson
  : footprint.
Hint Resolve allow_goto allow_pageClick allow_keyboardType allow_click allow_clickForce
  allow_fill allow_typeInto allow_setLocalStorage allow_setSessionStorage : footprint.

Lemma fp_saveCookies (context : nat) : keeps (saveCookies context email COOKIES_DIR).
Proof.
  unfold saveCookies, writeJson. footprint.
Qed.

Lemma fp_loadCookies (identity dir : string) : keeps (loadCookies identity dir).
Proof. unfold loadCookies. footprint. Qed.

Hint Resolve fp_saveCookies fp_loadCookies : footprint.

Lemma fp_saveSessionState (context page : nat) :
  keeps (saveSessionState context page email COOKIES_DIR).
Proof. unfold saveSessionState, writeJson. footprint. Qed.

Lemma fp_restoreSessionState (page : nat) (identity dir : string) :
  keeps (restoreSessionState page identity dir).
Proof. unfold restoreSessionState. footprint. Qed.

Lemma fp_typeChars (page : nat) (text : string) :
  forall i, keeps (typeChars page i text).
Proof.
  induction text as [|c rest IH]; intros i; simpl; footprint.
Qed.

Hint Resolve fp_saveSessionState fp_restoreSessionState fp_typeChars : footprint.

Lemma fp_typeOptimized (page : nat) (selector : string) (text : option string) :
  keeps (typeOptimized page selector text).
Proof. unfold typeOptimized. footprint. Qed.

Lemma fp_createDebugSnapshot (page : nat) (stage : string) :
  keeps (createDebugSnapshot page stage).
Proof. unfold createDebugSnapshot. apply fp_emit, allow_snapshot. Qed.

Lemma fp_clickAndSettle (page : nat) (button : Locator) :
  keeps (clickAndSettle page button).
Proof. unfold clickAndSettle. footprint. Qed.

Hint Resolve fp_typeOptimized fp_createDebugSnapshot fp_clickAndSettle : footprint.

Lemma fp_handleSaveLoginDialog (page : nat) : keeps (handleSaveLoginDialog page).
Proof. unfold handleSaveLoginDialog. footprint. Qed.

Lemma fp_waitLoop (page : nat) (startTime maxWaitMs : Z) (fallback : list string) :
  forall rounds, keeps (waitLoop rounds page startTime maxWaitMs fallback).
Proof.
  induction rounds as [|rounds IH]; simpl; footprint.
Qed.

Hint Resolve fp_handleSaveLoginDialog fp_waitLoop : footprint.

Lemma fp_waitForLoginButton (page : nat) (maxWaitMs : Z) :
  keeps (waitForLoginButton page maxWaitMs).
Proof. unfold waitForLoginButton. footprint. Qed.

Lemma fp_checkLoginSuccessOn (page : nat) : keeps (checkLoginSuccessOn page).
Proof.
  unfold checkLoginSuccessOn. apply fp_bind; [apply fp_observe | intros p].
  apply fp_bind; [apply fp_emit, allow_checkLoginSuccess | intros _]. footprint.
Qed.

Lemma fp_checkFor2FAOn (page : nat) : keeps (checkFor2FAOn page).
Proof.
  unfold checkFor2FAOn. apply fp_bind; [apply fp_observe | intros p].
  apply fp_bind; [apply fp_emit, allow_checkFor2FA | intros _]. footprint.
Qed.

Hint Resolve fp_waitForLoginButton fp_checkLoginSuccessOn fp_checkFor2FAOn : footprint.

Lemma fp_verify2FA (page : nat) : keeps (verify2FA page).
Proof. unfold verify2FA. footprint. Qed.

Lemma fp_enterCredentials (page : nat) (identity : string) (password : option string) :
  keeps (enterCredentials page identity password version).
Proof. unfold enterCredentials, DEBUG_ENABLED. footprint. Qed.

Lemma fp_hesitate : keeps hesitate.
Proof. unfold hesitate. footprint. Qed.

Lemma fp_settle (page : nat) : keeps (settle page).
Proof. unfold settle. footprint. Qed.

Lemma fp_conclude (quickLogin : bool) (hs : Handles) (requires2FA : bool) :
  keeps (conclude sessionId email version quickLogin hs requires2FA).
Proof.
  unfold conclude, DEBUG_ENABLED, mkdirSync. destruct requires2FA.
  - apply fp_bind; [apply fp_createDebugSnapshot | intros _].
    apply fp_bind; [apply fp_dateNow | intros t].
    apply fp_bind; [|intros _; apply fp_throw].
    apply fp_modify. intros w. apply R_setPending.
  - footprint.
Qed.

(** The conclusion of a login for which no second factor is required sets
    no pending entry. *)
Lemma fp_conclude_without_second_factor (quickLogin : bool) (hs : Handles) :
  keeps (conclude sessionId email version quickLogin hs false).
Proof. unfold conclude, DEBUG_ENABLED, mkdirSync. footprint. Qed.

Hint Resolve fp_verify2FA fp_enterCredentials fp_hesitate fp_settle fp_conclude : footprint.

Lemma fp_legacy_submitAndCheck (page : nat) (identity : string) (password : option string) :
  keeps (Legacy.submitAndCheck page identity password version).
Proof. unfold Legacy.submitAndCheck. footprint. Qed.

Lemma fp_loginWithCredentials (password : option string) (quickLogin : bool) (hs : Handles) :
  keeps (loginWithCredentials sessionId email password version quickLogin hs).
Proof. unfold loginWithCredentials. footprint. Qed.

Lemma fp_createPersistentContext : keeps (createPersistentContext email version).
Proof. unfold createPersistentContext, mkdirSync. footprint. Qed.

Lemma fp_deleteActiveSession : keeps (deleteActiveSession sessionId).
Proof. unfold deleteActiveSession. footprint. Qed.

Hint Resolve fp_loginWithCredentials fp_createPersistentContext fp_deleteActiveSession
  : footprint.

Lemma fp_tryCookiesAndCache (quickLogin : bool) (hs : Handles) :
  keeps (tryCookiesAndCache sessionId email version quickLogin hs).
Proof. unfold tryCookiesAndCache. footprint. Qed.

Lemma fp_closeMaybe (browser : option nat) : keeps (closeMaybe browser).
Proof. unfold closeMaybe. footprint. Qed.

Lemma fp_attemptFailed (error : JsError) : keeps (attemptFailed sessionId version error).
Proof. unfold attemptFailed, DEBUG_ENABLED. footprint. Qed.

Hint Resolve fp_tryCookiesAndCache fp_closeMaybe fp_attemptFailed : footprint.
Hint Resolve R_register R_unregister : footprint.

(** A normal login attempt, whose session id is [sessionId]. *)
Lemma fp_normal_login (password : option string) (w : World) :
  sessionId = sessionIdOf email version false (now w) ->
  R w (snd (attemptLoginWithVersion email password version false w)).
Proof.
  intros Hid. rewrite attempt_normal_login. cbv zeta. rewrite <- Hid.
  match goal with
  | |- R w (snd (?m w)) => assert (keeps m) as Hkeeps; [footprint | apply Hkeeps]
  end.
Qed.

(** A quick login attempt, whose session id is [sessionId]. *)
Lemma fp_quick_login (password : option string) (w : World) :
  sessionId = sessionIdOf email version true (now w) ->
  R w (snd (attemptLoginWithVersion email password version true w)).
Proof.
  intros Hid. unfold attemptLoginWithVersion. unfold JsM.bind at 1. unfold dateNow at 1.
  unfold JsM.bind at 1. unfold JsM.get at 1, JsM.ret at 1. cbv beta iota.
  rewrite <- Hid.
  match goal with
  | |- R w (snd (?m w)) => assert (keeps m) as Hkeeps; [|apply Hkeeps]
  end.
  apply fp_try_catch; [|intros error; apply fp_attemptFailed].
  apply fp_bind; [footprint|]. intros noCookies.
  destruct noCookies; [apply fp_ret|].
  apply fp_bind; [footprint|]. intros hs.
  apply fp_bind; [footprint|]. intros t1.
  apply fp_bind; [footprint|]. intros _.
  apply fp_bind; [footprint|]. intros direct.
  destruct direct; footprint.
Qed.

(** The routes of the second factor also remove the pending entry of
    the session and settle a promise. *)
Hypothesis R_removePending :
  forall w,
    R w (set_pending2FASessions (deletePending sessionId (pending2FASessions w)) w).
Hypothesis R_promises : forall v w, R w (set_promises v w).

Lemma fp_removePending : keeps (removePending sessionId).
Proof. unfold removePending. apply fp_modify. apply R_removePending. Qed.

Lemma fp_callResolve (resolve : option nat) (result : LoginResult) :
  keeps (callResolve resolve result).
Proof. unfold callResolve. destruct resolve; [apply fp_modify; intro; apply R_promises | apply fp_throw]. Qed.

Lemma fp_callReject (reject : option nat) (error : JsError) :
  keeps (callReject reject error).
Proof. unfold callReject. destruct reject; [apply fp_modify; intro; apply R_promises | apply fp_throw]. Qed.

Hint Resolve fp_removePending fp_callResolve fp_callReject : footprint.

(** The inner [try] block of [/submit-2fa] for a pending entry of the
    identity. *)
Lemma fp_processCode (code : string) (sessionData : Pending) :
  p_email sessionData = email ->
  keeps (processCode sessionId code sessionData).
Proof.
  intros Hemail. unfold processCode, DEBUG_ENABLED. rewrite Hemail. footprint.
Qed.

End Footprint.

(** ** The older variant: what a login attempt does to the sessions *)

Section LegacyAttempt.

Lemma undisturbed_refl (w : World) : undisturbed w w.
Proof. repeat split. exists []. now rewrite app_nil_r. Qed.

Lemma undisturbed_trans (a b c : World) :
  undisturbed a b -> undisturbed b c -> undisturbed a c.
Proof.
  intros (A1 & A2 & A3 & A4 & A5 & t1 & A6) (B1 & B2 & B3 & B4 & B5 & t2 & B6).
  repeat split; try congruence. exists (t1 ++ t2). now rewrite B6, A6, app_assoc.
Qed.

Lemma open_insert (h : nat) (b : Browser) (d : nat) (l : list Browser) :
  l !! h = Some b -> b_open b = true ->
  b_open <$> <[h := {| b_open := true; b_dom := d; b_userDataDir := b_userDataDir b |}]> l
  = b_open <$> l.
Proof.
  intros Hl Ho. rewrite list_fmap_insert. apply list_insert_id.
  rewrite list_lookup_fmap, Hl. simpl. now rewrite Ho.
Qed.

End LegacyAttempt.

Ltac undisturbed_side :=
  first
    [ exact undisturbed_refl
    | exact undisturbed_trans
    | intros; exact I
    | intros; repeat split; cbn [activeSessions pending2FASessions promises timers browsers
                                   trace set_now set_draws set_files set_dirs set_trace
                                   set_browsers];
      first [ reflexivity
            | apply elapseBrowser_open
            | apply open_insert; assumption
            | eexists; reflexivity
            | exists []; now rewrite app_nil_r ] ].

Section LegacyAttemptRuns.

Lemma submitAndCheck_undisturbed (page : nat) (email : string) (password : option string)
    (version : Version) (w : World) :
  undisturbed w (snd (Legacy.submitAndCheck page email password version w)).
Proof.
  apply (fp_legacy_submitAndCheck undisturbed (fun _ => True)); undisturbed_side.
Qed.

Lemma conclude_undisturbed (sessionId email : string) (version : Version)
    (quickLogin : bool) (hs : Handles) (w : World) :
  undisturbed w (snd (conclude sessionId email version quickLogin hs false w)).
Proof.
  apply (fp_conclude_without_second_factor undisturbed (fun _ => True));
    undisturbed_side.
Qed.

Lemma createDebugSnapshot_undisturbed (page : nat) (stage : string) (w : World) :
  undisturbed w (snd (createDebugSnapshot page stage w)).
Proof.
  apply (fp_createDebugSnapshot undisturbed (fun _ => True)); undisturbed_side.
Qed.

Lemma launchFresh_run (version : Version) (w : World) :
  match launchFresh version w with
  | (Ok fresh, w') =>
      fresh = length (browsers w)
      /\ exists d,
           w' = set_browsers
                  (browsers w ++ [{| b_open := true; b_dom := d; b_userDataDir := None |}])
                  (set_trace (trace w ++ [EvLaunch version]) w)
  | (Throw _, w') => w' = set_trace (trace w ++ [EvLaunch version]) w
  end.
Proof.
  unfold launchFresh, openBrowser, emit. unfold_monad. cbv beta iota.
  cbn [site browsers set_trace].
  destruct (launchState (site w) (length (browsers w)) version None) as [d|e];
    [|reflexivity].
  split; [reflexivity|]. exists d. reflexivity.
Qed.

Lemma awaitSecondFactor_run (sessionId : string) (page : nat) (email : string)
    (version : Version) (w : World) :
  Legacy.awaitSecondFactor sessionId page email version w
  = (Ok (length (promises w)),
     set_timers (timers w ++ [(now w + Legacy.timeoutMs, (sessionId, length (promises w)))])
       (set_pending2FASessions
          (setPending sessionId
             {| p_page := page; p_email := email; p_version := version;
                p_timestamp := now w; p_resolve := Some (length (promises w));
                p_reject := Some (length (promises w)) |}
             (pending2FASessions w))
          (set_promises (promises w ++ [PromisePending]) w))).
Proof. reflexivity. Qed.

(** The normal login of the older attempt leaves the sessions alone up
    to the moment it suspends. *)
Lemma legacy_loginWithCredentials_run (sessionId email : string)
    (password : option string) (version : Version) (quickLogin : bool) (hs : Handles)
    (w : World) :
  match Legacy.loginWithCredentials sessionId email password version quickLogin hs w with
  | (Ok (Legacy.Suspended promise), w') =>
      exists w1,
        undisturbed w w1
        /\ Legacy.awaitSecondFactor sessionId (h_page hs) email version w1 = (Ok promise, w')
  | (_, w') => undisturbed w w'
  end.
Proof.
  unfold Legacy.loginWithCredentials, DEBUG_ENABLED. unfold JsM.bind at 1.
  pose proof (submitAndCheck_undisturbed (h_page hs) email password version w) as Hsubmit.
  destruct (Legacy.submitAndCheck (h_page hs) email password version w)
    as [[requires2FA|e] w1]; cbn [snd] in Hsubmit; [|exact Hsubmit].
  destruct requires2FA.
  - unfold JsM.bind at 1.
    pose proof (createDebugSnapshot_undisturbed (h_page hs)
                  ("2fa-detected-" +:+ versionName version) w1) as Hsnap.
    destruct (createDebugSnapshot (h_page hs) ("2fa-detected-" +:+ versionName version) w1)
      as [[[]|e] w2]; cbn [snd] in Hsnap;
      [|eapply undisturbed_trans; eassumption].
    unfold JsM.bind at 1. rewrite awaitSecondFactor_run. unfold JsM.ret.
    exists w2. split; [eapply undisturbed_trans; eassumption|].
    apply awaitSecondFactor_run.
  - unfold JsM.bind at 1.
    pose proof (conclude_undisturbed sessionId email version quickLogin hs w1) as Hend.
    destruct (conclude sessionId email version quickLogin hs false w1)
      as [[result|e] w2]; cbn [snd] in Hend; unfold JsM.ret;
      eapply undisturbed_trans; eassumption.
Qed.

(** The [catch] block of the older attempt: the session registered under
    the id is torn down, nothing else is touched. *)
Lemma legacy_attemptFailed_run (sessionId : string) (version : Version) (error : JsError)
    (w : World) :
  exists result w',
    Legacy.attemptFailed sessionId version error w = (Ok result, w')
    /\ activeSessions w' = delete sessionId (activeSessions w)
    /\ pending2FASessions w' = pending2FASessions w
    /\ promises w' = promises w
    /\ timers w' = timers w
    /\ (exists t, trace w' = trace w ++ t)
    /\ browsers w'
       = match activeSessions w !! sessionId with
         | Some session =>
             match s_browser session with
             | Some browser => alter closeIt browser (browsers w)
             | None => browsers w
             end
         | None => browsers w
         end.
Proof.
  unfold Legacy.attemptFailed, DEBUG_ENABLED, createDebugSnapshot, browserClose,
    deleteActiveSession, emit.
  unfold_monad. cbv beta iota.
  destruct (activeSessions w !! sessionId) as [session|] eqn:Hs.
  - cbn [activeSessions set_trace]. rewrite Hs.
    destruct (s_browser session) as [browser|]; cbv beta iota;
      do 2 eexists; (split; [reflexivity|]);
      cbn [activeSessions pending2FASessions promises timers trace browsers
             set_activeSessions set_browsers set_trace];
      repeat split; try reflexivity; eexists; try reflexivity.
    rewrite <- app_assoc. reflexivity.
  - rewrite Hs. do 2 eexists. split; [reflexivity|].
    repeat split; try reflexivity.
    + symmetry. now apply delete_id.
    + exists []. now rewrite app_nil_r.
Qed.

(** A normal login of the older attempt, with the steps that cannot
    apply to it taken out. *)
Lemma legacy_attempt_normal_login (email : string) (password : option string)
    (version : Version) (w : World) :
  let sessionId := Legacy.sessionIdOf email version false (now w) in
  Legacy.attemptLoginWithVersion email password version false w
  = JsM.try_catch
      (fresh <- launchFresh version ;;
       t1 <- dateNow ;;
       JsM.modify (fun w => set_activeSessions
         (<[sessionId :=
              {| s_browser := Some fresh; s_context := fresh; s_page := fresh;
                 s_email := email; s_password := password; s_cacheDir := None;
                 s_version := version; s_createdAt := t1; s_quickLogin := false |}]>
            (activeSessions w)) w) ;;;
       Legacy.loginWithCredentials sessionId email password version false
         {| h_browser := Some fresh; h_context := fresh; h_savedCookies := None;
            h_cacheDir := None; h_page := fresh |})
      (fun error =>
         result <- Legacy.attemptFailed sessionId version error ;;
         JsM.ret (Legacy.Returned result)) w.
Proof.
  cbv zeta. unfold Legacy.attemptLoginWithVersion, dateNow.
  unfold JsM.try_catch, JsM.bind, JsM.ret, JsM.get. cbv beta iota.
  destruct (launchFresh version w) as [[fresh|e] w1]; cbv beta iota; [|reflexivity].
  destruct (JsM.modify _ w1) as [[[]|e] w2]; reflexivity.
Qed.

End LegacyAttemptRuns.

Section LegacyOutcomes.

Lemma openAt_spec (h : nat) (w : World) :
  openAt h w <-> (b_open <$> browsers w) !! h = Some true.
Proof.
  unfold openAt. rewrite list_lookup_fmap. split.
  - intros (b & -> & Ho). simpl. now rewrite Ho.
  - destruct (browsers w !! h) as [b|]; [|discriminate]. simpl.
    intros [= Ho]. eauto.
Qed.

Lemma openAt_same (h : nat) (a b : World) :
  b_open <$> browsers b = b_open <$> browsers a -> openAt h a -> openAt h b.
Proof. rewrite !openAt_spec. now intros ->. Qed.

Lemma openAt_lt (h : nat) (w : World) : openAt h w -> (h < length (browsers w))%nat.
Proof. intros (b & Hb & _). now apply lookup_lt_Some in Hb. Qed.

Lemma legacy_attempt_outcomes (email : string) (password : option string)
    (version : Version) (w : World) :
  let sessionId := Legacy.sessionIdOf email version false (now w) in
  match Legacy.attemptLoginWithVersion email password version false w with
  | (Throw _, _) => False
  | (Ok (Legacy.Returned _), w') =>
      pending2FASessions w' = pending2FASessions w
      /\ promises w' = promises w
      /\ timers w' = timers w
      /\ (forall k, k <> sessionId -> activeSessions w' !! k = activeSessions w !! k)
      /\ (activeSessions w !! sessionId = None -> forall h, openAt h w -> openAt h w')
      /\ (exists rest, trace w' = trace w ++ EvLaunch version :: rest)
  | (Ok (Legacy.Suspended promise), w') =>
      promise = length (promises w)
      /\ promises w' = promises w ++ [PromisePending]
      /\ (exists data,
            pending2FASessions w' = setPending sessionId data (pending2FASessions w)
            /\ p_reject data = Some promise
            /\ p_timestamp data = now w'
            /\ timers w'
               = timers w ++ [(p_timestamp data + Legacy.timeoutMs, (sessionId, promise))])
      /\ (exists session,
            activeSessions w' = <[sessionId := session]> (activeSessions w)
            /\ s_browser session = Some (length (browsers w)))
      /\ openAt (length (browsers w)) w'
      /\ (forall h, openAt h w -> openAt h w')
      /\ (exists rest, trace w' = trace w ++ EvLaunch version :: rest)
  end.
Proof.
  rewrite legacy_attempt_normal_login. cbv zeta.
  set (sessionId := Legacy.sessionIdOf email version false (now w)).
  unfold JsM.try_catch. unfold JsM.bind at 1.
  pose proof (launchFresh_run version w) as Hlaunch.
  destruct (launchFresh version w) as [[fresh|e] w1].
  2: { (* the browser does not start *)
    subst w1. unfold JsM.bind.
    destruct (legacy_attemptFailed_run sessionId version e
                (set_trace (trace w ++ [EvLaunch version]) w))
      as (result & w' & -> & Ha & Hp & Hr & Ht & (t & Htr) & Hb).
    unfold JsM.ret. cbn [activeSessions pending2FASessions promises timers trace browsers
                           set_trace] in *.
    repeat split; try assumption.
    - intros k Hk. rewrite Ha. now apply lookup_delete_ne.
    - intros Hnone h Hh. rewrite Hnone in Hb. eapply openAt_same; [|exact Hh].
      now rewrite Hb.
    - exists t. rewrite Htr, <- app_assoc. reflexivity. }
  destruct Hlaunch as (-> & d & ->).
  unfold JsM.bind at 1. unfold dateNow at 1. unfold JsM.bind at 1.
  unfold JsM.get at 1, JsM.ret at 1. unfold JsM.bind at 1. unfold JsM.modify at 1.
  cbv beta iota.
  match goal with
  | |- context [Legacy.loginWithCredentials ?s ?e ?p ?v ?q ?hs ?w2] =>
      pose proof (legacy_loginWithCredentials_run s e p v q hs w2) as Hrun;
      destruct (Legacy.loginWithCredentials s e p v q hs w2) as [[[result|promise]|error] w3]
  end.
  - (* the attempt returned *)
    destruct Hrun as (Ha & Hp & Hr & Ht & Hb & (t & Htr)).
    cbn [activeSessions pending2FASessions promises timers trace browsers
           set_trace set_browsers set_activeSessions now] in *.
    repeat split; try assumption.
    + intros k Hk. rewrite Ha. now apply lookup_insert_ne.
    + intros _ h Hh. apply openAt_spec. rewrite Hb, fmap_app.
      rewrite lookup_app_l by (rewrite length_fmap; now apply openAt_lt).
      now apply openAt_spec.
    + exists t. rewrite Htr, <- app_assoc. reflexivity.
  - (* the attempt is suspended *)
    destruct Hrun as (w4 & (Ha & Hp & Hr & Ht & Hb & (t & Htr)) & Hawait).
    rewrite awaitSecondFactor_run in Hawait. injection Hawait as <- <-.
    cbn [activeSessions pending2FASessions promises timers trace browsers now
           set_trace set_browsers set_activeSessions set_timers set_pending2FASessions
           set_promises h_page] in *.
    rewrite Hr, Hp, Ht, Ha. split; [reflexivity|]. split; [reflexivity|].
    split.
    { eexists. split; [reflexivity|]. cbn [p_reject p_timestamp].
      repeat split; reflexivity. }
    split.
    { eexists. split; [reflexivity|]. reflexivity. }
    split.
    { apply openAt_spec. cbn [browsers set_timers set_pending2FASessions set_promises].
      rewrite Hb, fmap_app. rewrite lookup_app_r by (now rewrite length_fmap).
      rewrite length_fmap, Nat.sub_diag. reflexivity. }
    split.
    { intros h Hh. apply openAt_spec.
      cbn [browsers set_timers set_pending2FASessions set_promises].
      rewrite Hb, fmap_app.
      rewrite lookup_app_l by (rewrite length_fmap; now apply openAt_lt).
      now apply openAt_spec. }
    exists t. cbn [trace set_timers set_pending2FASessions set_promises].
    rewrite Htr, <- app_assoc. reflexivity.
  - (* the attempt failed: its own session is torn down *)
    destruct Hrun as (Ha & Hp & Hr & Ht & Hb & (t & Htr)).
    unfold JsM.bind.
    destruct (legacy_attemptFailed_run sessionId version error w3)
      as (result & w' & -> & Ha' & Hp' & Hr' & Ht' & (t' & Htr') & Hb').
    unfold JsM.ret.
    cbn [activeSessions pending2FASessions promises timers trace browsers now
           set_trace set_browsers set_activeSessions] in *.
    rewrite Ha in Hb'. rewrite lookup_insert_eq in Hb'. cbn [s_browser] in Hb'.
    split; [congruence|]. split; [congruence|]. split; [congruence|].
    split.
    { intros k Hk. rewrite Ha', Ha, lookup_delete_ne, lookup_insert_ne by congruence.
      reflexivity. }
    split.
    { intros _ h Hh. apply openAt_spec. rewrite Hb'.
      pose proof (openAt_lt h w Hh) as Hlt.
      rewrite list_lookup_fmap, list_lookup_alter_ne by lia.
      rewrite <- list_lookup_fmap, Hb, fmap_app.
      rewrite lookup_app_l by (now rewrite length_fmap).
      now apply openAt_spec. }
    exists (t ++ t'). rewrite Htr', Htr, <- !app_assoc. reflexivity.
Qed.

End LegacyOutcomes.

Section LegacySuspension.

Lemma append_cancel_l (a b c : string) : a +:+ b = a +:+ c -> b = c.
Proof.
  induction a as [|x a IH]; [trivial|].
  change (String x a +:+ b) with (String x (a +:+ b)).
  change (String x a +:+ c) with (String x (a +:+ c)).
  intros [= H]. auto.
Qed.

Lemma legacy_mobile_id_ne_desktop_id (email : string) (t t' : Z) :
  Legacy.sessionIdOf email mobile false t <> Legacy.sessionIdOf email desktop false t'.
Proof.
  unfold Legacy.sessionIdOf. intros H.
  apply append_cancel_l, append_cancel_l, append_cancel_l in H. discriminate H.
Qed.

(** What is known of the world in which an attempt of the older server
    has just suspended, when no login was suspended before. *)
Lemma legacy_attempt_suspendedOn (email : string) (password : option string)
    (version : Version) (place : Legacy.Await) (w w' : World) (promise : nat) :
  timers w = [] -> pending2FASessions w = [] ->
  Legacy.attemptLoginWithVersion email password version false w
  = (Ok (Legacy.Suspended promise), w') ->
  exists data session,
    suspendedOn w'
      {| Legacy.wa_promise := promise; Legacy.wa_email := email;
         Legacy.wa_password := password; Legacy.wa_place := place |}
      (Legacy.sessionIdOf email version false (now w)) data session (length (browsers w))
    /\ activeSessions w'
       = <[Legacy.sessionIdOf email version false (now w) := session]> (activeSessions w).
Proof.
  intros Htimers Hpending Hrun.
  pose proof (legacy_attempt_outcomes email password version w) as Hout.
  cbv zeta in Hout. rewrite Hrun in Hout.
  destruct Hout as (-> & Hr & (data & Hp & Hrej & Hstamp & Ht)
                    & (session & Ha & Hb) & Hopen & _ & _).
  exists data, session. split; [|exact Ha].
  unfold suspendedOn. cbn [Legacy.wa_promise].
  rewrite Hp, Hpending, Ht, Htimers, Hr, Ha.
  repeat split; try assumption; try reflexivity.
  - lia.
  - rewrite lookup_app_r by reflexivity. now rewrite Nat.sub_diag.
  - apply lookup_insert_eq.
Qed.

Lemma legacy_attempt_never_throws (email : string) (password : option string)
    (version : Version) (w : World) (e : JsError) (w' : World) :
  Legacy.attemptLoginWithVersion email password version false w <> (Throw e, w').
Proof.
  intros Hrun. pose proof (legacy_attempt_outcomes email password version w) as Hout.
  cbv zeta in Hout. now rewrite Hrun in Hout.
Qed.

(** A call of the login that is suspended waits on the session of the
    attempt that suspended. *)
Lemma legacy_login_held (email : string) (password : option string)
    (versionChoice : string) (w w' : World) (waiter : Legacy.Waiter) :
  timers w = [] -> pending2FASessions w = [] -> noDesktopSession email w ->
  Legacy.performFacebookLoginPersistent email password versionChoice w
  = (Ok (Legacy.Held waiter), w') ->
  Legacy.wa_email waiter = email
  /\ exists sessionId data session browser,
       suspendedOn w' waiter sessionId data session browser
       /\ (Legacy.wa_place waiter = Legacy.AutoMobile ->
           (exists t, sessionId = Legacy.sessionIdOf email mobile false t)
           /\ noDesktopSession email w').
Proof.
  intros Htimers Hpending Hdesktop.
  unfold Legacy.performFacebookLoginPersistent.
  destruct (bool_decide (versionChoice = "mobile")); [|destruct (bool_decide _)].
  - (* the mobile dialect was chosen *)
    unfold Legacy.awaitChosen, JsM.try_catch, JsM.bind, JsM.ret.
    destruct (Legacy.attemptLoginWithVersion email password mobile false w)
      as [[[result|promise]|e] w1] eqn:Hrun.
    + discriminate.
    + intros [= <- <-].
      destruct (legacy_attempt_suspendedOn _ _ _ Legacy.OnlyMobile _ _ _
                  Htimers Hpending Hrun) as (data & session & Hs & _).
      split; [reflexivity|]. do 4 eexists. split; [exact Hs | discriminate].
    + now apply legacy_attempt_never_throws in Hrun.
  - (* the desktop dialect was chosen *)
    unfold Legacy.awaitChosen, JsM.try_catch, JsM.bind, JsM.ret.
    destruct (Legacy.attemptLoginWithVersion email password desktop false w)
      as [[[result|promise]|e] w1] eqn:Hrun.
    + discriminate.
    + intros [= <- <-].
      destruct (legacy_attempt_suspendedOn _ _ _ Legacy.OnlyDesktop _ _ _
                  Htimers Hpending Hrun) as (data & session & Hs & _).
      split; [reflexivity|]. do 4 eexists. split; [exact Hs | discriminate].
    + now apply legacy_attempt_never_throws in Hrun.
  - (* the automatic choice *)
    unfold Legacy.autoFromMobile, Legacy.awaitAuto. unfold JsM.bind at 1.
    unfold JsM.try_catch at 1. unfold JsM.bind at 1.
    destruct (Legacy.attemptLoginWithVersion email password mobile false w)
      as [[[result|promise]|e] w1] eqn:Hrun.
    + (* the mobile attempt returned *)
      pose proof (legacy_attempt_outcomes email password mobile w) as Hout.
      cbv zeta in Hout. rewrite Hrun in Hout.
      destruct Hout as (Hp1 & _ & Ht1 & _).
      destruct (r_success result); unfold JsM.ret at 1; [discriminate|].
      unfold Legacy.autoFromDesktop, Legacy.awaitAuto. unfold JsM.bind at 1.
      unfold JsM.try_catch at 1. unfold JsM.bind at 1.
      destruct (Legacy.attemptLoginWithVersion email password desktop false w1)
        as [[[result2|promise]|e] w2] eqn:Hrun2.
      * destruct (r_success result2); unfold JsM.ret, JsM.throw; discriminate.
      * unfold JsM.ret. intros [= <- <-].
        rewrite <- Ht1 in Htimers. rewrite <- Hp1 in Hpending.
        destruct (legacy_attempt_suspendedOn _ _ _ Legacy.AutoDesktop _ _ _
                    Htimers Hpending Hrun2) as (data & session & Hs & _).
        split; [reflexivity|]. do 4 eexists. split; [exact Hs | discriminate].
      * now apply legacy_attempt_never_throws in Hrun2.
    + (* the mobile attempt is suspended *)
      unfold JsM.ret. intros [= <- <-].
      destruct (legacy_attempt_suspendedOn _ _ _ Legacy.AutoMobile _ _ _
                  Htimers Hpending Hrun) as (data & session & Hs & Ha).
      split; [reflexivity|]. do 4 eexists. split; [exact Hs|]. intros _.
      split; [eauto|]. intros t. rewrite Ha.
      rewrite lookup_insert_ne by apply legacy_mobile_id_ne_desktop_id.
      apply Hdesktop.
    + now apply legacy_attempt_never_throws in Hrun.
Qed.

End LegacySuspension.

Section LegacyTimeout.

Lemma timeoutCallback_suspended (sessionId : string) (data : Pending) (promise : nat)
    (w : World) :
  pending2FASessions w = [(sessionId, data)] ->
  Legacy.timeoutCallback sessionId promise w
  = (Ok tt,
     set_promises
       (alter (fun st => match st with
                         | PromisePending => PromiseRejected timeoutError
                         | _ => st
                         end) promise (promises w))
       (set_pending2FASessions [] w)).
Proof.
  intros Hp. unfold Legacy.timeoutCallback, removePending, callReject, lookupPending,
    deletePending.
  unfold_monad. rewrite Hp. cbn [List.find fst].
  rewrite bool_decide_eq_true_2 by reflexivity. cbn [fmap option_fmap option_map snd].
  cbn [pending2FASessions set_pending2FASessions promises].
  rewrite Hp. rewrite filter_cons. cbn [fst].
  destruct (decide (sessionId <> sessionId)) as [N|_]; [now contradiction N|].
  reflexivity.
Qed.

Lemma lookupPending_setPending_ne (s sessionId : string) (data : Pending)
    (l : list (string * Pending)) :
  s <> sessionId ->
  lookupPending sessionId (setPending s data l) = lookupPending sessionId l.
Proof.
  intros Hne. unfold lookupPending. induction l as [|[k v] l IH]; cbn [setPending List.find fst].
  - rewrite bool_decide_eq_false_2 by exact Hne. reflexivity.
  - destruct (bool_decide (k = s)) eqn:Hk; cbn [List.find fst].
    + apply bool_decide_eq_true in Hk. subst k.
      rewrite bool_decide_eq_false_2 by exact Hne. reflexivity.
    + destruct (bool_decide (k = sessionId)); [reflexivity | exact IH].
Qed.

(** The server stays idle until the timer of the suspended session is
    due. *)
Lemma legacy_idle_timeout (s : Legacy.Server) (waiter : Legacy.Waiter)
    (sessionId : string) (data : Pending) (session : Session) (browser : nat) (ms : Z) :
  Legacy.held s = [waiter] ->
  suspendedOn (Legacy.world s) waiter sessionId data session browser ->
  (Legacy.wa_place waiter = Legacy.AutoMobile ->
   (exists t, sessionId = Legacy.sessionIdOf (Legacy.wa_email waiter) mobile false t)
   /\ noDesktopSession (Legacy.wa_email waiter) (Legacy.world s)) ->
  p_timestamp data + Legacy.timeoutMs <= now (Legacy.world s) + ms ->
  let after := Legacy.idle ms s in
  lookupPending sessionId (pending2FASessions (Legacy.world after)) = None
  /\ promises (Legacy.world after) !! Legacy.wa_promise waiter
     = Some (PromiseRejected timeoutError)
  /\ activeSessions (Legacy.world after) !! sessionId = Some session
  /\ openAt browser (Legacy.world after)
  /\ match Legacy.wa_place waiter with
     | Legacy.OnlyMobile | Legacy.OnlyDesktop =>
         Legacy.replies after
         = Legacy.replies s
             ++ [Legacy.ReplyError 500
                   "Error interno del servidor: Timeout esperando código 2FA (30 minutos)"]
         /\ Legacy.held after = []
         /\ trace (Legacy.world after) = trace (Legacy.world s)
     | Legacy.AutoMobile =>
         exists rest,
           trace (Legacy.world after) = trace (Legacy.world s) ++ EvLaunch desktop :: rest
     | Legacy.AutoDesktop =>
         Legacy.replies after
         = Legacy.replies s
             ++ [Legacy.ReplyError 500
                   "Error interno del servidor: mobileResult is not defined"]
         /\ Legacy.held after = []
         /\ trace (Legacy.world after) = trace (Legacy.world s)
     end.
Proof.
  intros Hheld (Hp & Hrej & Hstamp & Ht & Hr & Ha & Hb & Ho) Hauto Hdue.
  cbv zeta. unfold Legacy.idle. cbv zeta.
  cbn [timers set_browsers set_now now]. rewrite Ht.
  rewrite !filter_cons, !filter_nil. cbn [fst].
  destruct (decide (p_timestamp data + Legacy.timeoutMs
                    <= now (Legacy.world s) + Z.max 0 ms)) as [_|N]; [|lia].
  destruct (decide (¬ p_timestamp data + Legacy.timeoutMs
                      <= now (Legacy.world s) + Z.max 0 ms)) as [N|_]; [lia|].
  cbn [Legacy.fire Legacy.world Legacy.held Legacy.replies].
  rewrite (timeoutCallback_suspended sessionId data) by exact Hp.
  cbn [snd].
  set (wc := set_promises _ _).
  assert (Hwr : promises wc !! Legacy.wa_promise waiter
                = Some (PromiseRejected timeoutError)).
  { subst wc. cbn [promises set_promises]. rewrite list_lookup_alter_eq.
    cbn [promises set_pending2FASessions set_timers set_browsers set_now].
    now rewrite Hr. }
  assert (Hwa : activeSessions wc = activeSessions (Legacy.world s)) by reflexivity.
  assert (Hwp : pending2FASessions wc = []) by reflexivity.
  assert (Hwt : trace wc = trace (Legacy.world s)) by reflexivity.
  assert (Hwo : openAt browser wc).
  { eapply openAt_same; [|exact Ho]. subst wc.
    cbn [browsers set_promises set_pending2FASessions set_timers set_browsers].
    apply elapseBrowser_open. }
  clearbody wc.
  unfold Legacy.wake. cbn [Legacy.held Legacy.world Legacy.replies].
  rewrite Hheld. cbn [List.find].
  rewrite bool_decide_eq_true_2 by reflexivity.
  rewrite filter_cons, filter_nil.
  destruct (decide (Legacy.wa_promise waiter <> Legacy.wa_promise waiter)) as [N|_];
    [now contradiction N|].
  rewrite Hwr.
  assert (Hnone : forall email version, Legacy.pendingOf email version wc = (Ok None, wc)).
  { intros email version. unfold Legacy.pendingOf. unfold_monad. now rewrite Hwp. }
  match goal with
  | |- context [Legacy.answer ?run ?waiting ?sent] =>
      remember (Legacy.answer run waiting sent) as after eqn:Hafter
  end.
  unfold Legacy.resume in Hafter. cbn [ResM.bind] in Hafter.
  destruct (Legacy.wa_place waiter) eqn:Hplace.
  - (* the mobile dialect was chosen: the error is thrown again *)
    unfold Legacy.awaitChosen, JsM.try_catch, JsM.bind, JsM.lift in Hafter.
    rewrite Hnone in Hafter. unfold JsM.throw, Legacy.answer in Hafter. subst after.
    cbn [Legacy.world Legacy.replies Legacy.held].
    rewrite Hwp, Hwa. repeat split; assumption.
  - unfold Legacy.awaitChosen, JsM.try_catch, JsM.bind, JsM.lift in Hafter.
    rewrite Hnone in Hafter. unfold JsM.throw, Legacy.answer in Hafter. subst after.
    cbn [Legacy.world Legacy.replies Legacy.held].
    rewrite Hwp, Hwa. repeat split; assumption.
  - (* the automatic choice, waiting for the mobile attempt: the desktop
       attempt is made *)
    destruct (Hauto eq_refl) as ((t0 & Hid) & Hdesktop).
    unfold Legacy.autoFromMobile, Legacy.awaitAuto in Hafter.
    unfold JsM.bind at 1 in Hafter.
    unfold JsM.try_catch at 1 in Hafter. unfold JsM.bind at 1 in Hafter.
    unfold JsM.lift at 1 in Hafter.
    unfold JsM.bind at 1 in Hafter. rewrite Hnone in Hafter.
    unfold JsM.ret at 1 in Hafter. cbn [fmap option_fmap option_map] in Hafter.
    unfold Legacy.autoFromDesktop, Legacy.awaitAuto in Hafter.
    unfold JsM.bind at 1 in Hafter.
    unfold JsM.try_catch at 1 in Hafter. unfold JsM.bind at 1 in Hafter.
    pose proof (legacy_attempt_outcomes (Legacy.wa_email waiter) (Legacy.wa_password waiter)
                  desktop wc) as Hout.
    cbv zeta in Hout.
    assert (Hfree : activeSessions wc
                      !! Legacy.sessionIdOf (Legacy.wa_email waiter) desktop false (now wc)
                    = None) by (rewrite Hwa; apply Hdesktop).
    assert (Hne : Legacy.sessionIdOf (Legacy.wa_email waiter) desktop false (now wc)
                  <> sessionId).
    { rewrite Hid. intros H. symmetry in H.
      now apply legacy_mobile_id_ne_desktop_id in H. }
    destruct (Legacy.attemptLoginWithVersion (Legacy.wa_email waiter)
                (Legacy.wa_password waiter) desktop false wc)
      as [[[result|promise]|e] w2]; [| |contradiction].
    + destruct Hout as (Hp2 & Hr2 & _ & Ha2 & Ho2 & (rest & Htr2)).
      assert (Hworld : Legacy.world after = w2).
      { subst after. destruct (r_success result); reflexivity. }
      rewrite Hworld. rewrite Hp2, Hwp, Hr2, Hwr.
      rewrite (Ha2 sessionId) by (intros H; apply Hne; now symmetry).
      rewrite Hwa, Ha.
      repeat split; try reflexivity; [now apply Ho2|].
      exists rest. now rewrite Htr2, Hwt.
    + destruct Hout as (_ & Hr2 & (data2 & Hp2 & _) & (session2 & Ha2 & _) & _ & Ho2
                        & (rest & Htr2)).
      assert (Hworld : Legacy.world after = w2) by (subst after; reflexivity).
      rewrite Hworld. rewrite Hp2, Hwp, Hr2, Ha2.
      rewrite lookup_insert_ne by exact Hne.
      rewrite Hwa, Ha.
      rewrite lookup_app_l by (apply lookup_lt_Some in Hwr; exact Hwr).
      rewrite Hwr.
      split.
      { cbn [setPending]. unfold lookupPending. cbn [List.find fst].
        rewrite bool_decide_eq_false_2 by exact Hne. reflexivity. }
      repeat split; try reflexivity; [now apply Ho2|].
      exists rest. now rewrite Htr2, Hwt.
  - (* the automatic choice, waiting for the desktop attempt *)
    unfold Legacy.autoFromDesktop, Legacy.awaitAuto in Hafter.
    unfold JsM.bind at 1 in Hafter.
    unfold JsM.try_catch at 1 in Hafter. unfold JsM.bind at 1 in Hafter.
    unfold JsM.lift at 1 in Hafter.
    unfold JsM.bind at 1 in Hafter. rewrite Hnone in Hafter.
    unfold JsM.ret at 1 in Hafter.
    cbn [fmap option_fmap option_map] in Hafter.
    unfold JsM.throw, Legacy.answer in Hafter. subst after.
    cbn [Legacy.world Legacy.replies Legacy.held].
    rewrite Hwp, Hwa. repeat split; assumption.
Qed.

End LegacyTimeout.




(** ** Further facts about the model *)

Section Adequacy.

(** The rounds given to the loop of [waitForLoginButton] are enough: with
    more rounds the run is the same, so the branch taken when the rounds
    are used up is never reached. *)
Lemma waitLoop_rounds_enough (page : nat) (startTime maxWaitMs : Z)
    (fallback : list string) :
  forall (rounds : nat) (w : World),
    maxWaitMs - (now w - startTime) <= 1000 * Z.of_nat rounds ->
    forall extra : nat,
      waitLoop (rounds + extra) page startTime maxWaitMs fallback w
      = waitLoop rounds page startTime maxWaitMs fallback w.
Proof.
  induction rounds as [|rounds IH]; intros w Hle extra.
  - assert (Hcond : (now w - startTime <? maxWaitMs) = false) by (apply Z.ltb_ge; lia).
    destruct extra; cbn [waitLoop Nat.add]; unfold dateNow; unfold_monad;
      cbn [now]; now rewrite Hcond.
  - cbn [waitLoop Nat.add]. unfold dateNow, observe. unfold_monad. cbv beta iota.
    destruct (now w - startTime <? maxWaitMs); [|reflexivity].
    destruct (findElement (pageIn w page) readyButtonSelectors); [reflexivity|].
    destruct (sleep_run 1000 w) as (w' & Hrun & _).
    assert (Hnow : now w' = now w + 1000).
    { unfold sleep, emit in Hrun. unfold_monad. cbv beta iota in Hrun.
      injection Hrun as <-. reflexivity. }
    rewrite Hrun. apply IH. rewrite Hnow. lia.
Qed.

Lemma roundsFor_enough (maxWaitMs : Z) : maxWaitMs <= 1000 * Z.of_nat (roundsFor maxWaitMs).
Proof.
  unfold roundsFor. destruct (Z_le_gt_dec maxWaitMs 0) as [Hneg|Hpos]; [lia|].
  rewrite Z2Nat.id by (apply Z.div_pos; lia).
  pose proof (Z.div_mod (maxWaitMs + 999) 1000 ltac:(lia)) as Hdiv.
  pose proof (Z.mod_pos_bound (maxWaitMs + 999) 1000 ltac:(lia)) as Hmod.
  lia.
Qed.

(** In [waitForLoginButton] the loop starts at the time it reads first,
    with [roundsFor maxWaitMs] rounds: these are enough. *)
Lemma waitForLoginButton_rounds (page : nat) (maxWaitMs : Z) (fallback : list string)
    (w : World) (extra : nat) :
  waitLoop (roundsFor maxWaitMs + extra) page (now w) maxWaitMs fallback w
  = waitLoop (roundsFor maxWaitMs) page (now w) maxWaitMs fallback w.
Proof.
  apply waitLoop_rounds_enough.
  pose proof (roundsFor_enough maxWaitMs). lia.
Qed.

(** A session id that is not registered: [closeSession] reports that the
    session was not found and changes nothing. *)
Lemma closeSession_unknown (w : World) (sessionId : string) :
  activeSessions w !! sessionId = None ->
  closeSession sessionId w
  = (Ok {| c_success := false; c_message := "Sesión no encontrada" |}, w).
Proof.
  intros Hnone. unfold closeSession. unfold_monad. now rewrite Hnone.
Qed.

Lemma nullFunctions_setPending (sessionId : string) (data : Pending) (w : World) :
  p_resolve data = None -> p_reject data = None ->
  nullFunctions w ->
  nullFunctions (set_pending2FASessions
                   (setPending sessionId data (pending2FASessions w)) w).
Proof.
  intros Hr Hj. unfold nullFunctions. simpl.
  induction (pending2FASessions w) as [|[k v] l IH]; intros Hall; simpl.
  - repeat constructor; assumption.
  - apply Forall_cons in Hall as [Hhead Hall].
    destruct (bool_decide (k = sessionId)); constructor; auto.
Qed.

(** Every pending entry that a login attempt of the current server
    leaves holds [null] for the two functions: the sessions it suspends
    are those of the theorems on [submit2FA] and [cancel2FA] above. *)
Lemma attempt_keeps_nullFunctions (email : string) (password : option string)
    (version : Version) (quickLogin : bool) (w : World) :
  nullFunctions w ->
  nullFunctions (snd (attemptLoginWithVersion email password version quickLogin w)).
Proof.
  apply (keeps_attemptLoginWithVersion
           (fun a b => nullFunctions a -> nullFunctions b) (fun _ => True));
    try (intros; exact I); try (intros; assumption); auto.
  intros sessionId data w0 Hr Hj. now apply nullFunctions_setPending.
Qed.

Lemma nullFunctions_lookup (w : World) (sessionId : string) (data : Pending) :
  nullFunctions w ->
  lookupPending sessionId (pending2FASessions w) = Some data ->
  p_resolve data = None /\ p_reject data = None.
Proof.
  unfold nullFunctions, lookupPending. intros Hall Hfind.
  destruct (List.find _ _) as [[k v]|] eqn:E; [|discriminate].
  injection Hfind as <-. apply find_some in E as [Hin _].
  rewrite Forall_forall in Hall. apply (Hall (k, v)). now apply list_elem_of_In.
Qed.

End Adequacy.

(** On that site the three checks of the ladder are all made, and the
    third one finds the second factor. *)
Example ladder_third_rung :
  filter (fun e => isCheck e || isSleep e = true)
    (drop 38 (trace
       (snd (attemptLoginWithVersion "user@example.com" (Some "secret") mobile false
               (Demo.start siteSlow)))))
  = [EvSleep 3000; EvSleep 2000; EvSleep 2000;
     EvCheckFor2FA 0 (Ok false); EvSleep 1000;
     EvCheckFor2FA 0 (Ok false); EvSleep 2000;
     EvCheckFor2FA 0 (Ok true)].
Proof. vm_compute. reflexivity. Qed.

(** * Further properties of the code *)

(** ** Probing the page, session ids and the second-factor signal *)

Section StringFacts.

Lemma append_cons (c : ascii) (a b : string) : String c a +:+ b = String c (a +:+ b).
Proof. reflexivity. Qed.

Lemma append_empty_l (a : string) : "" +:+ a = a.
Proof. reflexivity. Qed.

Lemma append_assoc (a b c : string) : (a +:+ b) +:+ c = a +:+ (b +:+ c).
Proof. induction a as [|x a IH]; [reflexivity|]. now rewrite !append_cons, IH. Qed.

Lemma prefix_spec (sub s : string) :
  String.prefix sub s = true <-> exists post, s = sub +:+ post.
Proof.
  revert s. induction sub as [|c sub IH]; intros s.
  - split; [intros _; now exists s | intros _; now destruct s].
  - destruct s as [|d s]; simpl.
    + split; [discriminate | intros [post H]; discriminate].
    + destruct (ascii_dec c d) as [->|N].
      * rewrite IH. split; intros [post H]; exists post.
        -- now rewrite append_cons, <- H.
        -- rewrite append_cons in H. congruence.
      * split; [discriminate | intros [post H]].
        rewrite append_cons in H. congruence.
Qed.

Lemma includes_spec (s sub : string) :
  includes s sub = true <-> exists pre post, s = pre +:+ sub +:+ post.
Proof.
  induction s as [|c s IH].
  - cbn [includes]. destruct (String.prefix sub "") eqn:P.
    + split; [intros _|reflexivity]. apply prefix_spec in P as [post P].
      exists "", post. exact P.
    + split; [discriminate|]. intros (pre & post & H).
      destruct pre; [|discriminate]. rewrite append_empty_l in H.
      assert (String.prefix sub "" = true) by (apply prefix_spec; now exists post).
      congruence.
  - cbn [includes]. destruct (String.prefix sub (String c s)) eqn:P.
    + split; [intros _|reflexivity]. apply prefix_spec in P as [post P].
      exists "", post. exact P.
    + rewrite IH. split; intros (pre & post & H).
      * exists (String c pre), post. now rewrite append_cons, <- H.
      * destruct pre as [|d pre].
        -- rewrite append_empty_l in H.
           assert (String.prefix sub (String c s) = true)
             by (apply prefix_spec; now exists post).
           congruence.
        -- rewrite append_cons in H. exists pre, post. congruence.
Qed.

(** A string that contains [a +:+ b] contains [b]. *)
Lemma includes_suffix_of_needle (s a b : string) :
  includes s (a +:+ b) = true -> includes s b = true.
Proof.
  rewrite !includes_spec. intros (pre & post & ->).
  exists (pre +:+ a), post. now rewrite !append_assoc.
Qed.

End StringFacts.

Section Probing.

Lemma visibleNow_true (p : PageState) (l : Locator) :
  visibleNow p l = true <-> isVisible p l = Ok true.
Proof.
  unfold visibleNow. destruct (isVisible p l) as [[|]|]; split; congruence.
Qed.

Lemma existsb_visible_false (p : PageState) (selectors : list string) :
  existsb (fun s => visibleNow p (Loc s)) selectors = false <-> noneVisible p selectors.
Proof.
  unfold noneVisible. induction selectors as [|s rest IH]; simpl.
  - split; [constructor | reflexivity].
  - rewrite orb_false_iff, IH, Forall_cons, <- visibleNow_true.
    destruct (visibleNow p (Loc s)); intuition congruence.
Qed.

End Probing.

(** X1: [findElement] returns the first selector of the list whose probe
    answers visible; a probe that answers no or that throws is passed
    over, and the result is [null] exactly when no probe answers
    visible. *)
Theorem findElement_first_visible (p : PageState) (selectors : list string) :
  match findElement p selectors with
  | Some element =>
      exists before selector after,
        element = Loc selector
        /\ selectors = before ++ selector :: after
        /\ isVisible p (Loc selector) = Ok true
        /\ noneVisible p before
  | None => noneVisible p selectors
  end.
Proof.
  induction selectors as [|s rest IH]; simpl.
  - constructor.
  - destruct (visibleNow p (Loc s)) eqn:V.
    + exists [], s, rest. apply visibleNow_true in V. repeat split; [assumption | constructor].
    + assert (isVisible p (Loc s) <> Ok true) as N
        by (rewrite <- visibleNow_true; congruence).
      destruct (findElement p rest) as [element|].
      * destruct IH as (before & selector & after & -> & -> & Hv & Hb).
        exists (s :: before), selector, after. repeat split; [assumption|].
        constructor; assumption.
      * constructor; assumption.
Qed.

(** X2: [detectFacebookVersion] decides by the address first: an address
    that contains m.facebook.com is mobile whatever the page shows, any
    other address that contains facebook.com is desktop; only then the
    page is probed, and a probe that throws gives mobile.  So the function
    throws only when the address itself cannot be read. *)
Theorem detectFacebookVersion_by_address (p : PageState) :
  match url p with
  | Throw e => detectFacebookVersion p = Throw e
  | Ok u =>
      if includes u "m.facebook.com" then detectFacebookVersion p = Ok mobile
      else if includes u "facebook.com" then detectFacebookVersion p = Ok desktop
      else detectFacebookVersion p
           = Ok (match isVisible p (Loc (css "input[id=`m_login_email`]")) with
                 | Ok false =>
                     match isVisible p (Loc (css "input[data-testid=`royal_email`]")) with
                     | Ok true => desktop
                     | _ => mobile
                     end
                 | _ => mobile
                 end)
  end.
Proof.
  unfold detectFacebookVersion. destruct (url p) as [u|e]; cbn [ResM.bind]; [|reflexivity].
  destruct (includes u "m.facebook.com"); [reflexivity|].
  destruct (includes u "facebook.com") eqn:F; [now rewrite orb_true_r|].
  rewrite orb_false_r.
  destruct (includes u "www.facebook.com") eqn:W.
  - (* an address that contains www.facebook.com contains facebook.com *)
    apply (includes_suffix_of_needle u "www." "facebook.com") in W. congruence.
  - destruct (isVisible p (Loc (css "input[id=`m_login_email`]"))) as [[|]|];
      cbn [ResM.bind ResM.try_catch]; try reflexivity.
    destruct (isVisible p (Loc (css "input[data-testid=`royal_email`]"))) as [[|]|];
      reflexivity.
Qed.

(** X3: a page that shows none of the second-factor indicators and has no
    e-mail or password input counts as logged in, whatever else it shows
    and whatever its address is. *)
Theorem checkLoginSuccess_without_login_fields (p : PageState) (address : string) :
  url p = Ok address ->
  noneVisible p twoFAIndicators_checkLoginSuccess ->
  count p (css "input[name=`email`], input[type=`password`]") = Ok 0%nat ->
  checkLoginSuccess p = Ok true.
Proof.
  intros Hu Hn Hc. unfold checkLoginSuccess. rewrite Hu. cbn [ResM.bind].
  apply existsb_visible_false in Hn. rewrite Hn.
  match goal with
  | |- context [existsb ?f ?l] => destruct (existsb f l); [reflexivity|]
  end.
  now rewrite Hc.
Qed.

Lemma checkLoginSuccess_without_login_fields_witness :
  checkLoginSuccess Demo.noPage = Ok true.
Proof.
  apply (checkLoginSuccess_without_login_fields Demo.noPage "about:blank").
  - reflexivity.
  - unfold noneVisible. apply Forall_forall. intros selector _. simpl. discriminate.
  - reflexivity.
Defined.

Section Indicators.

Lemma existsb_incl {A} (f : A -> bool) (short long : list A) :
  (forall x, x ∈ short -> x ∈ long) ->
  existsb f short = true -> existsb f long = true.
Proof.
  intros Hin. rewrite !existsb_exists. intros (x & Hx & Hf).
  exists x. split; [|assumption].
  apply list_elem_of_In, Hin, list_elem_of_In, Hx.
Qed.

Lemma indicators_included :
  forall x, x ∈ twoFAIndicators_checkLoginSuccess -> x ∈ twoFAIndicators.
Proof.
  apply Forall_forall.
  apply (bool_decide_unpack (Forall (fun x => x ∈ twoFAIndicators)
                               twoFAIndicators_checkLoginSuccess)).
  vm_compute. exact I.
Qed.

End Indicators.

(** X4: every second-factor indicator that [checkLoginSuccess] probes is
    also probed by [checkFor2FA]: on a page whose address and title can be
    read, an indicator that makes [checkLoginSuccess] answer no makes
    [checkFor2FA] answer yes. *)
Theorem checkFor2FA_sees_indicators_of_checkLoginSuccess (p : PageState)
    (address heading : string) :
  url p = Ok address ->
  title p = Ok heading ->
  existsb (fun indicator => visibleNow p (Loc indicator))
    twoFAIndicators_checkLoginSuccess = true ->
  checkLoginSuccess p = Ok false /\ checkFor2FA p = Ok true.
Proof.
  intros Hu Ht Hv. split.
  - unfold checkLoginSuccess. rewrite Hu. cbn [ResM.bind]. now rewrite Hv.
  - unfold checkFor2FA. rewrite Hu, Ht. cbn [ResM.bind ResM.try_catch].
    now rewrite (existsb_incl _ _ _ indicators_included Hv).
Qed.

Lemma checkFor2FA_sees_indicators_witness :
  checkLoginSuccess (Demo.view "m.facebook.com" Demo.codeForm) = Ok false
  /\ checkFor2FA (Demo.view "m.facebook.com" Demo.codeForm) = Ok true.
Proof.
  apply (checkFor2FA_sees_indicators_of_checkLoginSuccess
           (Demo.view "m.facebook.com" Demo.codeForm)
           "https://m.facebook.com/login/device-based" "Facebook");
    vm_compute; reflexivity.
Defined.

Section SessionIds.

Lemma ofZ_inj (a b : Z) : ofZ a = ofZ b -> a = b.
Proof.
  unfold ofZ. intros H. apply DecimalZ.to_int_inj.
  assert (forall z, NilZero.int_of_string (NilZero.string_of_int (Z.to_int z))
                    = Some (Z.to_int z)) as back.
  { intros z. apply NilZero.isi; destruct z; simpl; try discriminate;
      intros [= E]; now apply DecimalPos.Unsigned.to_uint_nonnil in E. }
  pose proof (back a) as Ha. rewrite H, back in Ha. congruence.
Qed.

End SessionIds.

(** X5: for one identity and one kind of login, the session id determines
    the dialect and the millisecond at which the attempt started: two
    attempts get the same id only when they are for the same dialect and
    start in the same millisecond. *)
Theorem sessionIdOf_injective (email : string) (quickLogin : bool)
    (version version' : Version) (t t' : Z) :
  sessionIdOf email version quickLogin t = sessionIdOf email version' quickLogin t' ->
  version = version' /\ t = t'.
Proof.
  unfold sessionIdOf. intros H.
  apply append_cancel_l, append_cancel_l, append_cancel_l in H.
  destruct version, version'; try discriminate H; split; try reflexivity.
  all: apply (append_cancel_l _ _ _) in H; apply (append_cancel_l "-") in H;
    now apply ofZ_inj.
Qed.

Lemma sessionIdOf_injective_witness :
  mobile = mobile /\ 1700000000000 = 1700000000000.
Proof.
  apply (sessionIdOf_injective "user@example.com" false mobile mobile
           1700000000000 1700000000000).
  reflexivity.
Defined.

Section SignalParsing.

(** [s.includes(c)] for a single character. *)
Lemma includes_char_cons (c d : ascii) (s : string) :
  includes (String d s) (String c "") = Ascii.eqb c d || includes s (String c "").
Proof.
  cbn [includes String.prefix].
  destruct (ascii_dec c d) as [->|N].
  - rewrite Ascii.eqb_refl. now destruct s.
  - apply Ascii.eqb_neq in N. now rewrite N.
Qed.

Lemma includes_char_append (c : ascii) (a b : string) :
  includes (a +:+ b) (String c "") = includes a (String c "") || includes b (String c "").
Proof.
  induction a as [|d a IH].
  - rewrite append_empty_l. reflexivity.
  - rewrite append_cons, !includes_char_cons, IH. now rewrite orb_assoc.
Qed.

Lemma split_without_separator (sep : ascii) (a : string) :
  includes a (String sep "") = false -> split sep a = [a].
Proof.
  induction a as [|d a IH]; [reflexivity|].
  rewrite includes_char_cons, orb_false_iff. intros [Hd Ha].
  cbn [split]. rewrite Ascii.eqb_sym, Hd, (IH Ha). reflexivity.
Qed.

Lemma split_at_separator (sep : ascii) (a b : string) :
  includes a (String sep "") = false ->
  split sep (a +:+ String sep b) = a :: split sep b.
Proof.
  induction a as [|d a IH].
  - intros _. rewrite append_empty_l. cbn [split]. now rewrite Ascii.eqb_refl.
  - rewrite includes_char_cons, orb_false_iff. intros [Hd Ha].
    rewrite append_cons. cbn [split]. rewrite Ascii.eqb_sym, Hd, (IH Ha). reflexivity.
Qed.

Lemma sanitize_without_colon (email : string) :
  includes email ":" = false -> includes (sanitize email) ":" = false.
Proof.
  unfold sanitize. induction email as [|c email IH]; [trivial|].
  cbn [Str.map]. rewrite !includes_char_cons, !orb_false_iff. intros [Hc He].
  split; [|auto]. destruct (isAtOrDot c); [reflexivity | exact Hc].
Qed.

Lemma digits_without_colon (d : Decimal.uint) :
  includes (NilEmpty.string_of_uint d) ":" = false.
Proof.
  induction d; cbn [NilEmpty.string_of_uint]; [reflexivity|..];
    rewrite includes_char_cons, IHd; reflexivity.
Qed.

Lemma ofZ_without_colon (z : Z) : includes (ofZ z) ":" = false.
Proof.
  unfold ofZ. assert (forall d, includes (NilZero.string_of_uint d) ":" = false) as U.
  { intros d. destruct d; try apply digits_without_colon. reflexivity. }
  destruct (Z.to_int z); cbn [NilZero.string_of_int]; [apply U|].
  rewrite includes_char_cons, U. reflexivity.
Qed.

Lemma sessionIdOf_without_colon (email : string) (version : Version) (quickLogin : bool)
    (t : Z) :
  includes email ":" = false ->
  includes (sessionIdOf email version quickLogin t) ":" = false.
Proof.
  intros He. unfold sessionIdOf.
  rewrite !includes_char_append, (sanitize_without_colon _ He), ofZ_without_colon.
  destruct quickLogin, version; reflexivity.
Qed.

End SignalParsing.

(** X6: the signal of a required second factor carries the session id
    between two colons.  When the identity contains no colon, the handler
    of the signal gets the session id and the dialect back out of the
    message, whatever the pending entries are. *)
Theorem secondFactorSignal_returns_session_id (email : string) (version : Version)
    (quickLogin : bool) (t : Z) (label : string) (w : World) :
  includes email ":" = false ->
  secondFactorSignal
    (Error ("2FA_REQUIRED:" +:+ sessionIdOf email version quickLogin t +:+ ":"
              +:+ versionName version))
    email version label w
  = (Ok (Some (requires2FAResult (Some (sessionIdOf email version quickLogin t))
                 ("Se requiere código 2FA " +:+ label
                    +:+ ". Usa el modal para ingresar el código.")
                 (Some (versionName version)))), w).
Proof.
  intros He. unfold secondFactorSignal. cbn [errorMessage].
  assert (startsWith ("2FA_REQUIRED:" +:+ sessionIdOf email version quickLogin t +:+ ":"
                        +:+ versionName version) "2FA_REQUIRED:" = true) as ->.
  { apply prefix_spec. eexists. reflexivity. }
  change ("2FA_REQUIRED:" +:+ sessionIdOf email version quickLogin t +:+ ":"
            +:+ versionName version)
    with ("2FA_REQUIRED" +:+ String ":" (sessionIdOf email version quickLogin t
            +:+ String ":" (versionName version))).
  rewrite split_at_separator by reflexivity.
  rewrite split_at_separator by (now apply sessionIdOf_without_colon).
  rewrite split_without_separator by (now destruct version).
  reflexivity.
Qed.

Lemma secondFactorSignal_returns_session_id_witness :
  secondFactorSignal
    (Error ("2FA_REQUIRED:" +:+ sessionIdOf "user@example.com" mobile false 1700000000000
              +:+ ":" +:+ versionName mobile))
    "user@example.com" mobile "móvil" (Demo.start Demo.siteWithCode)
  = (Ok (Some (requires2FAResult
                 (Some (sessionIdOf "user@example.com" mobile false 1700000000000))
                 ("Se requiere código 2FA " +:+ "móvil"
                    +:+ ". Usa el modal para ingresar el código.")
                 (Some (versionName mobile)))), Demo.start Demo.siteWithCode).
Proof.
  apply (secondFactorSignal_returns_session_id "user@example.com" mobile false
           1700000000000 "móvil" (Demo.start Demo.siteWithCode)).
  reflexivity.
Defined.

Section CacheListing.

Lemma length_strmap (f : ascii -> ascii) (s : string) :
  String.length (Str.map f s) = String.length s.
Proof. induction s as [|c s IH]; simpl; congruence. Qed.

Lemma map_append (f : ascii -> ascii) (a b : string) :
  Str.map f (a +:+ b) = Str.map f a +:+ Str.map f b.
Proof.
  induction a as [|c a IH]; [reflexivity|].
  rewrite append_cons. cbn [Str.map]. now rewrite append_cons, IH.
Qed.

End CacheListing.

(** X7: [GET /cache] shows for each cache directory the directory name
    with every underscore turned into an at sign.  For a directory made
    by a login this ends in [@mobile] or [@desktop] and is longer than
    the identity: the e-mail shown is never the identity the cache
    belongs to. *)
Theorem cacheEmail_is_never_the_identity (email : string) (version : Version) :
  cacheEmail (cacheDirName email version)
  = cacheEmail (sanitize email) +:+ "@" +:+ versionName version
  /\ cacheEmail (cacheDirName email version) <> email.
Proof.
  split.
  - unfold cacheEmail, cacheDirName. rewrite !map_append. now destruct version.
  - intros H. apply (f_equal String.length) in H.
    unfold cacheEmail, cacheDirName, sanitize in H.
    rewrite length_strmap, !length_append, length_strmap in H.
    destruct version; simpl in H; lia.
Qed.

(** ** The artifact store *)

Section ArtifactStore.

Lemma saveCookies_run (context : nat) (email dir : string) (w : World) :
  saveCookies context email dir w
  = match contextCookies (pageIn w context) with
    | Ok cookies =>
        (Ok (Some (pathJoin dir (cookieFileName email))),
         set_files (<[pathJoin dir (cookieFileName email)
                        := CookieJson (cookieBundle email (now w) cookies)]> (files w)) w)
    | Throw _ => (Ok None, w)
    end.
Proof.
  unfold saveCookies, observe, dateNow, writeJson. unfold_monad.
  destruct (contextCookies (pageIn w context)); reflexivity.
Qed.

Lemma loadCookies_run (email dir : string) (w : World) :
  loadCookies email dir w
  = (Ok (match files w !! pathJoin dir (cookieFileName email) with
         | Some Unparsable | None => None
         | Some c => if tooOld (now w) (timestampOf c) then None else Some (asCookieData c)
         end), w).
Proof.
  unfold loadCookies, existsSync, readJson, dateNow. unfold_monad.
  destruct (files w !! pathJoin dir (cookieFileName email)) as [c|] eqn:F.
  - replace (bool_decide (is_Some (Some c))) with true
      by (symmetry; apply bool_decide_eq_true; eauto).
    cbn [orb negb]. rewrite F.
    destruct c; cbn; [reflexivity|..];
      match goal with |- context [tooOld ?a ?b] => destruct (tooOld a b) end; reflexivity.
  - replace (bool_decide (is_Some (@None FileContent))) with false
      by (symmetry; apply bool_decide_eq_false; intros [? ?]; discriminate).
    cbn [orb]. destruct (bool_decide _); cbn [negb]; [|reflexivity].
    rewrite F. reflexivity.
Qed.

End ArtifactStore.

(** X8: what [saveCookies] has written, [loadCookies] gives back for seven
    days and not any longer: if the cookies of the context can be read,
    the file is written and, in any later world that still has this file,
    [loadCookies] returns the identity, the time of the save and the same
    cookies as long as no more than [maxAge] milliseconds have passed, and
    [null] after that; it never changes the world. *)
Theorem saveCookies_then_loadCookies (context : nat) (email : string)
    (cookies : list Cookie) (w later : World) :
  contextCookies (pageIn w context) = Ok cookies ->
  files later !! cookiePath email
  = files (snd (saveCookies context email COOKIES_DIR w)) !! cookiePath email ->
  fst (saveCookies context email COOKIES_DIR w) = Ok (Some (cookiePath email))
  /\ loadCookies email COOKIES_DIR later
     = (Ok (if now later - now w <=? maxAge
            then Some (cookieBundle email (now w) cookies)
            else None), later).
Proof.
  intros Hc. rewrite saveCookies_run, Hc. cbn [fst snd]. intros Hf.
  split; [reflexivity|].
  rewrite loadCookies_run. fold (cookiePath email). rewrite Hf.
  cbn [files set_files]. unfold cookiePath. rewrite lookup_insert_eq.
  cbn [timestampOf cookieBundle cd_timestamp tooOld asCookieData].
  rewrite Z.leb_antisym. destruct (maxAge <? now later - now w); reflexivity.
Qed.

Lemma saveCookies_then_loadCookies_witness :
  let w := afterDirectLogin in
  let later := set_now (now w + 24 * 60 * 60 * 1000)
                 (snd (saveCookies 0 "user@example.com" COOKIES_DIR w)) in
  fst (saveCookies 0 "user@example.com" COOKIES_DIR w)
  = Ok (Some (cookiePath "user@example.com"))
  /\ loadCookies "user@example.com" COOKIES_DIR later
     = (Ok (if now later - now w <=? maxAge
            then Some (cookieBundle "user@example.com" (now w) [Demo.sessionCookie])
            else None), later).
Proof.
  intros w later.
  apply (saveCookies_then_loadCookies 0 "user@example.com" [Demo.sessionCookie] w later).
  - vm_compute. reflexivity.
  - vm_compute. reflexivity.
Defined.

Section DeleteData.

Lemma cookiePath_ne_sessionPath (email : string) : cookiePath email <> sessionPath email.
Proof.
  unfold cookiePath, sessionPath, pathJoin, cookieFileName, sessionFileName.
  intros H. apply append_cancel_l, append_cancel_l, append_cancel_l in H. discriminate H.
Qed.

Lemma cacheDir_ne_cookies (name file : string) :
  pathJoin CACHE_DIR name <> pathJoin COOKIES_DIR file.
Proof. unfold pathJoin, CACHE_DIR, COOKIES_DIR. intros H. discriminate H. Qed.

End DeleteData.

(** ** What a login attempt leaves behind *)

Section AttemptErrors.

(** The [catch] block of the attempt throws nothing but the error it
    got, and only when that is the signal of a second factor. *)
Lemma attemptFailed_throws (sessionId : string) (version : Version) (error thrown : JsError)
    (w w' : World) :
  attemptFailed sessionId version error w = (Throw thrown, w') ->
  thrown = error /\ startsWith (errorMessage error) "2FA_REQUIRED:" = true.
Proof.
  unfold attemptFailed, DEBUG_ENABLED, createDebugSnapshot, browserClose,
    deleteActiveSession, emit.
  unfold_monad. cbv beta iota.
  destruct (activeSessions w !! sessionId) as [session|] eqn:Hs; cbv beta iota.
  - destruct (startsWith (errorMessage error) "2FA_REQUIRED:"); cbv beta iota.
    + intros [= <- _]. auto.
    + cbn [activeSessions set_trace]. rewrite Hs.
      destruct (s_browser session); discriminate.
  - destruct (startsWith (errorMessage error) "2FA_REQUIRED:"); cbv beta iota.
    + intros [= <- _]. auto.
    + rewrite Hs. discriminate.
Qed.

Lemma attempt_throws (email : string) (password : option string) (version : Version)
    (quickLogin : bool) (error : JsError) (w w' : World) :
  attemptLoginWithVersion email password version quickLogin w = (Throw error, w') ->
  startsWith (errorMessage error) "2FA_REQUIRED:" = true.
Proof.
  unfold attemptLoginWithVersion. unfold JsM.bind at 1. unfold dateNow at 1.
  unfold JsM.bind at 1. unfold JsM.get at 1, JsM.ret at 1. unfold JsM.try_catch.
  match goal with
  | |- context [match ?m w with (_, _) => _ end] => destruct (m w) as [[result|e] w1]
  end; [discriminate|].
  intros H. apply attemptFailed_throws in H as [-> H]. exact H.
Qed.

Lemma secondFactorSignal_of_signal (error : JsError) (email : string) (version : Version)
    (label : string) (w : World) :
  startsWith (errorMessage error) "2FA_REQUIRED:" = true ->
  exists result, secondFactorSignal error email version label w = (Ok (Some result), w)
                 /\ r_requires2FA result = true /\ r_success result = false.
Proof.
  intros H. unfold secondFactorSignal. rewrite H. unfold JsM.ret.
  eexists. split; [reflexivity|]. split; reflexivity.
Qed.

End AttemptErrors.

Section ChosenDialect.

(** A login with a chosen dialect never throws: it returns the result of
    the attempt, or, when the attempt threw, a result that says that a
    second factor is required. *)
Lemma loginOneVersion_returns (email : string) (password : option string)
    (version : Version) (w : World) :
  match attemptLoginWithVersion email password version false w with
  | (Ok result, w1) => loginOneVersion email password version w = (Ok result, w1)
  | (Throw error, w1) =>
      exists result,
        loginOneVersion email password version w = (Ok result, w1)
        /\ r_requires2FA result = true /\ r_success result = false
  end.
Proof.
  unfold loginOneVersion, JsM.try_catch.
  destruct (attemptLoginWithVersion email password version false w)
    as [[result|error] w1] eqn:Hrun; [reflexivity|].
  apply attempt_throws in Hrun.
  destruct (secondFactorSignal_of_signal error email version (versionLabel version) w1 Hrun)
    as (result & Hsignal & H2 & H3).
  unfold JsM.bind. rewrite Hsignal. unfold JsM.ret.
  exists result. split; [reflexivity|]. split; assumption.
Qed.

End ChosenDialect.



Section AttemptOutcomes.

Lemma undisturbed_registered (sessionId email : string) (w a b : World) :
  registered sessionId email w a -> undisturbed a b -> registered sessionId email w b.
Proof.
  intros ((session & Ha & Hb & He) & Ho & Hr & Ht) (Ha' & _ & Hr' & Ht' & Ho' & _).
  repeat split; try congruence. exists session. repeat split; congruence.
Qed.

Lemma enterCredentials_undisturbed (page : nat) (email : string) (password : option string)
    (version : Version) (w : World) :
  undisturbed w (snd (enterCredentials page email password version w)).
Proof. apply (fp_enterCredentials undisturbed (fun _ => True)); undisturbed_side. Qed.

Lemma hesitate_undisturbed (w : World) : undisturbed w (snd (hesitate w)).
Proof. apply (fp_hesitate undisturbed (fun _ => True)); undisturbed_side. Qed.

Lemma act_undisturbed (page : nat) (a : Action) (w : World) :
  undisturbed w (snd (act page a w)).
Proof. apply (fp_act undisturbed (fun _ => True)); undisturbed_side. Qed.

Lemma settle_undisturbed (page : nat) (w : World) : undisturbed w (snd (settle page w)).
Proof. apply (fp_settle undisturbed (fun _ => True)); undisturbed_side. Qed.

Lemma verify2FA_undisturbed (page : nat) (w : World) :
  undisturbed w (snd (verify2FA page w)).
Proof. apply (fp_verify2FA undisturbed (fun _ => True)); undisturbed_side. Qed.

(** The part of a normal login up to the click: either the browser did
    not start and nothing happened, or the session is registered. *)
Lemma upToTheClick_run (sessionId email : string) (password : option string)
    (version : Version) (w : World) :
  match upToTheClick sessionId email password version w with
  | (Ok page, w') =>
      page = length (browsers w)
      /\ registered sessionId email w w'
      /\ pending2FASessions w' = pending2FASessions w
  | (Throw _, w') =>
      (undisturbed w w' \/ registered sessionId email w w')
      /\ pending2FASessions w' = pending2FASessions w
  end.
Proof.
  unfold upToTheClick. unfold JsM.bind at 1.
  pose proof (launchFresh_run version w) as Hlaunch.
  destruct (launchFresh version w) as [[fresh|e] w1].
  2: { subst w1. split; [left|reflexivity]. repeat split. eexists. reflexivity. }
  destruct Hlaunch as (-> & d & ->).
  unfold JsM.bind at 1. unfold dateNow at 1. unfold JsM.bind at 1.
  unfold JsM.get at 1, JsM.ret at 1. unfold JsM.bind at 1. unfold JsM.modify at 1.
  cbv beta iota.
  match goal with
  | |- context [JsM.bind (enterCredentials ?p ?e ?pw ?v) _ ?w2] =>
      assert (Hreg : registered sessionId email w w2
                     /\ pending2FASessions w2 = pending2FASessions w);
      [|pose proof (enterCredentials_undisturbed p e pw v w2) as Henter;
        unfold JsM.bind at 1;
        destruct (enterCredentials p e pw v w2) as [[button|e0] w3]]
  end.
  { split; [|reflexivity]. split; [eexists; repeat split|].
    cbn [browsers set_activeSessions set_browsers].
    repeat split. now rewrite fmap_app. }
  all: cbn [snd] in Henter; destruct Hreg as (Hreg & Hpend).
  2: { split; [right; eapply undisturbed_registered; eassumption|].
       destruct Henter as (_ & -> & _). exact Hpend. }
  unfold JsM.bind at 1. pose proof (hesitate_undisturbed w3) as Hhes.
  destruct (hesitate w3) as [[[]|e0] w4]; cbn [snd] in Hhes.
  2: { split; [right; eapply undisturbed_registered;
                 [eapply undisturbed_registered|]; eassumption|].
       destruct Hhes as (_ & -> & _). destruct Henter as (_ & -> & _). exact Hpend. }
  unfold JsM.bind at 1.
  pose proof (act_undisturbed (length (browsers w)) (ClickForce button) w4) as Hact.
  destruct (act (length (browsers w)) (ClickForce button) w4) as [[[]|e0] w5];
    cbn [snd] in Hact.
  - unfold JsM.ret. split; [reflexivity|].
    split; [eapply undisturbed_registered; [eapply undisturbed_registered;
             [eapply undisturbed_registered|]|]; eassumption|].
    destruct Hact as (_ & -> & _). destruct Hhes as (_ & -> & _).
    destruct Henter as (_ & -> & _). exact Hpend.
  - split; [right; eapply undisturbed_registered; [eapply undisturbed_registered;
             [eapply undisturbed_registered|]|]; eassumption|].
    destruct Hact as (_ & -> & _). destruct Hhes as (_ & -> & _).
    destruct Henter as (_ & -> & _). exact Hpend.
Qed.

(** The [catch] block of the attempt on an error that is not the signal
    of a second factor: the session registered under the id is torn
    down and the failure is returned. *)
Lemma attemptFailed_run (sessionId : string) (version : Version) (error : JsError)
    (w : World) :
  startsWith (errorMessage error) "2FA_REQUIRED:" = false ->
  exists w',
    attemptFailed sessionId version error w
    = (Ok (failedResult (versionName version) (errorMessage error)), w')
    /\ activeSessions w' = delete sessionId (activeSessions w)
    /\ pending2FASessions w' = pending2FASessions w
    /\ browsers w'
       = match activeSessions w !! sessionId with
         | Some session =>
             match s_browser session with
             | Some browser => alter closeIt browser (browsers w)
             | None => browsers w
             end
         | None => browsers w
         end.
Proof.
  intros Hplain.
  unfold attemptFailed, DEBUG_ENABLED, createDebugSnapshot, browserClose,
    deleteActiveSession, emit.
  unfold_monad. cbv beta iota. rewrite Hplain.
  destruct (activeSessions w !! sessionId) as [session|] eqn:Hs; cbv beta iota.
  - cbn [activeSessions set_trace]. rewrite Hs.
    destruct (s_browser session) as [browser|]; cbv beta iota;
      eexists; (split; [reflexivity|]); repeat split.
  - rewrite Hs. eexists. split; [reflexivity|]. repeat split.
    symmetry. now apply delete_id.
Qed.

(** On the signal of a second factor the [catch] block tears nothing
    down. *)
Lemma attemptFailed_signal (sessionId : string) (version : Version) (error : JsError)
    (w : World) :
  startsWith (errorMessage error) "2FA_REQUIRED:" = true ->
  exists w', attemptFailed sessionId version error w = (Throw error, w')
             /\ undisturbed w w'.
Proof.
  intros Hsignal.
  unfold attemptFailed, DEBUG_ENABLED, createDebugSnapshot, emit.
  unfold_monad. cbv beta iota. rewrite Hsignal.
  destruct (activeSessions w !! sessionId) as [session|]; cbv beta iota;
    eexists; (split; [reflexivity|]); repeat split;
    first [eexists; reflexivity | exists []; now rewrite app_nil_r].
Qed.

(** The conclusion of a login returns nothing but a success with the id
    of the session. *)
Lemma conclude_returns (sessionId email : string) (version : Version) (quickLogin : bool)
    (hs : Handles) (requires2FA : bool) (result : LoginResult) (w w' : World) :
  conclude sessionId email version quickLogin hs requires2FA w = (Ok result, w') ->
  requires2FA = false /\ r_success result = true /\ r_sessionId result = Some sessionId.
Proof.
  unfold conclude, DEBUG_ENABLED. destruct requires2FA.
  - unfold createDebugSnapshot, emit, dateNow. unfold_monad. discriminate.
  - unfold JsM.bind at 1.
    destruct (createDebugSnapshot _ _ w) as [[[]|e] w1]; [|discriminate].
    unfold JsM.bind at 1.
    destruct (checkLoginSuccessOn (h_page hs) w1) as [[[|]|e] w2]; [| |discriminate].
    + unfold JsM.bind at 1.
      destruct (saveCookies _ _ _ w2) as [[?|e] w3]; [|discriminate].
      unfold JsM.bind at 1.
      destruct (saveSessionState _ _ _ _ w3) as [[?|e] w4]; [|discriminate].
      unfold JsM.bind at 1.
      match goal with
      | |- context [match ?m w4 with (_, _) => _ end] => destruct (m w4) as [[[]|e] w5]
      end; [|discriminate].
      unfold JsM.ret. intros [= <- _]. repeat split.
    + unfold JsM.bind at 1.
      destruct (createDebugSnapshot _ _ w2) as [[[]|e] w3]; discriminate.
Qed.

End AttemptOutcomes.



(** ** The route that deletes the data of an account *)

Section WorldUpdates.

Lemma set_files_same (w : World) : set_files (files w) w = w.
Proof. now destruct w. Qed.

Lemma set_dirs_same (w : World) : set_dirs (dirs w) w = w.
Proof. now destruct w. Qed.

Lemma exists_at_file (w : World) (path : string) :
  path ∉ dirs w -> exists_at w path = bool_decide (is_Some (files w !! path)).
Proof.
  intros Hd. unfold exists_at. rewrite (bool_decide_eq_false_2 _ Hd). apply orb_false_r.
Qed.

Lemma found_eq (a b : World) (path : string) :
  files a !! path = files b !! path -> dirs a = dirs b -> found a path = found b path.
Proof. intros Hf Hd. unfold found, exists_at. now rewrite Hf, Hd. Qed.

End WorldUpdates.

Section DeleteRoute.

Lemma removeIfThere_unlink_run (path : string) (n : nat) (w : World) :
  path ∉ dirs w ->
  removeIfThere path unlinkSync n w
  = (Ok (found w path + n)%nat, set_files (delete path (files w)) w).
Proof.
  intros Hd. unfold removeIfThere, existsSync, unlinkSync, found.
  rewrite (exists_at_file w path Hd). unfold_monad.
  rewrite (bool_decide_eq_false_2 _ Hd), orb_false_r.
  destruct (files w !! path) as [c|] eqn:F.
  - rewrite bool_decide_eq_true_2 by eauto. now rewrite F.
  - rewrite bool_decide_eq_false_2 by (intros [? ?]; discriminate).
    rewrite delete_id by exact F. now rewrite set_files_same.
Qed.

Lemma removeIfThere_rm_run (path : string) (n : nat) (w : World) :
  removeIfThere path rmSync n w
  = (Ok (found w path + n)%nat,
     set_files (delete path (files w)) (set_dirs (dirs w ∖ {[path]}) w)).
Proof.
  unfold removeIfThere, existsSync, rmSync, found, exists_at. unfold_monad.
  destruct (bool_decide (is_Some (files w !! path)) || bool_decide (path ∈ dirs w)) eqn:E;
    [reflexivity|].
  apply orb_false_iff in E as [F D].
  apply bool_decide_eq_false in F. apply bool_decide_eq_false in D.
  rewrite delete_id by (destruct (files w !! path) eqn:G; [exfalso; apply F; eauto | reflexivity]).
  rewrite (difference_disjoint_L (dirs w) {[path]}) by set_solver.
  now rewrite set_dirs_same, set_files_same.
Qed.

(** The route as one step. *)
Lemma deleteCookies_run (email : string) (w : World) :
  cookiePath email ∉ dirs w -> sessionPath email ∉ dirs w ->
  deleteCookies email w
  = (Ok (deletedResponse email
           (found w (cookiePath email) + found w (sessionPath email)
            + found w (pathJoin CACHE_DIR (sanitize email)))),
     withoutAccountData email w).
Proof.
  intros Hc Hs. unfold deleteCookies.
  fold (cookiePath email). fold (sessionPath email).
  unfold JsM.try_catch.
  unfold JsM.bind at 1. rewrite (removeIfThere_unlink_run _ _ _ Hc).
  unfold JsM.bind at 1. rewrite removeIfThere_unlink_run by exact Hs.
  unfold JsM.bind at 1. rewrite removeIfThere_rm_run.
  rewrite (found_eq _ w (sessionPath email)).
  2:{ cbn [files set_files]. now rewrite lookup_delete_ne by apply cookiePath_ne_sessionPath. }
  2:{ reflexivity. }
  rewrite (found_eq _ w (pathJoin CACHE_DIR (sanitize email))).
  2:{ cbn [files set_files].
      rewrite !lookup_delete_ne; [reflexivity | |];
        intros H; symmetry in H; revert H; apply cacheDir_ne_cookies. }
  2:{ reflexivity. }
  replace (found w (pathJoin CACHE_DIR (sanitize email))
           + (found w (sessionPath email) + (found w (cookiePath email) + 0)))%nat
    with (found w (cookiePath email) + found w (sessionPath email)
          + found w (pathJoin CACHE_DIR (sanitize email)))%nat by lia.
  unfold deletedResponse, withoutAccountData.
  destruct (0 <? _)%nat; reflexivity.
Qed.

Lemma found_withoutAccountData (email path : string) (w : World) :
  path = cookiePath email \/ path = sessionPath email
    \/ path = pathJoin CACHE_DIR (sanitize email) ->
  cookiePath email ∉ dirs w -> sessionPath email ∉ dirs w ->
  found (withoutAccountData email w) path = 0%nat.
Proof.
  intros Hp Hc Hs. unfold found, exists_at, withoutAccountData.
  cbn [files dirs set_files set_dirs].
  assert (bool_decide (path ∈ dirs w ∖ {[pathJoin CACHE_DIR (sanitize email)]}) = false) as ->.
  { apply bool_decide_eq_false. destruct Hp as [-> | [-> | ->]]; set_solver. }
  assert (delete (pathJoin CACHE_DIR (sanitize email))
            (delete (sessionPath email) (delete (cookiePath email) (files w))) !! path
          = None) as ->.
  { destruct Hp as [-> | [-> | ->]].
    - rewrite lookup_delete_ne by apply cacheDir_ne_cookies.
      rewrite lookup_delete_ne
        by (intros H; symmetry in H; revert H; apply cookiePath_ne_sessionPath).
      apply lookup_delete_eq.
    - rewrite lookup_delete_ne by apply cacheDir_ne_cookies. apply lookup_delete_eq.
    - apply lookup_delete_eq. }
  rewrite bool_decide_eq_false_2 by (intros [? ?]; discriminate). reflexivity.
Qed.

End DeleteRoute.



(** ** Closing, cancelling and submitting *)

Section ClosingSessions.

Lemma saveSessionState_run (context page : nat) (email : string) (w : World) :
  exists result f,
    saveSessionState context page email COOKIES_DIR w = (Ok result, set_files f w)
    /\ (forall path, path <> cookiePath email -> path <> sessionPath email ->
                     f !! path = files w !! path)
    /\ f !! cookiePath email = savedCookieFile email context w.
Proof.
  unfold saveSessionState, savedCookieFile. unfold JsM.try_catch. unfold JsM.bind at 1.
  rewrite saveCookies_run.
  pose proof (cookiePath_ne_sessionPath email) as Hne.
  unfold cookiePath, sessionPath in *.
  unfold dateNow, observe, writeJson. unfold_monad.
  destruct (contextCookies (pageIn w context)) as [cookies|e];
    unfold pageIn; cbn [browsers set_files site files now];
    fold (pageIn w page);
    destruct (url (pageIn w page)); destruct (title (pageIn w page));
    destruct (localStorage (pageIn w page)); destruct (sessionStorage (pageIn w page));
    (eexists _, _; split;
     [first [reflexivity | symmetry; f_equal; apply set_files_same]|]);
    (split; [intros path Hc Hs|]);
    rewrite ?lookup_insert_ne by congruence;
    rewrite ?lookup_insert_eq; reflexivity.
Qed.

(** [closeSession] on a registered session, field by field. *)
Lemma closeSession_run (sessionId : string) (session : Session) (w : World) :
  activeSessions w !! sessionId = Some session ->
  let run := closeSession sessionId w in
  fst run = Ok closedResult
  /\ activeSessions (snd run) = delete sessionId (activeSessions w)
  /\ browsers (snd run) = browsersAfterClose session (browsers w)
  /\ pending2FASessions (snd run) = pending2FASessions w
  /\ (forall path, path <> cookiePath (s_email session) ->
                   path <> sessionPath (s_email session) ->
                   files (snd run) !! path = files w !! path)
  /\ files (snd run) !! cookiePath (s_email session)
     = savedCookieFile (s_email session) (s_context session) w.
Proof.
  intros Hsession. cbv zeta.
  remember (closeSession sessionId w) as run eqn:Hclose.
  unfold closeSession in Hclose. unfold JsM.try_catch in Hclose.
  unfold JsM.bind at 1 in Hclose. unfold JsM.get at 1 in Hclose. rewrite Hsession in Hclose.
  unfold JsM.bind at 1 in Hclose. rewrite saveCookies_run in Hclose.
  assert (exists f,
             snd (match contextCookies (pageIn w (s_context session)) with
                  | Ok cookies =>
                      (Ok (Some (pathJoin COOKIES_DIR (cookieFileName (s_email session)))),
                       set_files
                         (<[pathJoin COOKIES_DIR (cookieFileName (s_email session))
                              := CookieJson (cookieBundle (s_email session) (now w) cookies)]>
                            (files w)) w)
                  | Throw _ => (Ok None, w)
                  end) = set_files f w
             /\ (forall path, path <> cookiePath (s_email session) -> f !! path = files w !! path)
             /\ f !! cookiePath (s_email session)
                = savedCookieFile (s_email session) (s_context session) w)
    as (f & Hw1 & Hother & Hcookie).
  { unfold savedCookieFile, cookiePath.
    destruct (contextCookies (pageIn w (s_context session))) as [cookies|e].
    - eexists. split; [reflexivity|]. split.
      + intros path Hp. now rewrite lookup_insert_ne by congruence.
      + apply lookup_insert_eq.
    - exists (files w). split; [symmetry; apply set_files_same|]. split; reflexivity. }
  assert (forall (A : Type) (k : World -> Res A * World),
             match (match contextCookies (pageIn w (s_context session)) with
                    | Ok cookies =>
                        (Ok (Some (pathJoin COOKIES_DIR (cookieFileName (s_email session)))),
                         set_files
                           (<[pathJoin COOKIES_DIR (cookieFileName (s_email session))
                                := CookieJson (cookieBundle (s_email session) (now w) cookies)]>
                              (files w)) w)
                    | Throw _ => (Ok None, w)
                    end) with
             | (Ok _, w1) => k w1
             | (Throw e, w1) => (Throw e, w1)
             end = k (set_files f w)) as Hstep.
  { intros A k. rewrite <- Hw1.
    destruct (contextCookies (pageIn w (s_context session))); reflexivity. }
  rewrite Hstep in Hclose. clear Hstep Hw1.
  unfold JsM.bind at 1 in Hclose.
  destruct (saveSessionState_run (s_context session) (s_page session) (s_email session)
              (set_files f w)) as (result & g & Hrun & Hg & Hgc).
  rewrite Hrun in Hclose. cbn [files set_files] in Hg.
  assert (savedCookieFile (s_email session) (s_context session) (set_files f w)
          = savedCookieFile (s_email session) (s_context session) w) as Hsame.
  { unfold savedCookieFile, pageIn. cbn [browsers set_files site files now].
    fold (pageIn w (s_context session)).
    destruct (contextCookies (pageIn w (s_context session))) eqn:E; [reflexivity|].
    rewrite Hcookie. unfold savedCookieFile. now rewrite E. }
  unfold browserClose, emit, deleteActiveSession in Hclose.
  unfold browsersAfterClose, closedResult.
  destruct (s_browser session) as [browser|]; unfold_monad; subst run;
    cbn [fst snd activeSessions browsers pending2FASessions files
           set_activeSessions set_browsers set_trace set_files];
    (do 4 (split; [reflexivity|]);
     split; [intros path Hc Hs; rewrite Hg by assumption; now apply Hother
            |rewrite Hgc; exact Hsame]).
Qed.

End ClosingSessions.

(** X11: [closeSession] on a registered session answers with a success,
    saves the cookies of the page under the identity of the session when
    they can be read, touches no file of another identity, closes the
    browser of the session when the session holds one, removes the
    session from [activeSessions] and leaves the pending entries alone,
    so an entry of [pending2FASessions] for the session stays.  A second
    call for the same id reports that the session was not found and
    changes nothing. *)
Theorem closeSession_registered (sessionId : string) (session : Session) (w : World) :
  activeSessions w !! sessionId = Some session ->
  let run := closeSession sessionId w in
  fst run = Ok closedResult
  /\ activeSessions (snd run) = delete sessionId (activeSessions w)
  /\ browsers (snd run) = browsersAfterClose session (browsers w)
  /\ pending2FASessions (snd run) = pending2FASessions w
  /\ (forall path, path <> cookiePath (s_email session) ->
                   path <> sessionPath (s_email session) ->
                   files (snd run) !! path = files w !! path)
  /\ files (snd run) !! cookiePath (s_email session)
     = savedCookieFile (s_email session) (s_context session) w
  /\ closeSession sessionId (snd run)
     = (Ok {| c_success := false; c_message := "Sesión no encontrada" |}, snd run).
Proof.
  intros Hsession run.
  destruct (closeSession_run sessionId session w Hsession) as (H1 & H2 & H3 & H4 & H5 & H6).
  repeat (split; [assumption|]).
  apply closeSession_unknown. subst run. rewrite H2. apply lookup_delete_eq.
Qed.

Lemma closeSession_registered_witness :
  let run := closeSession suspendedId afterDirectLogin in
  fst run = Ok closedResult
  /\ activeSessions (snd run) = delete suspendedId (activeSessions afterDirectLogin)
  /\ browsers (snd run) = browsersAfterClose directSession (browsers afterDirectLogin)
  /\ pending2FASessions (snd run) = pending2FASessions afterDirectLogin
  /\ (forall path, path <> cookiePath (s_email directSession) ->
                   path <> sessionPath (s_email directSession) ->
                   files (snd run) !! path = files afterDirectLogin !! path)
  /\ files (snd run) !! cookiePath (s_email directSession)
     = savedCookieFile (s_email directSession) (s_context directSession) afterDirectLogin
  /\ closeSession suspendedId (snd run)
     = (Ok {| c_success := false; c_message := "Sesión no encontrada" |}, snd run).
Proof.
  apply (closeSession_registered suspendedId directSession afterDirectLogin).
  vm_compute. reflexivity.
Defined.

Section CancelRoute.

Lemma deletePending_other (sessionId other : string) (l : list (string * Pending)) :
  other <> sessionId ->
  lookupPending other (deletePending sessionId l) = lookupPending other l.
Proof. intros Hne. apply lookupPending_deletePending_ne. congruence. Qed.

End CancelRoute.



Section SubmitRoute.

Lemma sessionKept_refl (sessionId : string) (w : World) : sessionKept sessionId w w.
Proof. repeat split. Qed.

Lemma sessionKept_trans (sessionId : string) (a b c : World) :
  sessionKept sessionId a b -> sessionKept sessionId b c -> sessionKept sessionId a c.
Proof.
  intros (A1 & A2 & A3 & A4 & A5) (B1 & B2 & B3 & B4 & B5).
  repeat split; try congruence. intros other Hne. now rewrite B5, A5.
Qed.

Lemma processCode_keeps_session (sessionId code : string) (sessionData : Pending)
    (w : World) :
  sessionKept sessionId w (snd (processCode sessionId code sessionData w)).
Proof.
  apply (fp_processCode (sessionKept sessionId) (fun _ => True) (p_email sessionData)
           sessionId);
    try (intros; exact I);
    try exact (sessionKept_refl sessionId);
    try exact (sessionKept_trans sessionId);
    try reflexivity;
    intros; repeat split;
    cbn [activeSessions pending2FASessions timers browsers dirs
           set_now set_files set_trace set_browsers set_promises set_pending2FASessions];
    first [ reflexivity
          | apply elapseBrowser_open
          | apply open_insert; assumption
          | intros; now apply deletePending_other ].
Qed.

End SubmitRoute.

(** X13: [/submit-2fa] never throws and never tears anything down,
    whatever the code is and whatever the site does with it: no session
    record is added or removed, no browser is added or closed, and the
    pending entries of the other sessions are as before.  After a wrong
    code, or after an error while the code is entered, the session is
    still registered with its browser as it was. *)
Theorem submit2FA_keeps_the_session (sessionId code : string) (w : World) :
  (exists response, fst (submit2FA sessionId code w) = Ok response)
  /\ sessionKept sessionId w (snd (submit2FA sessionId code w)).
Proof.
  remember (submit2FA sessionId code w) as run eqn:Hrun.
  unfold submit2FA in Hrun. unfold JsM.try_catch at 1 in Hrun.
  destruct (bool_decide (sessionId = "") || bool_decide (code = "")).
  { unfold_monad. subst run. split; [eauto | apply sessionKept_refl]. }
  unfold JsM.bind at 1 in Hrun. unfold JsM.get at 1 in Hrun.
  destruct (lookupPending sessionId (pending2FASessions w)) as [sessionData|].
  2:{ unfold_monad. subst run. split; [eauto | apply sessionKept_refl]. }
  unfold JsM.try_catch in Hrun.
  pose proof (processCode_keeps_session sessionId code sessionData w) as Hkept.
  destruct (processCode sessionId code sessionData w) as [[response|error] w1];
    unfold JsM.ret in Hrun; subst run; cbn [fst snd] in *; split; eauto.
Qed.

(** ** What a login emits and what it changes *)

Section WhatALoginEmits.

Lemma quick_attempt_entersNothing (email : string) (password : option string)
    (version : Version) (w : World) :
  emitsOnly entersNothing w (snd (attemptLoginWithVersion email password version true w)).
Proof.
  apply (fp_quick_login (emitsOnly entersNothing) entersNothing email version
           (sessionIdOf email version true (now w)));
    first [ reflexivity | intros; exact I | emits_side ].
Qed.

Lemma quick_attempt_pending (email : string) (password : option string)
    (version : Version) (w : World) :
  pending2FASessions (snd (attemptLoginWithVersion email password version true w))
  = pending2FASessions w.
Proof.
  apply (fp_quick_login (fun a b => pending2FASessions b = pending2FASessions a)
           (fun _ => True) email version (sessionIdOf email version true (now w)));
    first [ reflexivity | intros; exact I | intros; congruence ].
Qed.

Lemma normal_attempt_startsFresh (email : string) (password : option string)
    (version : Version) (w : World) :
  emitsOnly startsFresh w (snd (attemptLoginWithVersion email password version false w)).
Proof.
  apply (fp_normal_login (emitsOnly startsFresh) startsFresh email version
           (sessionIdOf email version false (now w)));
    first [ reflexivity | intros; exact I | emits_side ].
Qed.

Lemma secondFactorSignal_world (error : JsError) (email : string) (version : Version)
    (label : string) (w : World) :
  snd (secondFactorSignal error email version label w) = w.
Proof.
  unfold secondFactorSignal. unfold_monad.
  destruct (startsWith _ _); [reflexivity|].
  destruct (0 <? _)%nat; [|reflexivity].
  destruct (fst <$> List.find _ _) as [sessionId|]; [|reflexivity].
  destruct (bool_decide _); reflexivity.
Qed.

Lemma loginOneVersion_startsFresh (email : string) (password : option string)
    (version : Version) (w : World) :
  emitsOnly startsFresh w (snd (loginOneVersion email password version w)).
Proof.
  unfold loginOneVersion, JsM.try_catch.
  pose proof (normal_attempt_startsFresh email password version w) as H.
  destruct (attemptLoginWithVersion email password version false w) as [[r|e] w1];
    [exact H|].
  unfold JsM.bind.
  pose proof (secondFactorSignal_world e email version (versionLabel version) w1) as Hw.
  destruct (secondFactorSignal e email version (versionLabel version) w1) as [[[r|]|e'] w2];
    cbn [snd] in *; subst w2; exact H.
Qed.

Lemma autoAttempt_startsFresh (email : string) (password : option string)
    (version : Version) (w : World) :
  emitsOnly startsFresh w (snd (autoAttempt email password version w)).
Proof.
  unfold autoAttempt, JsM.try_catch, JsM.bind.
  pose proof (normal_attempt_startsFresh email password version w) as H.
  destruct (attemptLoginWithVersion email password version false w) as [[r|e] w1].
  - destruct (r_success r); exact H.
  - pose proof (secondFactorSignal_world e email version (versionLabel version) w1) as Hw.
    destruct (secondFactorSignal e email version (versionLabel version) w1) as [r w2];
      cbn [snd] in *; subst w2; exact H.
Qed.

End WhatALoginEmits.

(** X14: a quick login, for every choice of the dialect, enters nothing:
    it launches no fresh browser, types and fills in nothing, makes no
    check for a second factor, and leaves the pending entries as they
    were.  A quick login never ends waiting for a code. *)
Theorem quick_login_enters_nothing (email versionChoice : string) (w : World) :
  emitsOnly entersNothing w (snd (performQuickLogin email versionChoice w))
  /\ pending2FASessions (snd (performQuickLogin email versionChoice w))
     = pending2FASessions w.
Proof.
  unfold performQuickLogin.
  destruct (bool_decide (versionChoice = "mobile"));
    [split; [apply quick_attempt_entersNothing | apply quick_attempt_pending]|].
  destruct (bool_decide (versionChoice = "desktop"));
    [split; [apply quick_attempt_entersNothing | apply quick_attempt_pending]|].
  unfold JsM.bind.
  pose proof (quick_attempt_entersNothing email None mobile w) as He.
  pose proof (quick_attempt_pending email None mobile w) as Hp.
  destruct (attemptLoginWithVersion email None mobile true w) as [[mobileResult|e] w1];
    cbn [snd] in *; [|now split].
  destruct (r_success mobileResult); [now split|].
  pose proof (quick_attempt_entersNothing email None desktop w1) as He2.
  pose proof (quick_attempt_pending email None desktop w1) as Hp2.
  destruct (attemptLoginWithVersion email None desktop true w1) as [[desktopResult|e] w2];
    cbn [snd] in *.
  - assert (emitsOnly entersNothing w w2 /\ pending2FASessions w2 = pending2FASessions w)
      as Hboth by (split; [eapply emitsOnly_trans; eassumption | congruence]).
    destruct (r_success desktopResult); [exact Hboth|].
    destruct (bool_decide _); exact Hboth.
  - split; [eapply emitsOnly_trans; eassumption | congruence].
Qed.

(** X15: a full login, for every choice of the dialect, starts from
    nothing stored: it launches no persistent context, so no cache
    directory and no saved cookies are given to a browser, and it writes
    no stored storage into a page. *)
Theorem full_login_starts_fresh (email : string) (password : option string)
    (versionChoice : string) (w : World) :
  emitsOnly startsFresh w
    (snd (performFacebookLoginPersistent email password versionChoice w)).
Proof.
  unfold performFacebookLoginPersistent.
  destruct (bool_decide (versionChoice = "mobile")); [apply loginOneVersion_startsFresh|].
  destruct (bool_decide (versionChoice = "desktop")); [apply loginOneVersion_startsFresh|].
  unfold JsM.bind.
  pose proof (autoAttempt_startsFresh email password mobile w) as H1.
  destruct (autoAttempt email password mobile w) as [[[r|]|e] w1]; cbn [snd] in *;
    try exact H1.
  pose proof (autoAttempt_startsFresh email password desktop w1) as H2.
  destruct (autoAttempt email password desktop w1) as [[[r|]|e] w2]; cbn [snd] in *;
    eapply emitsOnly_trans; eassumption.
Qed.

Section OwnData.

Variable email : string.
Variable version : Version.
Variable sessionId : string.

Lemma onlyOwnData_refl (w : World) : onlyOwnData email version sessionId w w.
Proof. repeat split; auto. Qed.

Lemma onlyOwnData_trans (a b c : World) :
  onlyOwnData email version sessionId a b -> onlyOwnData email version sessionId b c ->
  onlyOwnData email version sessionId a c.
Proof.
  intros (A1 & A2 & A3 & A4 & A5 & A6 & A7) (B1 & B2 & B3 & B4 & B5 & B6 & B7).
  split; [intros path Hc Hs; now rewrite B1, A1|].
  split; [intros dir Hd; now rewrite B2, A2|].
  split; [intros other Hne; now rewrite B3, A3|].
  split; [intros other Hne; now rewrite B4, A4|].
  split; [congruence|]. split; [congruence | lia].
Qed.

End OwnData.

Ltac ownData_side :=
  first
    [ exact (onlyOwnData_refl _ _ _)
    | exact (onlyOwnData_trans _ _ _)
    | intros; exact I
    | reflexivity
    | intros; unfold onlyOwnData;
      cbn [files dirs activeSessions pending2FASessions timers promises browsers
             set_now set_draws set_files set_dirs set_trace set_browsers
             set_activeSessions set_pending2FASessions];
      rewrite ?length_fmap, ?length_insert, ?length_alter, ?length_app;
      (split; [intros ? ? ?|]);
      [unfold cookiePath, sessionPath in *;
       first [reflexivity | now rewrite lookup_insert_ne by congruence]|];
      (split; [intros ? ?|]);
      [first [reflexivity | set_solver]|];
      (split; [intros ? ?|]);
      [first [reflexivity
             | now rewrite lookup_insert_ne by congruence
             | now rewrite lookup_delete_ne by congruence]|];
      (split; [intros ? ?|]);
      [first [reflexivity | apply lookupPending_setPending_ne; congruence]|];
      (split; [reflexivity|]); (split; [reflexivity|]); cbn [length]; lia ].


(** ** Typing and waiting for the login button *)

Section Typing.

Lemma typed_app (a b : list Event) : typed (a ++ b) = typed a +:+ typed b.
Proof.
  induction a as [|e a IH]; [reflexivity|].
  destruct e as [| | | |h []|? ?|? ?|]; cbn [app typed]; try exact IH.
  rewrite IH. reflexivity.
Qed.

Lemma typeChars_typed (page : nat) (text : string) :
  forall (i : nat) (w : World),
    exists t,
      trace (snd (typeChars page i text w)) = trace w ++ t
      /\ Forall (keyOrPause page) t
      /\ match fst (typeChars page i text w) with
         | Ok _ => typed t = text
         | Throw _ => exists rest, text = typed t +:+ rest
         end.
Proof.
  induction text as [|c rest IH]; intros i w.
  - exists []. cbn. rewrite app_nil_r. repeat split. constructor.
  - remember (typeChars page i (String c rest) w) as run eqn:Hrun.
    cbn [typeChars] in Hrun. unfold randomDelay, sleep, emit in Hrun.
    unfold JsM.bind, JsM.ret, JsM.get, JsM.modify in Hrun. cbv beta iota in Hrun.
    match type of Hrun with
    | context [act page (KeyboardType c) ?W] =>
        pose proof (act_trace page (KeyboardType c) W) as Hact;
        destruct (act page (KeyboardType c) W) as [[[]|e] w1]
    end; cbn [snd trace set_draws] in Hact.
    + destruct (0 <? i)%nat; [destruct (pauseDue i _)|];
        match type of Hrun with
        | context [typeChars page (S i) rest ?W] =>
            destruct (IH (S i) W) as (t & Ht & Hall & Hres);
            destruct (typeChars page (S i) rest W) as [[[]|e'] w']
        end;
        subst run; cbn [fst snd] in *;
        cbn [trace set_draws set_trace set_browsers set_now] in Ht;
        (eexists; split;
         [rewrite Ht, Hact, <- ?app_assoc; reflexivity|]);
        (split;
         [repeat (apply Forall_app; split); try exact Hall;
          repeat constructor|]);
        rewrite ?typed_app; cbn [typed app];
        first [ now rewrite Hres
              | destruct Hres as [more Hmore]; exists more; now rewrite Hmore ].
    + subst run. cbn [fst snd]. eexists. split; [exact Hact|].
      split; [repeat constructor|]. exists rest. reflexivity.
Qed.

End Typing.

(** X17: [typeOptimized] clicks the field and then types the text one key
    per character, in the order of the text, with nothing but pauses in
    between: when it returns, the keys typed spell the text; when an
    action throws, the keys typed so far, the one that failed included,
    are the beginning of the text. *)
Theorem typeOptimized_types_the_text (page : nat) (selector text : string) (w : World) :
  exists t,
    trace (snd (typeOptimized page selector (Some text) w))
    = trace w ++ EvAction page (PageClick selector) :: t
    /\ Forall (keyOrPause page) t
    /\ match fst (typeOptimized page selector (Some text) w) with
       | Ok _ => typed t = text
       | Throw _ => exists rest, text = typed t +:+ rest
       end.
Proof.
  remember (typeOptimized page selector (Some text) w) as run eqn:Hrun.
  unfold typeOptimized in Hrun. unfold JsM.bind at 1 in Hrun.
  pose proof (act_trace page (PageClick selector) w) as Hact.
  destruct (act page (PageClick selector) w) as [[[]|e] w1]; cbn [snd] in Hact.
  - unfold JsM.bind at 1 in Hrun.
    destruct (sleep_run 300 w1) as (w2 & Hsleep & Hw2). rewrite Hsleep in Hrun.
    destruct (typeChars_typed page text 0 w2) as (t & Ht & Hall & Hres).
    subst run. exists (EvSleep 300 :: t). split.
    + rewrite Ht, Hw2, Hact, <- !app_assoc. reflexivity.
    + split; [constructor; [exact I | exact Hall]|]. exact Hres.
  - subst run. exists []. split; [exact Hact|]. split; [constructor|].
    exists text. reflexivity.
Qed.

Section WaitingForTheButton.

Lemma getSelectorsForVersion_returns (p : PageState) :
  match url p with
  | Ok _ => exists selectors, getSelectorsForVersion p = Ok selectors
  | Throw e => getSelectorsForVersion p = Throw e
  end.
Proof.
  unfold getSelectorsForVersion, detectFacebookVersion.
  destruct (url p) as [u|e]; cbn [ResM.bind]; [|reflexivity].
  destruct (includes u "m.facebook.com"); [eauto|].
  destruct (_ || _); [eauto|].
  destruct (isVisible p (Loc (css "input[id=`m_login_email`]"))) as [[|]|];
    cbn [ResM.bind ResM.try_catch]; eauto.
  destruct (isVisible p (Loc (css "input[data-testid=`royal_email`]"))) as [[|]|];
    cbn [ResM.bind ResM.try_catch]; eauto.
Qed.

Lemma waitLoop_ends (page : nat) (startTime maxWaitMs : Z) (fallback : list string) :
  forall (rounds : nat) (w : World),
    maxWaitMs - (now w - startTime) <= 1000 * Z.of_nat rounds ->
    exists found w' (n : nat),
      waitLoop rounds page startTime maxWaitMs fallback w = (Ok found, w')
      /\ (n <= rounds)%nat
      /\ now w' = now w + 1000 * Z.of_nat n
      /\ trace w' = trace w ++ replicate n (EvSleep 1000)
      /\ (now w' - startTime < maxWaitMs
          /\ is_Some found
          /\ found = findElement (pageIn w' page) readyButtonSelectors
          \/ maxWaitMs <= now w' - startTime
             /\ found = findElement (pageIn w' page) fallback).
Proof.
  induction rounds as [|rounds IH]; intros w Hle.
  - assert (Hcond : (now w - startTime <? maxWaitMs) = false) by (apply Z.ltb_ge; lia).
    cbn [waitLoop]. unfold dateNow, observe. unfold_monad. rewrite Hcond.
    exists (findElement (pageIn w page) fallback), w, 0%nat.
    split; [reflexivity|]. split; [lia|]. split; [lia|].
    split; [cbn; now rewrite app_nil_r|]. right. split; [lia | reflexivity].
  - cbn [waitLoop]. unfold dateNow, observe. unfold_monad. cbv beta iota.
    destruct (now w - startTime <? maxWaitMs) eqn:Hcond.
    + destruct (findElement (pageIn w page) readyButtonSelectors) as [readyButton|] eqn:Hready.
      * exists (Some readyButton), w, 0%nat.
        split; [reflexivity|]. split; [lia|]. split; [lia|].
        split; [cbn; now rewrite app_nil_r|]. left.
        split; [now apply Z.ltb_lt|]. split; [eauto | now rewrite Hready].
      * destruct (sleep_run 1000 w) as (w1 & Hrun & Htrace).
        assert (Hnow : now w1 = now w + 1000).
        { unfold sleep, emit in Hrun. unfold_monad. cbv beta iota in Hrun.
          injection Hrun as <-. reflexivity. }
        rewrite Hrun.
        destruct (IH w1) as (found & w' & n & Hloop & Hn & Hnow' & Htrace' & Hfound);
          [rewrite Hnow; lia|].
        exists found, w', (S n). split; [exact Hloop|]. split; [lia|].
        split; [rewrite Hnow', Hnow; lia|].
        split; [|exact Hfound].
        rewrite Htrace', Htrace, <- app_assoc. reflexivity.
    + exists (findElement (pageIn w page) fallback), w, 0%nat.
      split; [reflexivity|]. split; [lia|]. split; [lia|].
      split; [cbn; now rewrite app_nil_r|]. right.
      split; [now apply Z.ltb_ge | reflexivity].
Qed.

End WaitingForTheButton.

(** X18: [waitForLoginButton] ends.  On a page whose address can be read it
    returns after a whole number of sleeps of one second, at most
    [maxWaitMs] rounded up to the second, and does nothing else: either
    with the ready button it finds on the page before the time is over,
    or, once the time is over, with what [findElement] gives for the
    login button selectors of the dialect.  On a page whose address
    cannot be read it throws at once. *)
Theorem waitForLoginButton_ends (page : nat) (maxWaitMs : Z) (w : World) :
  match url (pageIn w page) with
  | Throw e => waitForLoginButton page maxWaitMs w = (Throw e, w)
  | Ok _ =>
      exists selectors found w' (n : nat),
        getSelectorsForVersion (pageIn w page) = Ok selectors
        /\ waitForLoginButton page maxWaitMs w = (Ok found, w')
        /\ 1000 * Z.of_nat n < Z.max maxWaitMs 0 + 1000
        /\ now w' = now w + 1000 * Z.of_nat n
        /\ trace w' = trace w ++ replicate n (EvSleep 1000)
        /\ (now w' - now w < maxWaitMs
            /\ is_Some found
            /\ found = findElement (pageIn w' page) readyButtonSelectors
            \/ maxWaitMs <= now w' - now w
               /\ found = findElement (pageIn w' page) (sel_loginButton selectors))
  end.
Proof.
  pose proof (getSelectorsForVersion_returns (pageIn w page)) as Hsel.
  unfold waitForLoginButton, dateNow, observe. unfold_monad.
  destruct (url (pageIn w page)) as [u|e].
  - destruct Hsel as [selectors Hsel]. rewrite Hsel.
    destruct (waitLoop_ends page (now w) maxWaitMs (sel_loginButton selectors)
                (roundsFor maxWaitMs) w)
      as (found & w' & n & Hloop & Hn & Hnow & Htrace & Hfound).
    { pose proof (roundsFor_enough maxWaitMs). lia. }
    exists selectors, found, w', n. split; [reflexivity|].
    split; [exact Hloop|]. split; [|now repeat split].
    destruct Hfound as [(Hlt & _) | (Hge & _)].
    + lia.
    + assert (Z.of_nat n <= Z.of_nat (roundsFor maxWaitMs)) as Hn' by lia.
      unfold roundsFor in Hn'.
      destruct (Z_le_gt_dec maxWaitMs 0) as [Hneg|Hpos].
      * assert ((maxWaitMs + 999) / 1000 < 1) by (apply Z.div_lt_upper_bound; lia).
        lia.
      * rewrite Z2Nat.id in Hn' by (apply Z.div_pos; lia).
        pose proof (Z.div_mod (maxWaitMs + 999) 1000 ltac:(lia)) as Hdiv.
        pose proof (Z.mod_pos_bound (maxWaitMs + 999) 1000 ltac:(lia)) as Hmod.
        lia.
  - now rewrite Hsel.
Qed.

(** ** What a quick attempt leaves behind *)

Section QuickAttempt.

Lemma createPersistentContext_run (email : string) (version : Version) (w : World) :
  match createPersistentContext email version w with
  | (Ok persistentData, w') =>
      pd_context persistentData = length (browsers w)
      /\ pd_browser persistentData
         = (if persistentContextHasBrowser (site w) then Some (length (browsers w)) else None)
      /\ pd_cacheDir persistentData = pathJoin CACHE_DIR (cacheDirName email version)
      /\ activeSessions w' = activeSessions w
      /\ b_open <$> browsers w' = (b_open <$> browsers w) ++ [true]
  | (Throw _, w') =>
      activeSessions w' = activeSessions w /\ browsers w' = browsers w
  end.
Proof.
  unfold createPersistentContext. unfold JsM.bind at 1. rewrite loadCookies_run.
  unfold existsSync, mkdirSync, launchPersistentContext, emit, openBrowser.
  unfold_monad. cbv beta iota.
  destruct (negb _); cbv beta iota;
    cbn [site browsers set_trace set_dirs];
    match goal with
    | |- context [launchState ?s ?h ?v ?c] => destruct (launchState s h v c) as [d|e]
    end; cbv beta iota;
    cbn [pd_context pd_browser pd_cacheDir activeSessions browsers site
           set_browsers set_trace set_dirs];
    repeat split; now rewrite fmap_app.
Qed.

Lemma tryCookiesAndCache_run (sessionId email : string) (version : Version)
    (quickLogin : bool) (hs : Handles) (w : World) :
  exists direct w',
    tryCookiesAndCache sessionId email version quickLogin hs w = (Ok direct, w')
    /\ undisturbed w w'
    /\ match direct with
       | Some result =>
           r_success result = true /\ r_sessionId result = Some sessionId
           /\ r_usedSavedData result = Some true
       | None => True
       end.
Proof.
  pose proof (fp_tryCookiesAndCache undisturbed (fun _ => True) email version sessionId)
    as Hkeeps.
  assert (undisturbed w (snd (tryCookiesAndCache sessionId email version quickLogin hs w)))
    as Hu by (apply Hkeeps; undisturbed_side).
  clear Hkeeps. revert Hu.
  unfold tryCookiesAndCache. unfold JsM.try_catch.
  match goal with
  | |- context [match ?m w with (_, _) => _ end] =>
      assert (match m w with
              | (Ok (Some result), _) =>
                  r_success result = true /\ r_sessionId result = Some sessionId
                  /\ r_usedSavedData result = Some true
              | _ => True
              end) as Hvalue;
      [|destruct (m w) as [[[result|]|e] w1]]
  end.
  { unfold JsM.bind, JsM.ret. cbv beta.
    repeat match goal with
           | |- context [match (if ?b then _ else _) ?v with (_, _) => _ end] =>
               destruct b; cbv beta iota
           | |- context [match ?m ?v with (_, _) => _ end] =>
               destruct (m v) as [[?|?] ?]; cbv beta iota; try exact I
           end.
    all: try exact I; repeat split. }
  all: cbn [snd]; intros Hu; unfold JsM.ret; eexists _, _;
    (split; [reflexivity|]); split; [exact Hu | first [exact Hvalue | exact I]].
Qed.

Lemma quick_registered_undisturbed (sessionId email : string) (version : Version)
    (w a b : World) :
  registeredQuick sessionId email version w a -> undisturbed a b ->
  registeredQuick sessionId email version w b.
Proof.
  intros ((session & Ha & Hrest) & Ho) (Ha' & _ & _ & _ & Ho' & _).
  split; [exists session; split; [congruence | exact Hrest] | congruence].
Qed.

(** The end of a quick attempt: the result of the direct entry, or the
    close of the browser. *)
Lemma quick_attempt_end (sessionId email : string) (version : Version)
    (browser : option nat) (direct : option LoginResult) (w : World) :
  match (match direct with
         | Some result => JsM.ret result
         | None =>
             closeMaybe browser ;;;
             deleteActiveSession sessionId ;;;
             JsM.ret (resultOf false None
               ("Quick login " +:+ versionName version +:+ " falló para " +:+ email
                  +:+ ". Las cookies pueden haber expirado.")
               (Some "QUICK_LOGIN_FAILED") (Some (versionName version)))
         end) w with
  | (Ok result, w') =>
      match direct with
      | Some given => result = given /\ w' = w
      | None =>
          exists h, browser = Some h
                    /\ r_success result = false
                    /\ r_error result = Some "QUICK_LOGIN_FAILED"
                    /\ activeSessions w' = delete sessionId (activeSessions w)
                    /\ browsers w' = alter closeIt h (browsers w)
      end
  | (Throw error, w') =>
      direct = None /\ browser = None /\ w' = w
      /\ error = TypeError "Cannot read properties of null (reading 'close')"
  end.
Proof.
  destruct direct as [given|]; [unfold JsM.ret; auto|].
  unfold closeMaybe, browserClose, deleteActiveSession, emit.
  destruct browser as [h|]; unfold_monad; cbv beta iota.
  - exists h. repeat split.
  - repeat split.
Qed.

End QuickAttempt.



(** ** The session file *)

Section SessionFile.

Lemma saveSessionState_file (context page : nat) (email address heading : string)
    (local session : Storage) (w : World) :
  url (pageIn w page) = Ok address ->
  title (pageIn w page) = Ok heading ->
  localStorage (pageIn w page) = Ok local ->
  sessionStorage (pageIn w page) = Ok session ->
  fst (saveSessionState context page email COOKIES_DIR w) = Ok (Some (sessionPath email))
  /\ files (snd (saveSessionState context page email COOKIES_DIR w)) !! sessionPath email
     = Some (SessionJson (sessionBundle email (now w) address heading local session)).
Proof.
  intros Hu Ht Hl Hs.
  remember (saveSessionState context page email COOKIES_DIR w) as run eqn:Hrun.
  unfold saveSessionState in Hrun. unfold JsM.try_catch in Hrun.
  unfold JsM.bind at 1 in Hrun. rewrite saveCookies_run in Hrun.
  unfold dateNow, observe, writeJson in Hrun. unfold_monad.
  destruct (contextCookies (pageIn w context)) as [cookies|e];
    unfold pageIn in Hrun; cbn [browsers set_files site files now] in Hrun;
    fold (pageIn w page) in Hrun; rewrite Hu, Ht, Hl, Hs in Hrun;
    subst run; cbn [fst snd files set_files]; unfold sessionPath;
    (split; [reflexivity | apply lookup_insert_eq]).
Qed.

Lemma restoreSessionState_run (page : nat) (email : string) (state : SessionState)
    (local session : Storage) (w : World) :
  files w !! sessionPath email = Some (SessionJson state) ->
  ss_localStorage state = Some local ->
  ss_sessionStorage state = Some session ->
  exists restored,
    fst (restoreSessionState page email COOKIES_DIR w) = Ok restored
    /\ (trace (snd (restoreSessionState page email COOKIES_DIR w))
        = trace w ++ [EvAction page (SetLocalStorage local);
                      EvAction page (SetSessionStorage session)]
        \/ restored = false
           /\ trace (snd (restoreSessionState page email COOKIES_DIR w))
              = trace w ++ [EvAction page (SetLocalStorage local)]).
Proof.
  intros Hfile Hlocal Hsession.
  remember (restoreSessionState page email COOKIES_DIR w) as run eqn:Hrun.
  unfold restoreSessionState in Hrun. unfold JsM.try_catch in Hrun.
  fold (sessionPath email) in Hrun.
  unfold JsM.bind at 1 in Hrun. unfold existsSync in Hrun.
  unfold JsM.bind at 1 in Hrun. unfold JsM.get at 1, JsM.ret at 1 in Hrun.
  cbv beta iota in Hrun. rewrite Hfile in Hrun.
  rewrite bool_decide_eq_true_2 in Hrun by eauto. cbn [orb negb] in Hrun.
  unfold JsM.bind at 1 in Hrun. unfold readJson in Hrun.
  unfold JsM.bind at 1 in Hrun. unfold JsM.get at 1 in Hrun.
  cbv beta iota in Hrun. rewrite Hfile in Hrun.
  unfold JsM.ret at 1 in Hrun. cbv beta iota in Hrun.
  cbn [storagesOf fst snd] in Hrun. rewrite Hlocal, Hsession in Hrun.
  unfold JsM.bind at 1 in Hrun.
  pose proof (act_trace page (SetLocalStorage local) w) as H1.
  destruct (act page (SetLocalStorage local) w) as [[[]|e] w1]; cbn [snd] in H1.
  - unfold JsM.bind at 1 in Hrun.
    pose proof (act_trace page (SetSessionStorage session) w1) as H2.
    destruct (act page (SetSessionStorage session) w1) as [[[]|e] w2]; cbn [snd] in H2;
      unfold JsM.ret in Hrun; subst run; cbn [fst snd];
      eexists; (split; [reflexivity|]); left;
      rewrite H2, H1, <- app_assoc; reflexivity.
  - unfold JsM.ret in Hrun. subst run. cbn [fst snd].
    exists false. split; [reflexivity|]. right. split; [reflexivity | exact H1].
Qed.

End SessionFile.

(** X20: what [saveSessionState] has written, [restoreSessionState] puts
    back, however old it is.  When the address, the title and the two
    storages of the page can be read, the session file of the identity is
    written; in every later world that still has this file,
    [restoreSessionState] never throws, writes the saved local storage
    into the page and then the saved session storage, and answers [true]
    only when both were written.  Unlike [loadCookies] it has no age
    limit. *)
Theorem saveSessionState_then_restoreSessionState (context page target : nat)
    (email address heading : string) (local session : Storage) (w later : World) :
  url (pageIn w page) = Ok address ->
  title (pageIn w page) = Ok heading ->
  localStorage (pageIn w page) = Ok local ->
  sessionStorage (pageIn w page) = Ok session ->
  files later !! sessionPath email
  = files (snd (saveSessionState context page email COOKIES_DIR w)) !! sessionPath email ->
  fst (saveSessionState context page email COOKIES_DIR w) = Ok (Some (sessionPath email))
  /\ exists restored,
       fst (restoreSessionState target email COOKIES_DIR later) = Ok restored
       /\ (trace (snd (restoreSessionState target email COOKIES_DIR later))
           = trace later ++ [EvAction target (SetLocalStorage local);
                             EvAction target (SetSessionStorage session)]
           \/ restored = false
              /\ trace (snd (restoreSessionState target email COOKIES_DIR later))
                 = trace later ++ [EvAction target (SetLocalStorage local)]).
Proof.
  intros Hu Ht Hl Hs Hlater.
  destruct (saveSessionState_file context page email address heading local session w
              Hu Ht Hl Hs) as (Hsaved & Hfile).
  split; [exact Hsaved|].
  rewrite Hfile in Hlater.
  apply (restoreSessionState_run target email _ local session later Hlater); reflexivity.
Qed.

Lemma saveSessionState_then_restoreSessionState_witness :
  let w := afterDirectLogin in
  let later := set_now (now w + 30 * 24 * 60 * 60 * 1000)
                 (snd (saveSessionState 0 0 "user@example.com" COOKIES_DIR w)) in
  fst (saveSessionState 0 0 "user@example.com" COOKIES_DIR w)
  = Ok (Some (sessionPath "user@example.com"))
  /\ exists restored,
       fst (restoreSessionState 0 "user@example.com" COOKIES_DIR later) = Ok restored
       /\ (trace (snd (restoreSessionState 0 "user@example.com" COOKIES_DIR later))
           = trace later ++ [EvAction 0 (SetLocalStorage [("k", "v")]);
                             EvAction 0 (SetSessionStorage [])]
           \/ restored = false
              /\ trace (snd (restoreSessionState 0 "user@example.com" COOKIES_DIR later))
                 = trace later ++ [EvAction 0 (SetLocalStorage [("k", "v")])]).
Proof.
  intros w later.
  apply (saveSessionState_then_restoreSessionState 0 0 0 "user@example.com"
           "https://m.facebook.com/home.php" "Facebook" [("k", "v")] [] w later).
  - vm_compute. reflexivity.
  - vm_compute. reflexivity.
  - vm_compute. reflexivity.
  - vm_compute. reflexivity.
  - vm_compute. reflexivity.
Defined.

(** ** The route of the login *)



(** ** The automatic choice in the route, the save-login dialog and colliding identities *)

(** X22: [/login] with the automatic choice of the dialect never answers
    with a plain failure: for non-empty credentials the route answers 200
    with a success, or 401 with [requires2FA: true], or 500 with the
    message of the ReferenceError of the last [return]; it answers in
    every case. *)
Theorem login_route_auto (email password versionChoice : string) (w : World) :
  email <> "" -> password <> "" ->
  versionChoice <> "mobile" -> versionChoice <> "desktop" ->
  exists reply w',
    loginRoute email password versionChoice w = (Ok reply, w')
    /\ (lg_status reply = 200%nat /\ lg_success reply = Some true
        \/ lg_status reply = 401%nat /\ lg_success reply = Some false
           /\ lg_requires2FA reply = Some true
        \/ reply = errorReply 500
                     "Error interno del servidor: mobileResult is not defined").
Proof.
  intros He Hp Hm Hd. unfold loginRoute.
  rewrite !bool_decide_eq_false_2 by assumption. cbn [orb].
  unfold JsM.try_catch, JsM.bind.
  pose proof (auto_login_outcomes email (Some password) versionChoice w Hm Hd) as Hauto.
  destruct (performFacebookLoginPersistent email (Some password) versionChoice w)
    as [[result|error] w1]; cbn [fst] in Hauto.
  - destruct (r_success result) eqn:Hs; unfold JsM.ret; eexists _, _;
      (split; [reflexivity|]).
    + left. split; reflexivity.
    + right. left. destruct Hauto as [Hauto|Hauto]; [congruence|].
      cbn. rewrite Hauto. auto.
  - subst error. unfold JsM.ret. eexists _, _. split; [reflexivity|].
    right. right. reflexivity.
Qed.

Lemma login_route_auto_witness :
  exists reply w',
    loginRoute "user@example.com" "secret" "auto" (Demo.start Demo.siteBroken)
    = (Ok reply, w')
    /\ (lg_status reply = 200%nat /\ lg_success reply = Some true
        \/ lg_status reply = 401%nat /\ lg_success reply = Some false
           /\ lg_requires2FA reply = Some true
        \/ reply = errorReply 500
                     "Error interno del servidor: mobileResult is not defined").
Proof.
  apply (login_route_auto "user@example.com" "secret" "auto" (Demo.start Demo.siteBroken));
    discriminate.
Defined.

(** X23: [handleSaveLoginDialog] never throws and clicks at most one
    button: after its wait of two seconds it clicks the button that
    declines to save the login when the page shows one, the button that
    saves only when no declining button is visible, and nothing when
    neither is; it answers [true] exactly when the click went through,
    and then waits two more seconds. *)
Theorem handleSaveLoginDialog_declines_first (page : nat) (w : World) :
  exists handled w1,
    sleep 2000 w = (Ok tt, w1)
    /\ fst (handleSaveLoginDialog page w) = Ok handled
    /\ match dialogButton (pageIn w1 page) with
       | Some button =>
           trace (snd (handleSaveLoginDialog page w))
           = trace w1 ++ EvAction page (Click button)
                           :: (if handled then [EvSleep 2000] else [])
       | None => handled = false /\ snd (handleSaveLoginDialog page w) = w1
       end.
Proof.
  destruct (sleep_run 2000 w) as (w1 & Hsleep & _).
  remember (handleSaveLoginDialog page w) as run eqn:Hrun.
  unfold handleSaveLoginDialog in Hrun. unfold JsM.try_catch in Hrun.
  unfold JsM.bind at 1 in Hrun. rewrite Hsleep in Hrun.
  unfold JsM.bind at 1 in Hrun. unfold observe at 1 in Hrun.
  unfold JsM.bind at 1 in Hrun. unfold JsM.get at 1, JsM.ret at 1 in Hrun.
  cbv beta iota in Hrun.
  fold notNowSelectors in Hrun.
  assert (forall button clicked,
             clicked = (let (r, w') := clickAndSettle page button w1 in
                        match r with
                        | Ok a => (Ok a, w')
                        | Throw _ => JsM.ret false w'
                        end) ->
             exists handled,
               fst clicked = Ok handled
               /\ trace (snd clicked)
                  = trace w1 ++ EvAction page (Click button)
                                  :: (if handled then [EvSleep 2000] else [])) as Hclick.
  { intros button clicked Hclicked. unfold clickAndSettle in Hclicked.
    unfold JsM.bind at 1 in Hclicked.
    pose proof (act_trace page (Click button) w1) as Hact.
    destruct (act page (Click button) w1) as [[[]|e] w2]; cbn [snd] in Hact.
    - unfold JsM.bind at 1 in Hclicked.
      destruct (sleep_run 2000 w2) as (w3 & Hsleep2 & Hw3). rewrite Hsleep2 in Hclicked.
      unfold JsM.bind, JsM.ret in Hclicked. cbv beta iota in Hclicked. subst clicked.
      exists true. split; [reflexivity|].
      cbn [snd]. rewrite Hw3, Hact, <- app_assoc. reflexivity.
    - unfold JsM.ret in Hclicked. cbv beta iota in Hclicked. subst clicked.
      exists false. split; [reflexivity|]. exact Hact. }
  destruct (findElement (pageIn w1 page) notNowSelectors) as [notNowButton|] eqn:Hnot.
  - destruct (Hclick notNowButton run Hrun) as (handled & H1 & H2).
    exists handled, w1. unfold dialogButton. rewrite Hnot.
    split; [exact Hsleep|]. split; [exact H1 | exact H2].
  - unfold JsM.bind at 1 in Hrun. unfold observe at 1 in Hrun.
    unfold JsM.bind at 1 in Hrun. unfold JsM.get at 1, JsM.ret at 1 in Hrun.
    cbv beta iota in Hrun. fold saveSelectors in Hrun.
    destruct (findElement (pageIn w1 page) saveSelectors) as [saveButton|] eqn:Hsave.
    + destruct (Hclick saveButton run Hrun) as (handled & H1 & H2).
      exists handled, w1. unfold dialogButton. rewrite Hnot, Hsave.
      split; [exact Hsleep|]. split; [exact H1 | exact H2].
    + unfold JsM.ret in Hrun. subst run. exists false, w1.
      unfold dialogButton. rewrite Hnot, Hsave.
      split; [exact Hsleep|]. repeat split.
Qed.

(** X24: the cookies saved for one identity are loaded for every identity
    with the same sanitized name.  When two identities differ only in
    characters that [sanitize] maps to the same one, what [saveCookies]
    wrote for the first is what [loadCookies] returns for the second,
    within the seven days: the bundle of the first identity, with its
    cookies and its e-mail. *)
Theorem loadCookies_of_colliding_identity (context : nat) (saved asked : string)
    (cookies : list Cookie) (w later : World) :
  sanitize saved = sanitize asked ->
  contextCookies (pageIn w context) = Ok cookies ->
  files later !! cookiePath asked
  = files (snd (saveCookies context saved COOKIES_DIR w)) !! cookiePath asked ->
  now later - now w <= maxAge ->
  loadCookies asked COOKIES_DIR later
  = (Ok (Some (cookieBundle saved (now w) cookies)), later).
Proof.
  intros Hsame Hcookies Hfile Hage.
  assert (cookiePath asked = cookiePath saved) as Hpath
    by (unfold cookiePath, cookieFileName; now rewrite Hsame).
  rewrite saveCookies_run, Hcookies in Hfile. cbn [snd files set_files] in Hfile.
  rewrite Hpath in Hfile. unfold cookiePath in Hfile at 2.
  rewrite lookup_insert_eq in Hfile.
  rewrite loadCookies_run. fold (cookiePath asked). rewrite Hpath, Hfile.
  cbn [timestampOf cookieBundle cd_timestamp tooOld asCookieData].
  assert ((maxAge <? now later - now w) = false) as -> by (apply Z.ltb_ge; lia).
  reflexivity.
Qed.

Lemma loadCookies_of_colliding_identity_witness :
  let w := afterDirectLogin in
  let later := snd (saveCookies 0 "a.b@example.com" COOKIES_DIR w) in
  loadCookies "a_b@example.com" COOKIES_DIR later
  = (Ok (Some (cookieBundle "a.b@example.com" (now w) [Demo.sessionCookie])), later).
Proof.
  intros w later.
  apply (loadCookies_of_colliding_identity 0 "a.b@example.com" "a_b@example.com"
           [Demo.sessionCookie] w later).
  - reflexivity.
  - vm_compute. reflexivity.
  - reflexivity.
  - vm_compute. discriminate.
Defined.
